(** * Shift-schedule rule engine: validation checks and employee selection

    Shallow embedding of [scheduling_rules.js] (the three-shift revision 2.2)
    and of the selection helpers of the earlier two-shift revision, with the
    properties of the specification stated and proved over the embedding. *)

From stdpp Require Import gmap strings list fin_maps pretty.
From Stdlib Require Import ZArith Lia Ascii Sorted.

Open Scope Z_scope.

(** ** JavaScript [Date]: local calendar days

    Most [Date]s of the engine are built from components with
    [new Date(y, m, d)] and only read back through [getFullYear],
    [getMonth] and [getDate].  Such a [Date] is represented by its local
    day number (days since 1970-01-01); the calendar is the proleptic
    Gregorian one of ECMA-262 (MakeDay), computed here with the usual
    era/day-of-era arithmetic.  The [Date] that a loop mutates and compares
    keeps its time value; it is modelled in [JSTime] below.  The range
    limit of [Date] (about 275760 years around 1970) is not modelled. *)
Module JSDate.

Definition t := Z.

(** Day number of the civil date [y]-[m]-[d], [m] in 1..12; [d] may be
    any integer (MakeDay adds [d - 1] to the first day of the month). *)
Definition days_from_civil (y m d : Z) : Z :=
  let y' := if m <=? 2 then y - 1 else y in
  let era := y' / 400 in
  let yoe := y' - era * 400 in
  let mp := if m <=? 2 then m + 9 else m - 3 in
  let doy := (153 * mp + 2) / 5 + d - 1 in
  let doe := yoe * 365 + yoe / 4 - yoe / 100 + doy in
  era * 146097 + doe - 719468.

(** Year of era, month (1..12) and day of month of a day of era. *)
Definition civil_of_doe (doe : Z) : Z * Z * Z :=
  let yoe := (doe - doe / 1460 + doe / 36524 - doe / 146096) / 365 in
  let doy := doe - (365 * yoe + yoe / 4 - yoe / 100) in
  let mp := (5 * doy + 2) / 153 in
  let d := doy - (153 * mp + 2) / 5 + 1 in
  let m := if mp <? 10 then mp + 3 else mp - 9 in
  (yoe, m, d).

Definition civil_from_days (z : Z) : Z * Z * Z :=
  let z := z + 719468 in
  let era := z / 146097 in
  let doe := z - era * 146097 in
  let '(yoe, m, d) := civil_of_doe doe in
  let y := yoe + era * 400 in
  (if m <=? 2 then y + 1 else y, m, d).

(** [MakeDay(year, month, date)]: months beyond 0..11 carry into the year. *)
Definition MakeDay (year month date : Z) : t :=
  days_from_civil (year + month / 12) (month mod 12 + 1) 1 + date - 1.

(** [new Date(year, month, date)]: a year in 0..99 means 1900 + year. *)
Definition make (year month date : Z) : t :=
  let yr := if (0 <=? year) && (year <=? 99) then 1900 + year else year in
  MakeDay yr month date.

Definition getFullYear (d : t) : Z := (civil_from_days d).1.1.
(** 0-based, as in JavaScript. *)
Definition getMonth (d : t) : Z := (civil_from_days d).1.2 - 1.
Definition getDate (d : t) : Z := (civil_from_days d).2.

(** [d.setDate(n)] keeps year and month of [d] and renormalises. *)
Definition setDate (d : t) (n : Z) : t :=
  MakeDay (getFullYear d) (getMonth d) n.

Definition is_leap (y : Z) : bool :=
  (y mod 4 =? 0) && (negb (y mod 100 =? 0) || (y mod 400 =? 0)).

(** Length of month [m] (0-based) of year [y]. *)
Definition month_len (y m : Z) : Z :=
  if m =? 1 then (if is_leap y then 29 else 28)
  else if (m =? 3) || (m =? 5) || (m =? 8) || (m =? 10) then 30 else 31.

(** A year for which the constructor does not apply the two-digit rule. *)
Definition full_year (y : Z) : Prop := ¬ (0 <= y <= 99).

End JSDate.


(** ** JavaScript strings and numeric conversions

    Strings are byte strings holding the UTF-8 encoding of the JavaScript
    string.  Numbers that the engine produces are integers and are kept in
    [Z] or [nat]; double rounding of very long numerals is not modelled. *)
Module JSString.

Definition codes (s : string) : list N := N_of_ascii <$> String.list_ascii_of_string s.

(** [String(n)] for an integer [n]. *)
Definition ofZ (z : Z) : string := pretty z.

Fixpoint repeat_char (n : nat) (c : ascii) : string :=
  match n with
  | O => ""
  | S k => String c (repeat_char k c)
  end.

(** [s.padStart(n, c)] for a one-character filler. *)
Definition padStart (n : nat) (c : ascii) (s : string) : string :=
  repeat_char (n - String.length s)%nat c +:+ s.

(** [parts.join(sep)]. *)
Fixpoint join (sep : string) (parts : list string) : string :=
  match parts with
  | [] => ""
  | [p] => p
  | p :: rest => p +:+ sep +:+ join sep rest
  end.

Definition is_ascii_space (c : N) : bool :=
  ((9 <=? c) && (c <=? 13) || (c =? 32))%N.

(** Three-byte encodings of U+1680, U+2000..U+200A, U+2028, U+2029,
    U+202F, U+205F, U+3000 and U+FEFF. *)
Definition is_space3 (a b c : N) : bool :=
  ((a =? 225) && (b =? 154) && (c =? 128)
   || (a =? 226) && (b =? 128) &&
      ((128 <=? c) && (c <=? 138) || (c =? 168) || (c =? 169) || (c =? 175))
   || (a =? 226) && (b =? 129) && (c =? 159)
   || (a =? 227) && (b =? 128) && (c =? 128)
   || (a =? 239) && (b =? 187) && (c =? 191))%N.

(** Drop leading white space and line terminators (StrWhiteSpaceChar). *)
Fixpoint trimStart (l : list N) : list N :=
  match l with
  | [] => []
  | a :: l1 =>
      if is_ascii_space a then trimStart l1
      else match l1 with
           | [] => l
           | b :: l2 =>
               if ((a =? 194) && (b =? 160))%N then trimStart l2
               else match l2 with
                    | [] => l
                    | c :: l3 => if is_space3 a b c then trimStart l3 else l
                    end
           end
  end.

Definition is_digit (c : N) : bool := ((48 <=? c) && (c <=? 57))%N.

(** Longest prefix of decimal digits: its value, its length, the rest. *)
Fixpoint digits (acc : Z) (n : nat) (l : list N) : Z * nat * list N :=
  match l with
  | c :: l' =>
      if is_digit c then digits (10 * acc + (Z.of_N c - 48)) (S n) l'
      else (acc, n, l)
  | [] => (acc, n, [])
  end.

(** Optional sign: the factor and the rest. *)
Definition sign (l : list N) : Z * list N :=
  match l with
  | 45%N :: l' => (-1, l')
  | 43%N :: l' => (1, l')
  | _ => (1, l)
  end.

(** [parseInt(s, 10)]; [None] is NaN. *)
Definition parseInt (s : string) : option Z :=
  let '(sg, l) := sign (trimStart (codes s)) in
  let '(v, n, _) := digits 0 0 l in
  if decide (n = O) then None else Some (sg * v).

(** Numbers as [ToNumber] yields them from a string: NaN, an infinity,
    or the decimal [m * 10^e]. *)
Inductive num := NaN | Inf (negative : bool) | Dec (m e : Z).

Definition digit_of (radix : Z) (c : N) : option Z :=
  let c := Z.of_N c in
  let v := if (48 <=? c) && (c <=? 57) then c - 48
           else if (97 <=? c) && (c <=? 122) then c - 87
           else if (65 <=? c) && (c <=? 90) then c - 55
           else radix in
  if v <? radix then Some v else None.

(** All of [l] as digits of [radix]; [None] if a character is not one. *)
Fixpoint radix_digits (radix acc : Z) (l : list N) : option Z :=
  match l with
  | [] => Some acc
  | c :: l' =>
      match digit_of radix c with
      | Some v => radix_digits radix (radix * acc + v) l'
      | None => None
      end
  end.

Definition radix_literal (radix : Z) (l : list N) : num :=
  match l with
  | [] => NaN
  | _ => match radix_digits radix 0 l with
         | Some v => Dec v 0
         | None => NaN
         end
  end.

(** The white space after a numeral is dropped before it is read. *)
Definition trimEnd (l : list N) : list N :=
  let fix go (fuel : nat) (l : list N) : list N :=
    match fuel with
    | O => l
    | S k =>
        match reverse l with
        | c :: r1 =>
            if is_ascii_space c then go k (reverse r1)
            else match r1 with
                 | b :: r2 =>
                     if ((b =? 194) && (c =? 160))%N then go k (reverse r2)
                     else match r2 with
                          | a :: r3 =>
                              if is_space3 a b c then go k (reverse r3) else l
                          | [] => l
                          end
                 | [] => l
                 end
        | [] => l
        end
    end in
  go (List.length l) l.

Definition exponent (l : list N) : option Z :=
  match l with
  | [] => Some 0
  | c :: l' =>
      if ((c =? 101) || (c =? 69))%N then
        let '(sg, l'') := sign l' in
        match digits 0 0 l'' with
        | (v, S _, []) => Some (sg * v)
        | _ => None
        end
      else None
  end.

Definition decimal_literal (l : list N) : num :=
  let '(sg, l) := sign l in
  if decide (l = codes "Infinity") then Inf (sg <? 0) else
  let '(ip, ni, l1) := digits 0 0 l in
  let '(fp, nf, l2) :=
    match l1 with
    | 46%N :: l1' => digits ip 0 l1'
    | _ => (ip, O, l1)
    end in
  if decide (ni = O ∧ nf = O) then NaN else
  match exponent l2 with
  | Some e => Dec (sg * fp) (e - Z.of_nat nf)
  | None => NaN
  end.

(** [ToNumber(s)] (StringToNumber). *)
Definition ToNumber (s : string) : num :=
  match trimEnd (trimStart (codes s)) with
  | [] => Dec 0 0
  | 48%N :: c :: l =>
      if ((c =? 120) || (c =? 88))%N then radix_literal 16 l
      else if ((c =? 111) || (c =? 79))%N then radix_literal 8 l
      else if ((c =? 98) || (c =? 66))%N then radix_literal 2 l
      else decimal_literal (48%N :: c :: l)
  | l => decimal_literal l
  end.

(** [n < x] for an integer [n], as the relational operator decides it. *)
Definition lt_num (n : Z) (x : num) : bool :=
  match x with
  | NaN => false
  | Inf negative => negb negative
  | Dec m e => if 0 <=? e then n <? m * 10 ^ e else n * 10 ^ (- e) <? m
  end.

(** The UTF-16 code units of the string that the bytes encode: a sequence
    of one, two or three bytes is one code unit, a sequence of four bytes
    (a code point from U+10000 on) is a surrogate pair. *)
Fixpoint units_of (l : list N) : list N :=
  match l with
  | [] => []
  | b0 :: rest =>
      if (b0 <? 192)%N then b0 :: units_of rest
      else if (b0 <? 224)%N then
        match rest with
        | b1 :: rest' => ((b0 - 192) * 64 + (b1 - 128))%N :: units_of rest'
        | [] => [b0]
        end
      else if (b0 <? 240)%N then
        match rest with
        | b1 :: b2 :: rest' =>
            ((b0 - 224) * 4096 + (b1 - 128) * 64 + (b2 - 128))%N :: units_of rest'
        | _ => [b0]
        end
      else
        match rest with
        | b1 :: b2 :: b3 :: rest' =>
            let point :=
              ((b0 - 240) * 262144 + (b1 - 128) * 4096 + (b2 - 128) * 64 + (b3 - 128))%N in
            let above := (point - 65536)%N in
            (55296 + above / 1024)%N :: (56320 + above mod 1024)%N :: units_of rest'
        | _ => [b0]
        end
  end.

Definition units (s : string) : list N := units_of (codes s).

(** Default order of [Array.prototype.sort]: by UTF-16 code units. *)
Fixpoint compare_codes (a b : list N) : Z :=
  match a, b with
  | [], [] => 0
  | [], _ :: _ => -1
  | _ :: _, [] => 1
  | x :: a', y :: b' =>
      if (x <? y)%N then -1 else if (y <? x)%N then 1 else compare_codes a' b'
  end.

Definition compare (a b : string) : Z := compare_codes (units a) (units b).

End JSString.

(** ** JavaScript [Date]: time values and the local time zone

    A [Date] holds a time value, the milliseconds since the epoch in UTC.
    The host's time zone enters through the two conversions of ECMA-262:
    [LocalTime], from a time value to local time, and [UTC], from local
    time to a time value.  A local time that a forward clock change skips
    is read with the offset before the change, so that it lands after the
    gap. *)
Module JSTime.

Definition t := Z.

Definition msPerHour : Z := 3600000.
Definition msPerDay : Z := 86400000.

Record Zone := { LocalTime : t → Z; UTC : Z → t }.

Definition Day (tv : Z) : JSDate.t := tv / msPerDay.
Definition TimeWithinDay (tv : Z) : Z := tv mod msPerDay.
Definition MakeDate (day : JSDate.t) (time : Z) : Z := day * msPerDay + time.

(** The time value of local midnight of a calendar day. *)
Definition midnight (zone : Zone) (day : JSDate.t) : t := UTC zone (MakeDate day 0).

(** [new Date(year, month, date)]. *)
Definition make (zone : Zone) (year month date : Z) : t :=
  midnight zone (JSDate.make year month date).

(** The local calendar day of a time value, which is what [getFullYear],
    [getMonth] and [getDate] read. *)
Definition day (zone : Zone) (tv : t) : JSDate.t := Day (LocalTime zone tv).

(** [d.setDate(n)]: the day of the month is replaced, the local time
    within the day is kept, and the result goes through [UTC] again. *)
Definition setDate (zone : Zone) (tv : t) (n : Z) : t :=
  let local := LocalTime zone tv in
  UTC zone (MakeDate (JSDate.setDate (Day local) n) (TimeWithinDay local)).

(** A zone with one offset throughout, in milliseconds east of UTC. *)
Definition fixedOffset (offset : Z) : Zone :=
  {| LocalTime := λ tv, tv + offset; UTC := λ local, local - offset |}.

(** Asia/Taipei: UTC+8, no daylight saving time. *)
Definition taipei : Zone := fixedOffset (8 * msPerHour).



(** The value of a decimal digit. *)
Definition digit (c : ascii) : option Z :=
  let n := N_of_ascii c in
  if JSString.is_digit n then Some (Z.of_N n - 48) else None.

(** The number that a row of decimal digits writes. *)
Definition number (cs : list ascii) : option Z :=
  fold_left
    (λ acc c,
       match acc, digit c with
       | Some a, Some d => Some (10 * a + d)
       | _, _ => None
       end)
    cs (Some 0).

(** [new Date(text)] for a date-only text 'YYYY-MM-DD' that names a day of
    the calendar: midnight of that day in UTC.  Any other text is left to
    the further formats of the language and to the host ([None]). *)
Definition parse (text : string) : option t :=
  match String.list_ascii_of_string text with
  | [y1; y2; y3; y4; "-"%char; m1; m2; "-"%char; d1; d2] =>
      match number [y1; y2; y3; y4], number [m1; m2], number [d1; d2] with
      | Some y, Some m, Some d =>
          if (1 <=? m) && (m <=? 12) && (1 <=? d) && (d <=? JSDate.month_len y (m - 1))
          then Some (MakeDate (JSDate.MakeDay y (m - 1) d) 0)
          else None
      | _, _, _ => None
      end
  | _ => None
  end.


End JSTime.

(** ** Plain objects used as tables

    A property read [table[key]] on a plain object finds the table's own
    keys and, for any other key, the members that every object inherits
    from [Object.prototype]. *)
Module JSObject.

(** The property names of [Object.prototype]. *)
Definition prototypeKeys : list string :=
  [ "constructor"; "hasOwnProperty"; "isPrototypeOf"; "propertyIsEnumerable";
    "toLocaleString"; "toString"; "valueOf";
    "__defineGetter__"; "__defineSetter__"; "__lookupGetter__"; "__lookupSetter__";
    "__proto__" ].

Definition inherited (key : string) : bool := existsb (String.eqb key) prototypeKeys.

(** What [table[key]] finds. *)
Inductive Lookup (V : Type) :=
| Own (v : V)
| Inherited
| Missing.
Arguments Own {V} v.
Arguments Inherited {V}.
Arguments Missing {V}.

(** [table[key]] for a table written as an object literal. *)
Definition get {V : Type} (table : list (string * V)) (key : string) : Lookup V :=
  match List.find (λ entry, String.eqb entry.1 key) table with
  | Some entry => Own entry.2
  | None => if inherited key then Inherited else Missing
  end.

End JSObject.

(** ** The values that [totalConflicts] can take

    [totalConflicts] starts as the number 0 and grows by [+=]; what is
    added is a handler's count or, for a tag that finds an inherited
    member, whatever that member returns. *)
Module JSValue.

Inductive t :=
| Undefined
| Boolean (b : bool)
| Number (n : nat)
| NaN
| Text (s : string)
| PlainObject.

(** ToPrimitive: a plain object has no primitive [valueOf], so its
    [toString] decides. *)
Definition toPrimitive (v : t) : t :=
  match v with
  | PlainObject => Text "[object Object]"
  | _ => v
  end.

(** ToString of a primitive. *)
Definition toString (v : t) : string :=
  match v with
  | Undefined => "undefined"
  | Boolean b => if b then "true" else "false"
  | Number n => JSString.ofZ (Z.of_nat n)
  | NaN => "NaN"
  | Text s => s
  | PlainObject => "[object Object]"
  end.

(** ToNumber of a primitive that is not a string: [None] is NaN. *)
Definition toNumber (v : t) : option nat :=
  match v with
  | Boolean b => Some (if b then 1 else 0)%nat
  | Number n => Some n
  | _ => None
  end.

Definition is_text (v : t) : bool :=
  match v with Text _ => true | _ => false end.

(** The operator [+]: concatenation as soon as one side is a string. *)
Definition plus (a b : t) : t :=
  let a := toPrimitive a in
  let b := toPrimitive b in
  if is_text a || is_text b then Text (toString a +:+ toString b)
  else
    match toNumber a, toNumber b with
    | Some m, Some n => Number (m + n)
    | _, _ => NaN
    end.

(** [v === 0]. *)
Definition is_zero (v : t) : bool :=
  match v with Number O => true | _ => false end.

End JSValue.

(** ** Data model *)

(** One entry of a day's list in [scheduleData]. *)
Record Assignment := { employee : string; shift : string }.

(** A call [highlightConflict(calendarGrid, date, reason)].  The calendar
    grid itself is presentation state; what the engine contributes is the
    sequence of these calls. *)
Record Finding := { date : string; reason : string }.

(** A configured rule, [{type, employee, value}] or [{type, shift, value}].
    [value] holds the text of the configured value: a number [n] stands as
    [String(n)], which is what [parseInt] and template literals make of it
    and what the relational operators convert back to [n]; an absent
    [value] stands as ["undefined"]. *)
Module Rule.
Record t := { type : string; employee : string; shift : string; value : string }.
End Rule.

Record Context := {
  scheduleData : gmap string (list Assignment);
  year : Z;
  month : Z;
  shiftTypes : gmap string string;
  employeeAvailability : option (gmap string (gmap string bool));
  holidayDates : option (gmap string bool)
}.

(** What a handler hands back: its return value and its highlight calls. *)
Record Run := { conflictCount : nat; highlights : list Finding }.

Definition no_conflicts : Run := {| conflictCount := 0; highlights := [] |}.

(** How a handler that can throw ends: it returns, or a TypeError leaves
    it; either way [run] holds the conflicts counted and the highlights
    issued up to that point. *)
Inductive Outcome :=
| Returned (run : Run)
| Thrown (run : Run).

Definition runOf (outcome : Outcome) : Run :=
  match outcome with
  | Returned run => run
  | Thrown run => run
  end.

(** The next step runs only when nothing was thrown. *)
Definition andThen (outcome : Outcome) (next : Run → Outcome) : Outcome :=
  match outcome with
  | Returned run => next run
  | Thrown run => Thrown run
  end.

(** [conflictCount++]. *)
Definition countConflict (r : Run) : Run :=
  {| conflictCount := S (conflictCount r); highlights := highlights r |}.

Definition highlightConflict (date reason : string) (r : Run) : Run :=
  {| conflictCount := conflictCount r;
     highlights := highlights r ++ [{| date := date; reason := reason |}] |}.

(** ** Internal helpers *)

Definition formatDate (d : JSDate.t) : string :=
  let year := JSString.ofZ (JSDate.getFullYear d) in
  let month := JSString.padStart 2 "0" (JSString.ofZ (JSDate.getMonth d + 1)) in
  let day := JSString.padStart 2 "0" (JSString.ofZ (JSDate.getDate d)) in
  year +:+ "-" +:+ month +:+ "-" +:+ day.

Definition isHoliday (dateStr : string) (holidayDates : option (gmap string bool)) : bool :=
  match holidayDates with
  | Some h => bool_decide (h !! dateStr = Some true)
  | None => false
  end.

(** [scheduleData[dateStr] || []]. *)
Definition shiftsOn (scheduleData : gmap string (list Assignment)) (dateStr : string)
  : list Assignment :=
  default [] (scheduleData !! dateStr).

(** [list.includes(x)] on strings. *)
Definition includes (l : list string) (x : string) : bool :=
  existsb (String.eqb x) l.

(** [new Date(year, month + 1, 0).getDate()]. *)
Definition daysInMonth (year month : Z) : Z :=
  JSDate.getDate (JSDate.make year (month + 1) 0).

(** [for (let day = 1; day <= n; day++)]. *)
Definition for_days {S : Type} (n : Z) (body : Z → S → S) (s : S) : S :=
  fold_left (λ acc day, body day acc) (seqZ 1 n) s.

(** [for (let d = new Date(start); d <= endDate; d.setDate(d.getDate() + 1))]:
    the loop variable is one [Date], which keeps its time value from turn
    to turn; the test compares time values; the body reads [d] through its
    local calendar day.  The loop makes at most [fuel] turns. *)
Fixpoint for_dates {S : Type} (zone : JSTime.Zone) (fuel : nat) (d endDate : JSTime.t)
    (body : JSDate.t → S → S) (s : S) : S :=
  match fuel with
  | O => s
  | S fuel' =>
      if d <=? endDate then
        let today := JSTime.day zone d in
        for_dates zone fuel' (JSTime.setDate zone d (JSDate.getDate today + 1)) endDate
          body (body today s)
      else s
  end.

(** ** Shift order and the gap between two shifts *)

Definition WEEKDAY_SHIFT_ORDER : list string := ["day"; "evening"; "night"].
Definition WEEKEND_SHIFT_ORDER : list string := ["weekend-day"; "weekend-night"].

(** [order.indexOf(x)], [-1] when absent. *)
Fixpoint indexOf (order : list string) (x : string) : Z :=
  match order with
  | [] => -1
  | y :: rest =>
      if String.eqb y x then 0
      else let i := indexOf rest x in if i =? -1 then -1 else i + 1
  end.

Definition getShiftPosition (shiftType : string) (isHoliday : bool) : Z :=
  let order := if isHoliday then WEEKEND_SHIFT_ORDER else WEEKDAY_SHIFT_ORDER in
  indexOf order shiftType.

Definition hasEnoughShiftGap (shift1 shift2 : string) (isHoliday1 isHoliday2 : bool) : bool :=
  if negb (Bool.eqb isHoliday1 isHoliday2) then true
  else if String.eqb shift1 "off" || String.eqb shift2 "off" then true
  else if isHoliday1 then true
  else
    let pos1 := getShiftPosition shift1 false in
    let pos2 := getShiftPosition shift2 false in
    if (pos1 =? -1) || (pos2 =? -1) then true
    else
      let n := Z.of_nat (length WEEKDAY_SHIFT_ORDER) in
      let steps := Z.rem (pos2 - pos1 + n) n in
      1 <? steps.

(** ** Rule handlers *)

(** [s.employee === employee && s.shift !== 'off']. *)
Definition worksAs (emp : string) (s : Assignment) : bool :=
  String.eqb (employee s) emp && negb (String.eqb (shift s) "off").

(** The employee has a working assignment on the date. *)
Definition isWorking (scheduleData : gmap string (list Assignment))
    (emp : string) (d : JSDate.t) : bool :=
  existsb (worksAs emp) (shiftsOn scheduleData (formatDate d)).

Definition inTargetMonth (ctx : Context) (d : JSDate.t) : bool :=
  (JSDate.getFullYear d =? year ctx) && (JSDate.getMonth d =? month ctx).

Definition consecutiveReason (emp : string) (consecutiveCount maxDays : Z) : string :=
  emp +:+ " 連續工作第 " +:+ JSString.ofZ consecutiveCount +:+
  " 天 (超過限制 " +:+ JSString.ofZ maxDays +:+ " 天)".

(** One turn of the loop of [checkMaxConsecutiveWorkDays]; the state is
    [consecutiveCount] and the conflicts so far. *)
Definition consecutiveStep (ctx : Context) (emp : string) (maxDays : Z)
    (d : JSDate.t) (st : Z * Run) : Z * Run :=
  let '(consecutiveCount, run) := st in
  let dateStr := formatDate d in
  if isWorking (scheduleData ctx) emp d then
    let consecutiveCount := consecutiveCount + 1 in
    if maxDays <? consecutiveCount then
      let reason := consecutiveReason emp consecutiveCount maxDays in
      if inTargetMonth ctx d
      then (consecutiveCount, highlightConflict dateStr reason (countConflict run))
      else (consecutiveCount, run)
    else (consecutiveCount, run)
  else (0, run).

(** With a value that [parseInt] maps to NaN, [startDate] is an invalid
    date, [d <= endDate] is false at once and the loop body never runs.
    Every turn takes [d] to a later calendar day, so the loop makes at most
    one turn per day from the start date to the end date. *)
Definition checkMaxConsecutiveWorkDays (zone : JSTime.Zone) (ctx : Context) (rule : Rule.t)
  : Run :=
  let emp := Rule.employee rule in
  match JSString.parseInt (Rule.value rule) with
  | None => no_conflicts
  | Some maxDays =>
      let startDate := JSTime.make zone (year ctx) (month ctx) (1 - maxDays) in
      let endDate := JSTime.make zone (year ctx) (month ctx + 1) 0 in
      let days :=
        JSDate.make (year ctx) (month ctx + 1) 0
        - JSDate.make (year ctx) (month ctx) (1 - maxDays) + 1 in
      (for_dates zone (Z.to_nat days) startDate endDate
         (consecutiveStep ctx emp maxDays) (0, no_conflicts)).2
  end.

Definition nightClass (prevIsHoliday : bool) : list string :=
  if prevIsHoliday then ["weekend-night"] else ["night"].
Definition dayClass (currentIsHoliday : bool) : list string :=
  if currentIsHoliday then ["weekend-day"] else ["day"].

(** [shifts.some(s => s.employee === employee && kinds.includes(s.shift))]. *)
Definition hasShiftOf (emp : string) (kinds : list string) (shifts : list Assignment) : bool :=
  existsb (λ s, String.eqb (employee s) emp && includes kinds (shift s)) shifts.

Definition turnaroundReason (emp prevDateStr currentDateStr : string) : string :=
  emp +:+ " 24小時連續工作 (" +:+ prevDateStr +:+ " 夜班 → " +:+ currentDateStr +:+ " 白班)".
Definition turnaroundMarker (emp : string) : string := emp +:+ " 夜班後隔天接白班".

Definition turnaroundStep (ctx : Context) (emp : string) (day : Z) (run : Run) : Run :=
  let currentDate := JSDate.make (year ctx) (month ctx) day in
  let prevDate := JSDate.make (year ctx) (month ctx) (day - 1) in
  let currentDateStr := formatDate currentDate in
  let prevDateStr := formatDate prevDate in
  let todayShifts := shiftsOn (scheduleData ctx) currentDateStr in
  let prevDayShifts := shiftsOn (scheduleData ctx) prevDateStr in
  let currentIsHoliday := isHoliday currentDateStr (holidayDates ctx) in
  let prevIsHoliday := isHoliday prevDateStr (holidayDates ctx) in
  let nightShifts := nightClass prevIsHoliday in
  let dayShifts := dayClass currentIsHoliday in
  let hadNightShift := hasShiftOf emp nightShifts prevDayShifts in
  let hasDayShift := hasShiftOf emp dayShifts todayShifts in
  if hadNightShift && hasDayShift then
    highlightConflict prevDateStr (turnaroundMarker emp)
      (highlightConflict currentDateStr (turnaroundReason emp prevDateStr currentDateStr)
         (countConflict run))
  else run.

Definition checkNo24HourShift (ctx : Context) (rule : Rule.t) : Run :=
  let emp := Rule.employee rule in
  for_days (daysInMonth (year ctx) (month ctx)) (turnaroundStep ctx emp) no_conflicts.

Definition gapReason (emp todayShift tomorrowShift : string) : string :=
  emp +:+ " 班次間隔不足 (" +:+ todayShift +:+ " → " +:+ tomorrowShift +:+ ")".

Definition transitionStep (ctx : Context) (emp : string) (day : Z) (run : Run) : Run :=
  let currentDate := JSDate.make (year ctx) (month ctx) day in
  let nextDate := JSDate.make (year ctx) (month ctx) (day + 1) in
  let currentDateStr := formatDate currentDate in
  let nextDateStr := formatDate nextDate in
  let todayShifts := shiftsOn (scheduleData ctx) currentDateStr in
  let tomorrowShifts := shiftsOn (scheduleData ctx) nextDateStr in
  let currentIsHoliday := isHoliday currentDateStr (holidayDates ctx) in
  let nextIsHoliday := isHoliday nextDateStr (holidayDates ctx) in
  match List.find (worksAs emp) todayShifts, List.find (worksAs emp) tomorrowShifts with
  | Some todayShift, Some tomorrowShift =>
      if negb (hasEnoughShiftGap (shift todayShift) (shift tomorrowShift)
                 currentIsHoliday nextIsHoliday)
      then
        let reason := gapReason emp (shift todayShift) (shift tomorrowShift) in
        highlightConflict nextDateStr reason
          (highlightConflict currentDateStr reason (countConflict run))
      else run
  | _, _ => run
  end.

Definition checkNoDirectShiftTransition (ctx : Context) (rule : Rule.t) : Run :=
  let emp := Rule.employee rule in
  for_days (daysInMonth (year ctx) (month ctx)) (transitionStep ctx emp) no_conflicts.

(** [`${shiftTypes[shift]}`]. *)
Definition shiftLabel (shiftTypes : gmap string string) (shift : string) : string :=
  default "undefined" (shiftTypes !! shift).

Definition staffReason (label : string) (staffCount : Z) (required : string) : string :=
  label +:+ " 人數不足 (目前: " +:+ JSString.ofZ staffCount +:+ ", 需要: " +:+ required +:+ ")".

Definition minStaffStep (ctx : Context) (rule : Rule.t) (day : Z) (run : Run) : Run :=
  let dateStr := formatDate (JSDate.make (year ctx) (month ctx) day) in
  let staffCount :=
    Z.of_nat (length (List.filter (λ s, String.eqb (shift s) (Rule.shift rule))
                        (shiftsOn (scheduleData ctx) dateStr))) in
  if JSString.lt_num staffCount (JSString.ToNumber (Rule.value rule)) then
    let reason := staffReason (shiftLabel (shiftTypes ctx) (Rule.shift rule))
                    staffCount (Rule.value rule) in
    highlightConflict dateStr reason (countConflict run)
  else run.

Definition checkMinStaff (ctx : Context) (rule : Rule.t) : Run :=
  for_days (daysInMonth (year ctx) (month ctx)) (minStaffStep ctx rule) no_conflicts.

(** [Array.prototype.sort] and the order of [Object.entries]. *)
Module JSArray.

Fixpoint insert_sorted {A : Type} (cmp : A → A → Z) (x : A) (l : list A) : list A :=
  match l with
  | [] => [x]
  | y :: l' => if cmp x y <=? 0 then x :: l else y :: insert_sorted cmp x l'
  end.

(** [l.sort(cmp)]: the sort is stable, so for a consistent comparator
    its result is the one of a stable insertion sort.  For a comparator
    that is not consistent the language leaves the order to the host. *)
Definition sort {A : Type} (cmp : A → A → Z) (l : list A) : list A :=
  foldr (insert_sorted cmp) [] l.

(** The number of an array-index key (a canonical numeral below 2^32 - 1). *)
Definition arrayIndex (key : string) : option Z :=
  match JSString.digits 0 0 (JSString.codes key) with
  | (v, S _, []) =>
      if String.eqb (JSString.ofZ v) key && (v <=? 4294967294) then Some v else None
  | _ => None
  end.

(** [Object.entries(o)] for an object whose keys were created in the
    order of [created]: array-index keys first, ascending, then the
    other keys in creation order. *)
Definition entries {V : Type} (created : list (string * V)) : list (string * V) :=
  let indexed := List.filter (λ kv, bool_decide (is_Some (arrayIndex kv.1))) created in
  let named := List.filter (λ kv, negb (bool_decide (is_Some (arrayIndex kv.1)))) created in
  sort (λ a b, default 0 (arrayIndex a.1) - default 0 (arrayIndex b.1)) indexed ++ named.

End JSArray.

Definition isDayClass (shift : string) : bool :=
  String.eqb shift "day" || String.eqb shift "weekend-day".
Definition isNightClass (shift : string) : bool :=
  String.eqb shift "night" || String.eqb shift "weekend-night".

(** The body of [shifts.forEach] in [checkShiftBalance]; the state is
    [(dayShiftCount, nightShiftCount)]. *)
Definition tallyShift (emp : string) (counts : Z * Z) (s : Assignment) : Z * Z :=
  if String.eqb (employee s) emp then
    let dayShiftCount := if isDayClass (shift s) then counts.1 + 1 else counts.1 in
    let nightShiftCount := if isNightClass (shift s) then counts.2 + 1 else counts.2 in
    (dayShiftCount, nightShiftCount)
  else counts.

Definition tallyDay (ctx : Context) (emp : string) (day : Z) (counts : Z * Z) : Z * Z :=
  let dateStr := formatDate (JSDate.make (year ctx) (month ctx) day) in
  fold_left (tallyShift emp) (shiftsOn (scheduleData ctx) dateStr) counts.

(** [parseInt(rule.value, 10) || 2]: NaN and 0 both give the default. *)
Definition maxDifferenceOf (rule : Rule.t) : Z :=
  match JSString.parseInt (Rule.value rule) with
  | Some n => if n =? 0 then 2 else n
  | None => 2
  end.

Definition balanceReason (emp : string) (dayShiftCount nightShiftCount difference maxDifference : Z)
  : string :=
  emp +:+ " 班次不平衡：白班" +:+ JSString.ofZ dayShiftCount +:+ "次，夜班" +:+
  JSString.ofZ nightShiftCount +:+ "次 (差距" +:+ JSString.ofZ difference +:+
  "，限制" +:+ JSString.ofZ maxDifference +:+ ")".

(** [for (let day = daysInMonth; day >= 1; day--)] up to its [break]. *)
Definition lastDayWith (ctx : Context) (emp : string) (dominantShift : list string)
    (daysInMonth : Z) : option Z :=
  List.find
    (λ day, hasShiftOf emp dominantShift
              (shiftsOn (scheduleData ctx)
                 (formatDate (JSDate.make (year ctx) (month ctx) day))))
    (reverse (seqZ 1 daysInMonth)).

Definition checkShiftBalance (ctx : Context) (rule : Rule.t) : Run :=
  let emp := Rule.employee rule in
  let maxDifference := maxDifferenceOf rule in
  let daysInMonth := daysInMonth (year ctx) (month ctx) in
  let '(dayShiftCount, nightShiftCount) := for_days daysInMonth (tallyDay ctx emp) (0, 0) in
  let difference := Z.abs (dayShiftCount - nightShiftCount) in
  if (maxDifference <? difference) && ((0 <? dayShiftCount) || (0 <? nightShiftCount)) then
    let run := countConflict no_conflicts in
    let dominantShift :=
      if nightShiftCount <? dayShiftCount
      then ["day"; "weekend-day"] else ["night"; "weekend-night"] in
    match lastDayWith ctx emp dominantShift daysInMonth with
    | Some day =>
        let lastShiftDate := formatDate (JSDate.make (year ctx) (month ctx) day) in
        highlightConflict lastShiftDate
          (balanceReason emp dayShiftCount nightShiftCount difference maxDifference) run
    | None => run
    end
  else no_conflicts.

Definition unavailableReason (emp : string) : string := emp +:+ " 在此日設定為不可用".

(** [employeeAvailability[employee]?.[dateStr] === false]. *)
Definition markedUnavailable (availability : gmap string (gmap string bool))
    (emp dateStr : string) : bool :=
  match availability !! emp with
  | Some days => bool_decide (days !! dateStr = Some false)
  | None => false
  end.

Definition availabilityStep (ctx : Context) (availability : gmap string (gmap string bool))
    (day : Z) (run : Run) : Run :=
  let dateStr := formatDate (JSDate.make (year ctx) (month ctx) day) in
  fold_left
    (λ run s,
       if negb (String.eqb (shift s) "off") && markedUnavailable availability (employee s) dateStr
       then highlightConflict dateStr (unavailableReason (employee s)) (countConflict run)
       else run)
    (shiftsOn (scheduleData ctx) dateStr) run.

Definition checkEmployeeAvailability (ctx : Context) : Run :=
  match employeeAvailability ctx with
  | None => no_conflicts
  | Some availability =>
      for_days (daysInMonth (year ctx) (month ctx)) (availabilityStep ctx availability)
        no_conflicts
  end.

(** The keys of [employeeShifts] in the order of their creation, each
    with its list: [shift] goes to the end of the list of [emp], and [emp]
    becomes a new key when it has none. *)
Fixpoint appendShift (emp shift : string) (employeeShifts : list (string * list string))
  : list (string * list string) :=
  match employeeShifts with
  | [] => [(emp, [shift])]
  | (e, shifts) :: rest =>
      if String.eqb e emp then (e, shifts ++ [shift]) :: rest
      else (e, shifts) :: appendShift emp shift rest
  end.

(** [if (!employeeShifts[emp]) employeeShifts[emp] = [];
     employeeShifts[emp].push(shift)].
    For a name that every object inherits, [employeeShifts[emp]] is the
    inherited member: the test finds it, no list is created, the member
    has no [push], and the call throws a TypeError ([None]). *)
Definition pushShift (emp shift : string) (employeeShifts : list (string * list string))
  : option (list (string * list string)) :=
  if JSObject.inherited emp then None
  else Some (appendShift emp shift employeeShifts).

(** The first [forEach] of a day in [checkDuplicateAssignment]. *)
Definition groupShifts (shifts : list Assignment) : option (list (string * list string)) :=
  fold_left
    (λ acc s,
       match acc with
       | Some employeeShifts =>
           if negb (String.eqb (shift s) "off")
           then pushShift (employee s) (shift s) employeeShifts
           else Some employeeShifts
       | None => None
       end)
    shifts (Some []).

Definition duplicateReason (emp : string) (empShifts : list string) : string :=
  emp +:+ " 在同一天被安排多個班次: " +:+ JSString.join ", " empShifts.

Definition duplicateStep (ctx : Context) (day : Z) (run : Run) : Outcome :=
  let dateStr := formatDate (JSDate.make (year ctx) (month ctx) day) in
  let shifts := shiftsOn (scheduleData ctx) dateStr in
  match groupShifts shifts with
  | None => Thrown run
  | Some employeeShifts =>
      Returned
        (fold_left
           (λ run entry,
              let '(emp, empShifts) := entry in
              if (1 <? length empShifts)%nat
              then highlightConflict dateStr (duplicateReason emp empShifts) (countConflict run)
              else run)
           (JSArray.entries employeeShifts) run)
  end.

Definition checkDuplicateAssignment (ctx : Context) : Outcome :=
  for_days (daysInMonth (year ctx) (month ctx))
    (λ day outcome, andThen outcome (duplicateStep ctx day)) (Returned no_conflicts).

(** ** Rule registries and [RuleEngine.validate] *)

Section Registries.

(** The time zone of the host. *)
Variable zone : JSTime.Zone.

Definition employeeRuleHandlers : list (string * (Context → Rule.t → Run)) :=
  [ ("maxConsecutiveWorkDays", checkMaxConsecutiveWorkDays zone);
    ("no24HourShift", checkNo24HourShift);
    ("noDirectShiftTransition", checkNoDirectShiftTransition);
    ("balanceShifts", checkShiftBalance) ].

Definition shiftRuleHandlers : list (string * (Context → Rule.t → Run)) :=
  [ ("minStaff", checkMinStaff) ].

Definition systemRuleHandlers : list (string * (Context → Outcome)) :=
  [ ("employeeAvailability", λ ctx, Returned (checkEmployeeAvailability ctx));
    ("duplicateAssignment", checkDuplicateAssignment) ].

End Registries.

(** [registry[tag]]. *)
Definition handlerOf {H : Type} (registry : list (string * H)) (tag : string)
  : JSObject.Lookup H :=
  JSObject.get registry tag.

(** [registry[tag]({ ...context, rule })] for a tag that finds an inherited
    member: the member is called with the registry as [this] and the
    merged context, a plain object, as its only argument.  [Object]
    returns its argument and [valueOf] returns [this], both plain objects;
    [toString] and [toLocaleString] return the text of [this];
    [hasOwnProperty], [isPrototypeOf] and [propertyIsEnumerable] find
    nothing and return false; [__lookupGetter__] and [__lookupSetter__]
    return undefined.  [__defineGetter__] and [__defineSetter__] reject a
    second argument that is not a function, and [__proto__] is not a
    function: these calls throw a TypeError ([None]). *)
Definition inheritedCall (tag : string) : option JSValue.t :=
  if String.eqb tag "constructor" || String.eqb tag "valueOf" then Some JSValue.PlainObject
  else if String.eqb tag "toString" || String.eqb tag "toLocaleString"
  then Some (JSValue.Text "[object Object]")
  else if String.eqb tag "hasOwnProperty" || String.eqb tag "isPrototypeOf"
          || String.eqb tag "propertyIsEnumerable"
  then Some (JSValue.Boolean false)
  else if String.eqb tag "__lookupGetter__" || String.eqb tag "__lookupSetter__"
  then Some JSValue.Undefined
  else None.

Record SchedulingConditions := {
  employeeRules : option (list Rule.t);
  shiftRules : option (list Rule.t)
}.

Module Params.
Record t := {
  currentDate : JSDate.t;
  scheduleData : gmap string (list Assignment);
  schedulingConditions : SchedulingConditions;
  shiftTypes : gmap string string;
  employeeAvailability : option (gmap string (gmap string bool));
  holidayDates : option (gmap string bool)
}.
End Params.

(** What the grid and the user see of one run. *)
Inductive SinkEvent :=
| ClearHighlights
| Highlight (finding : Finding)
| Alert (message : string).

Record ValidationResult := { totalConflicts : JSValue.t; isValid : bool }.

(** [result] is [None] when a TypeError leaves [validate]; [events] are
    the calls made up to then. *)
Record Validation := { result : option ValidationResult; events : list SinkEvent }.

(** [totalConflicts] and the highlights issued so far. *)
Record Tally := { total : JSValue.t; shown : list Finding }.

(** How far the run got: [Abrupt] when a TypeError was thrown. *)
Inductive Progress :=
| Normal (tally : Tally)
| Abrupt (tally : Tally).

(** [totalConflicts += handler(...)], keeping the handler's highlights. *)
Definition addRun (tally : Tally) (r : Run) : Tally :=
  {| total := JSValue.plus (total tally) (JSValue.Number (conflictCount r));
     shown := shown tally ++ highlights r |}.

(** [if (registry[rule.type]) totalConflicts += registry[rule.type]({ ...context, rule })]. *)
Definition applyRule (registry : list (string * (Context → Rule.t → Run)))
    (ctx : Context) (tally : Tally) (rule : Rule.t) : Progress :=
  match handlerOf registry (Rule.type rule) with
  | JSObject.Own handler => Normal (addRun tally (handler ctx rule))
  | JSObject.Inherited =>
      match inheritedCall (Rule.type rule) with
      | Some v => Normal {| total := JSValue.plus (total tally) v; shown := shown tally |}
      | None => Abrupt tally
      end
  | JSObject.Missing => Normal tally
  end.

(** One more turn of a [forEach], unless a TypeError ended the run. *)
Definition proceed (progress : Progress) (turn : Tally → Progress) : Progress :=
  match progress with
  | Normal tally => turn tally
  | Abrupt tally => Abrupt tally
  end.

Definition forEachRule (registry : list (string * (Context → Rule.t → Run)))
    (ctx : Context) (rules : option (list Rule.t)) (progress : Progress) : Progress :=
  match rules with
  | Some rules =>
      fold_left (λ progress rule, proceed progress (λ tally, applyRule registry ctx tally rule))
        rules progress
  | None => progress
  end.

(** [totalConflicts += handler(context)] for a system handler. *)
Definition applySystem (ctx : Context) (tally : Tally) (handler : Context → Outcome)
  : Progress :=
  match handler ctx with
  | Returned r => Normal (addRun tally r)
  | Thrown r => Abrupt {| total := total tally; shown := shown tally ++ highlights r |}
  end.

Definition alertMessage (totalConflicts : JSValue.t) : string :=
  if JSValue.is_zero totalConflicts then "🎉 太棒了！未發現任何排班衝突。"
  else "⚠️ 發現 " +:+ JSValue.toString totalConflicts +:+
       " 個排班衝突，請查看月曆上的紅色標記。".

Definition contextOf (params : Params.t) : Context :=
  {| scheduleData := Params.scheduleData params;
     year := JSDate.getFullYear (Params.currentDate params);
     month := JSDate.getMonth (Params.currentDate params);
     shiftTypes := Params.shiftTypes params;
     employeeAvailability := Params.employeeAvailability params;
     holidayDates := Params.holidayDates params |}.

Definition validate (zone : JSTime.Zone) (params : Params.t) : Validation :=
  let context := contextOf params in
  let conditions := Params.schedulingConditions params in
  let progress := Normal {| total := JSValue.Number 0; shown := [] |} in
  let progress :=
    forEachRule (employeeRuleHandlers zone) context (employeeRules conditions) progress in
  let progress := forEachRule shiftRuleHandlers context (shiftRules conditions) progress in
  let progress :=
    fold_left (λ progress entry, proceed progress (λ tally, applySystem context tally entry.2))
      systemRuleHandlers progress in
  match progress with
  | Normal tally =>
      let totalConflicts := total tally in
      {| result := Some {| totalConflicts := totalConflicts;
                           isValid := JSValue.is_zero totalConflicts |};
         events := ClearHighlights :: (Highlight <$> shown tally)
                   ++ [Alert (alertMessage totalConflicts)] |}
  | Abrupt tally =>
      {| result := None; events := ClearHighlights :: (Highlight <$> shown tally) |}
  end.

(** ** Helpers for automatic scheduling *)

(** Per-employee statistics handed to the selection functions. *)
Record EmployeeStats := { totalShifts : Z; dayShifts : Z; nightShifts : Z }.

(** [employeeStats[a]?.totalShifts || 0] and its siblings. *)
Definition totalShiftsOf (employeeStats : gmap string EmployeeStats) (a : string) : Z :=
  default 0 (totalShifts <$> employeeStats !! a).
Definition nightShiftsOf (employeeStats : gmap string EmployeeStats) (a : string) : Z :=
  default 0 (nightShifts <$> employeeStats !! a).
Definition dayShiftsOf (employeeStats : gmap string EmployeeStats) (a : string) : Z :=
  default 0 (dayShifts <$> employeeStats !! a).

(** [x || y] on numbers. *)
Definition orElse (x y : Z) : Z := if x =? 0 then y else x.

(** The [rotate] strategy: sort by name, then start at the day of month.
    [date] is the calendar day that [new Date(date)] denotes, when given. *)
Definition rotateByDate (sortedEmployees : list string) (date : option JSDate.t) : list string :=
  match date with
  | Some d =>
      let dayIndex := JSDate.getDate d in
      let rotationOffset := Z.to_nat (Z.rem dayIndex (Z.of_nat (length sortedEmployees))) in
      drop rotationOffset sortedEmployees ++ take rotationOffset sortedEmployees
  | None => sortedEmployees
  end.

(** The [switch] on [strategy] of the later revision: the order into which
    it brings [sortedEmployees], a copy of the pool. *)
Definition ranking (shiftType : string) (employeeStats : gmap string EmployeeStats)
    (strategy : string) (date : option JSDate.t) (sortedEmployees : list string)
  : list string :=
  let byTotal a b := totalShiftsOf employeeStats a - totalShiftsOf employeeStats b in
  if String.eqb strategy "balanced" then JSArray.sort byTotal sortedEmployees
  else if String.eqb strategy "minimize_night" then
    if String.eqb shiftType "night" || String.eqb shiftType "weekend-night" then
      JSArray.sort
        (λ a b, orElse (nightShiftsOf employeeStats a - nightShiftsOf employeeStats b)
                  (byTotal a b))
        sortedEmployees
    else JSArray.sort byTotal sortedEmployees
  else if String.eqb strategy "rotate" then
    rotateByDate (JSArray.sort JSString.compare sortedEmployees) date
  else JSArray.sort byTotal sortedEmployees.

(** The later revision: one ranking, no use of [allEmployees]. *)
Definition selectEmployeesWithFairness (availableEmployees : list string) (shiftType : string)
    (requiredCount : nat) (employeeStats : gmap string EmployeeStats)
    (allEmployees : list string) (strategy : string) (date : option JSDate.t) : list string :=
  if (length availableEmployees <=? requiredCount)%nat then availableEmployees
  else take requiredCount (ranking shiftType employeeStats strategy date availableEmployees).

(** [for (let i = 0; i < 14; i++)] of [calculateConsecutiveWorkDays],
    with [n] turns left. *)
Fixpoint countBack (n : nat) (scheduleData : gmap string (list Assignment))
    (emp : string) (checkDate : JSDate.t) (consecutive : nat) : nat :=
  match n with
  | O => consecutive
  | S n' =>
      if isWorking scheduleData emp checkDate
      then countBack n' scheduleData emp
             (JSDate.setDate checkDate (JSDate.getDate checkDate - 1)) (S consecutive)
      else consecutive
  end.

(** [targetDate] is the calendar day that [new Date(targetDate)] denotes. *)
Definition calculateConsecutiveWorkDays (emp : string) (targetDate : JSDate.t)
    (scheduleData : gmap string (list Assignment)) : nat :=
  let checkDate := JSDate.setDate targetDate (JSDate.getDate targetDate - 1) in
  countBack 14 scheduleData emp checkDate 0.

(** ** The earlier revision's selection functions *)
Module Earlier.
Section Selection.

(** [a.localeCompare(b)] depends on the host's locale; only its sign is
    used. *)
Variable localeCompare : string → string → Z.

(** [employeeStats[a] || { totalShifts: 0, dayShifts: 0, nightShifts: 0 }].
    For a name without an entry that every object inherits, the value
    read is the inherited member, which is truthy and has none of the
    three fields ([None]). *)
Definition statOf (employeeStats : gmap string EmployeeStats) (a : string)
  : option EmployeeStats :=
  match employeeStats !! a with
  | Some stat => Some stat
  | None =>
      if JSObject.inherited a then None
      else Some {| totalShifts := 0; dayShifts := 0; nightShifts := 0 |}
  end.

(** A field of the value read; [None] is undefined. *)
Definition field (f : EmployeeStats → Z) (stat : option EmployeeStats) : option Z :=
  f <$> stat.

(** [x !== y] on fields: undefined is equal to itself only. *)
Definition differ (x y : option Z) : bool :=
  match x, y with
  | Some m, Some n => negb (m =? n)
  | None, None => false
  | _, _ => true
  end.

(** [x - y] on fields: [None] is NaN. *)
Definition minus (x y : option Z) : option Z :=
  match x, y with
  | Some m, Some n => Some (m - n)
  | _, _ => None
  end.

(** What [sort] makes of a comparator's result: NaN counts as 0. *)
Definition verdict (x : option Z) : Z := default 0 x.

Definition balancedCompare (employeeStats : gmap string EmployeeStats) (shiftType : string)
    (a b : string) : Z :=
  let statA := statOf employeeStats a in
  let statB := statOf employeeStats b in
  if differ (field totalShifts statA) (field totalShifts statB) then
    verdict (minus (field totalShifts statA) (field totalShifts statB))
  else if String.eqb shiftType "day" then
    let balanceA := minus (field nightShifts statA) (field dayShifts statA) in
    let balanceB := minus (field nightShifts statB) (field dayShifts statB) in
    verdict (minus balanceB balanceA)
  else if String.eqb shiftType "night" then
    let balanceA := minus (field dayShifts statA) (field nightShifts statA) in
    let balanceB := minus (field dayShifts statB) (field nightShifts statB) in
    verdict (minus balanceB balanceA)
  else localeCompare a b.

Definition fewestNightsCompare (employeeStats : gmap string EmployeeStats) (a b : string) : Z :=
  let statA := statOf employeeStats a in
  let statB := statOf employeeStats b in
  if differ (field nightShifts statA) (field nightShifts statB)
  then verdict (minus (field nightShifts statA) (field nightShifts statB))
  else verdict (minus (field totalShifts statA) (field totalShifts statB)).

Definition fewestDaysCompare (employeeStats : gmap string EmployeeStats) (a b : string) : Z :=
  let statA := statOf employeeStats a in
  let statB := statOf employeeStats b in
  if differ (field dayShifts statA) (field dayShifts statB)
  then verdict (minus (field dayShifts statA) (field dayShifts statB))
  else verdict (minus (field totalShifts statA) (field totalShifts statB)).

Definition totalCompare (employeeStats : gmap string EmployeeStats) (a b : string) : Z :=
  verdict (minus (field totalShifts (statOf employeeStats a))
             (field totalShifts (statOf employeeStats b))).

(** The ranking that the [switch] on [strategy] produces. *)
Definition rank (shiftType : string) (employeeStats : gmap string EmployeeStats)
    (strategy : string) (date : option JSDate.t) (employees : list string) : list string :=
  if String.eqb strategy "balanced" then
    JSArray.sort (balancedCompare employeeStats shiftType) employees
  else if String.eqb strategy "minimize_night" then
    if String.eqb shiftType "night"
    then JSArray.sort (fewestNightsCompare employeeStats) employees
    else JSArray.sort (fewestDaysCompare employeeStats) employees
  else if String.eqb strategy "rotate" then
    rotateByDate (JSArray.sort JSString.compare employees) date
  else JSArray.sort (totalCompare employeeStats) employees.

Definition getBestEmployeeSelection (availableEmployees : list string) (shiftType : string)
    (requiredCount : nat) (employeeStats : gmap string EmployeeStats)
    (strategy : string) (date : option JSDate.t) : list string :=
  if (length availableEmployees <=? requiredCount)%nat then availableEmployees
  else take requiredCount (rank shiftType employeeStats strategy date availableEmployees).

(** [x < totalShifts / n]: an undefined [x] is below nothing; with an
    empty roster the quotient is an infinity or NaN.  The quotient is a
    double; for shift counts, which stay far below 2^52, comparing with it
    is comparing [x * n] with [totalShifts]. *)
Definition belowAverage (x : option Z) (totalShifts : Z) (n : nat) : bool :=
  match x with
  | None => false
  | Some x => if (n =? 0)%nat then 0 <? totalShifts else x * Z.of_nat n <? totalShifts
  end.

Definition getUnderScheduledEmployees (employeeStats : gmap string EmployeeStats)
    (employees : list string) : list string :=
  let sumOfShifts :=
    map_fold (λ _ stat sum, sum + totalShifts stat) 0 employeeStats in
  let underScheduled :=
    List.filter
      (λ emp, belowAverage (field totalShifts (statOf employeeStats emp)) sumOfShifts
                (length employees))
      employees in
  JSArray.sort (totalCompare employeeStats) underScheduled.

Definition selectEmployeesWithFairness (availableEmployees : list string) (shiftType : string)
    (requiredCount : nat) (employeeStats : gmap string EmployeeStats)
    (allEmployees : list string) (strategy : string) (date : option JSDate.t) : list string :=
  if (length availableEmployees <=? requiredCount)%nat then availableEmployees
  else
    let underScheduled := getUnderScheduledEmployees employeeStats allEmployees in
    let availableUnderScheduled :=
      List.filter (includes underScheduled) availableEmployees in
    let selected :=
      if (0 <? length availableUnderScheduled)%nat then
        let priorityCount := Nat.min (length availableUnderScheduled) requiredCount in
        getBestEmployeeSelection availableUnderScheduled shiftType priorityCount
          employeeStats strategy date
      else [] in
    if (length selected <? requiredCount)%nat then
      let remainingAvailable :=
        List.filter (λ emp, negb (includes selected emp)) availableEmployees in
      let remainingCount := (requiredCount - length selected)%nat in
      if (0 <? length remainingAvailable)%nat then
        selected ++ getBestEmployeeSelection remainingAvailable shiftType remainingCount
                      employeeStats strategy date
      else selected
    else selected.

End Selection.
End Earlier.

(** * Properties *)

(** ** Calendar facts *)

(** Bounded universal quantification, decided by enumeration. *)
Fixpoint all_from (n : nat) (start : Z) (p : Z → bool) : bool :=
  match n with
  | O => true
  | S k => p start && all_from k (start + 1) p
  end.

Lemma all_from_spec n start p :
  all_from n start p = true →
  ∀ z, start <= z < start + Z.of_nat n → p z = true.
Proof.
  revert start. induction n as [|k IH]; simpl; intros start H z Hz; [lia|].
  apply andb_prop in H as [Hk Hr].
  destruct (decide (z = start)) as [->|Hne]; [done|].
  apply (IH (start + 1)); [done|lia].
Qed.

Module JSDateFacts.
Import JSDate.

(** The day of era of a date given by year of era (March based), month
    1..12 and day. *)
Definition doe_of (yoe m d : Z) : Z :=
  let mp := if m <=? 2 then m + 9 else m - 3 in
  yoe * 365 + yoe / 4 - yoe / 100 + ((153 * mp + 2) / 5 + d - 1).

(** Month length seen from the year of era: January and February belong
    to the following civil year. *)
Definition len_of (yoe m : Z) : Z :=
  month_len (if m <=? 2 then yoe + 1 else yoe) (m - 1).

Definition roundtrip_check (yoe m d : Z) : bool :=
  if d <=? len_of yoe m then
    let doe := doe_of yoe m d in
    (0 <=? doe) && (doe <? 146097) &&
    match civil_of_doe doe with
    | (yoe', m', d') => (yoe' =? yoe) && (m' =? m) && (d' =? d)
    end
  else true.

Lemma roundtrip_table :
  all_from 400 0 (λ yoe, all_from 12 1 (λ m, all_from 31 1 (λ d,
    roundtrip_check yoe m d))) = true.
Proof. vm_compute. reflexivity. Qed.

Lemma civil_of_doe_of yoe m d :
  0 <= yoe < 400 → 1 <= m <= 12 → 1 <= d <= len_of yoe m →
  0 <= doe_of yoe m d < 146097 ∧ civil_of_doe (doe_of yoe m d) = (yoe, m, d).
Proof.
  intros Hy Hm Hd.
  assert (d <= 31) as Hd31.
  { unfold len_of, month_len in Hd.
    repeat match type of Hd with context [if ?b then _ else _] => destruct b end; lia. }
  pose proof (all_from_spec _ _ _ roundtrip_table yoe ltac:(lia)) as H1.
  pose proof (all_from_spec _ _ _ H1 m ltac:(lia)) as H2.
  pose proof (all_from_spec _ _ _ H2 d ltac:(lia)) as H3.
  cbv beta in H3.
  unfold roundtrip_check in H3.
  destruct (Z.leb_spec d (len_of yoe m)); [|lia].
  destruct (civil_of_doe (doe_of yoe m d)) as [[yoe' m'] d'].
  repeat (apply andb_prop in H3 as [H3 ?]).
  split; [lia|]. f_equal; [f_equal|]; lia.
Qed.

Lemma is_leap_period y k : is_leap (y + 400 * k) = is_leap y.
Proof.
  unfold is_leap.
  replace ((y + 400 * k) mod 4) with (y mod 4)
    by (Z.div_mod_to_equations; lia).
  replace ((y + 400 * k) mod 100) with (y mod 100)
    by (Z.div_mod_to_equations; lia).
  replace ((y + 400 * k) mod 400) with (y mod 400)
    by (Z.div_mod_to_equations; lia).
  reflexivity.
Qed.

(** [civil_from_days] inverts [days_from_civil] on the days of a month. *)
Lemma civil_from_days_from_civil y m d :
  1 <= m <= 12 → 1 <= d <= month_len y (m - 1) →
  civil_from_days (days_from_civil y m d) = (y, m, d).
Proof.
  intros Hm Hd.
  set (y' := if m <=? 2 then y - 1 else y).
  set (era := y' / 400). set (yoe := y' - era * 400).
  assert (0 <= yoe < 400) as Hyoe
    by (subst yoe era; Z.div_mod_to_equations; lia).
  assert (len_of yoe m = month_len y (m - 1)) as Hlen.
  { unfold len_of, month_len.
    replace (if m <=? 2 then yoe + 1 else yoe) with (y + 400 * (- era)); [by rewrite is_leap_period|].
    subst yoe y'. destruct (m <=? 2); lia. }
  destruct (civil_of_doe_of yoe m d Hyoe Hm ltac:(lia)) as [Hr Hc].
  assert (days_from_civil y m d = era * 146097 + doe_of yoe m d - 719468) as ->.
  { unfold days_from_civil, doe_of. fold y'. cbv zeta. fold era. fold yoe. lia. }
  unfold civil_from_days. cbv zeta.
  replace (era * 146097 + doe_of yoe m d - 719468 + 719468)
    with (doe_of yoe m d + era * 146097) by lia.
  rewrite Z.div_add by lia. rewrite (Z.div_small (doe_of yoe m d)) by lia.
  replace (doe_of yoe m d + era * 146097 - (0 + era) * 146097)
    with (doe_of yoe m d) by lia.
  rewrite Hc. subst yoe y'. destruct (m <=? 2); do 2 f_equal; lia.
Qed.

(** The other direction holds for every day number. *)
Lemma days_from_civil_from_days z :
  let '(y, m, d) := civil_from_days z in days_from_civil y m d = z.
Proof.
  unfold civil_from_days, civil_of_doe, days_from_civil.
  cbv beta iota zeta.
  repeat match goal with
         | |- context [if ?b then _ else _] => destruct b eqn:?
         end;
    Z.div_mod_to_equations; lia.
Qed.

Definition valid_check (doe : Z) : bool :=
  match civil_of_doe doe with
  | (yoe, m, d) =>
      (0 <=? yoe) && (yoe <? 400) && (1 <=? m) && (m <=? 12) &&
      (1 <=? d) && (d <=? len_of yoe m)
  end.

Lemma valid_table : all_from (Z.to_nat 146097) 0 valid_check = true.
Proof. vm_compute. reflexivity. Qed.

(** Every day number denotes a date of the calendar. *)
Lemma civil_from_days_valid z :
  let '(y, m, d) := civil_from_days z in
  1 <= m <= 12 ∧ 1 <= d <= month_len y (m - 1).
Proof.
  unfold civil_from_days. cbv zeta.
  set (era := (z + 719468) / 146097).
  set (doe := z + 719468 - era * 146097).
  assert (0 <= doe < 146097) as Hdoe
    by (subst doe era; Z.div_mod_to_equations; lia).
  pose proof (all_from_spec _ _ _ valid_table doe ltac:(lia)) as H.
  unfold valid_check in H.
  destruct (civil_of_doe doe) as [[yoe m] d].
  repeat (apply andb_prop in H as [H ?]).
  split; [lia|].
  assert (month_len (if m <=? 2 then yoe + era * 400 + 1 else yoe + era * 400)
            (m - 1) = len_of yoe m) as ->; [|lia].
  unfold len_of, month_len.
  replace (if m <=? 2 then yoe + era * 400 + 1 else yoe + era * 400)
    with ((if m <=? 2 then yoe + 1 else yoe) + 400 * era)
    by (destruct (m <=? 2); lia).
  by rewrite is_leap_period.
Qed.

Lemma getMonth_range d : 0 <= getMonth d <= 11.
Proof.
  unfold getMonth. pose proof (civil_from_days_valid d) as H.
  destruct (civil_from_days d) as [[y m] dd]. simpl. lia.
Qed.

Lemma getDate_range d :
  1 <= getDate d <= month_len (getFullYear d) (getMonth d).
Proof.
  unfold getDate, getMonth, getFullYear.
  pose proof (civil_from_days_valid d) as H.
  destruct (civil_from_days d) as [[y m] dd]. simpl. lia.
Qed.

Lemma MakeDay_components d :
  MakeDay (getFullYear d) (getMonth d) (getDate d) = d.
Proof.
  pose proof (getMonth_range d) as Hm.
  unfold MakeDay. rewrite Z.div_small, Z.mod_small by lia.
  revert Hm. unfold getMonth, getFullYear, getDate.
  pose proof (days_from_civil_from_days d) as H.
  destruct (civil_from_days d) as [[y m] dd]. simpl. intros Hm.
  replace (y + 0) with y by lia. replace (m - 1 + 1) with m by lia.
  unfold days_from_civil in *. lia.
Qed.

(** [d.setDate(d.getDate() + k)] moves [d] by [k] days. *)
Lemma setDate_shift d k : setDate d (getDate d + k) = d + k.
Proof.
  unfold setDate.
  transitivity (MakeDay (getFullYear d) (getMonth d) (getDate d) + k).
  - unfold MakeDay. lia.
  - by rewrite MakeDay_components.
Qed.

Lemma make_full_year y m d : full_year y → make y m d = MakeDay y m d.
Proof.
  unfold full_year, make. intros Hy.
  destruct (Z.leb_spec 0 y), (Z.leb_spec y 99); simpl; try done; lia.
Qed.

Lemma MakeDay_shift y m d k : MakeDay y m (d + k) = MakeDay y m d + k.
Proof. unfold MakeDay. lia. Qed.

(** Year, month and day of the [d]-th day of a month. *)
Lemma civil_MakeDay y m d :
  0 <= m <= 11 → 1 <= d <= month_len y m →
  getFullYear (MakeDay y m d) = y ∧ getMonth (MakeDay y m d) = m ∧
  getDate (MakeDay y m d) = d.
Proof.
  intros Hm Hd. unfold getFullYear, getMonth, getDate, MakeDay.
  rewrite Z.div_small, Z.mod_small by lia.
  replace (days_from_civil (y + 0) (m + 1) 1 + d - 1)
    with (days_from_civil y (m + 1) d)
    by (replace (y + 0) with y by lia; unfold days_from_civil; lia).
  rewrite civil_from_days_from_civil; simpl; [lia|lia|].
  by replace (m + 1 - 1) with m by lia.
Qed.

(** Day 0 of the next month is the last day of this one. *)
Lemma MakeDay_next_month y m :
  0 <= m <= 11 → MakeDay y (m + 1) 0 = MakeDay y m (month_len y m).
Proof.
  intros Hm.
  assert (m = 0 ∨ m = 1 ∨ m = 2 ∨ m = 3 ∨ m = 4 ∨ m = 5 ∨ m = 6 ∨ m = 7 ∨
          m = 8 ∨ m = 9 ∨ m = 10 ∨ m = 11) as Hc by lia.
  unfold MakeDay, month_len, is_leap, days_from_civil.
  repeat destruct Hc as [Hc|Hc]; subst m; cbn -[Z.div Z.modulo Z.mul Z.add Z.sub];
    change (12 / 12) with 1; change (12 mod 12) with 0;
    repeat match goal with
           | |- context [if ?b then _ else _] => destruct b eqn:?
           end;
    Z.div_mod_to_equations; lia.
Qed.

End JSDateFacts.

(** ** Conversions on sample inputs *)

Example parseInt_plain : JSString.parseInt "3" = Some 3.
Proof. vm_compute. reflexivity. Qed.
Example parseInt_prefix : JSString.parseInt "  -12px" = Some (-12).
Proof. vm_compute. reflexivity. Qed.
Example parseInt_word : JSString.parseInt "abc" = None.
Proof. vm_compute. reflexivity. Qed.
Example parseInt_empty : JSString.parseInt "" = None.
Proof. vm_compute. reflexivity. Qed.
Example ToNumber_word : JSString.ToNumber "abc" = JSString.NaN.
Proof. vm_compute. reflexivity. Qed.
Example ToNumber_empty : JSString.ToNumber "" = JSString.Dec 0 0.
Proof. vm_compute. reflexivity. Qed.
Example ToNumber_fraction : JSString.ToNumber " 1.5e1 " = JSString.Dec 15 0.
Proof. vm_compute. reflexivity. Qed.
Example ToNumber_hex : JSString.ToNumber "0x1f" = JSString.Dec 31 0.
Proof. vm_compute. reflexivity. Qed.
Example ToNumber_suffix : JSString.ToNumber "3px" = JSString.NaN.
Proof. vm_compute. reflexivity. Qed.

(** ** The gap between two shifts *)

Lemma indexOf_weekday a :
  indexOf WEEKDAY_SHIFT_ORDER a ≠ -1 → a = "day" ∨ a = "evening" ∨ a = "night".
Proof.
  unfold WEEKDAY_SHIFT_ORDER. cbn [indexOf].
  destruct (String.eqb_spec "day" a) as [<-|_]; [by left|].
  destruct (String.eqb_spec "evening" a) as [<-|_]; [by right; left|].
  destruct (String.eqb_spec "night" a) as [<-|_]; [by right; right|].
  intros H. exfalso. apply H. reflexivity.
Qed.

(** The pairs that the specification lists as the only insufficient ones. *)
Definition forwardAdjacentPairs : list (string * string) :=
  [("day", "evening"); ("evening", "night"); ("night", "day")].

(** The same shift on both days. *)
Definition sameShiftPairs : list (string * string) :=
  [("day", "day"); ("evening", "evening"); ("night", "night")].

(** C2, as stated, fails: the same weekday shift on two consecutive
    weekdays has cyclic distance 0, which is not greater than 1, so the
    gap check rejects it although the pair is none of day→evening,
    evening→night, night→day. *)
Lemma hasEnoughShiftGap_same_shift_insufficient :
  hasEnoughShiftGap "day" "day" false false = false ∧
  (("day", "day") ∉ forwardAdjacentPairs) ∧
  In "day" WEEKDAY_SHIFT_ORDER.
Proof.
  split; [reflexivity|]. split; [|by left].
  unfold forwardAdjacentPairs. rewrite !elem_of_cons, elem_of_nil.
  intros [H|[H|[H|[]]]]; discriminate H.
Qed.

(** C2 (amended): the gap check is sufficient whenever the holiday flags
    differ, a shift is 'off', both days are holidays, or a shift is not in
    the weekday order; otherwise it is sufficient exactly when the forward
    cyclic distance (posB - posA + 3) mod 3 exceeds 1.  The insufficient
    weekday pairs are therefore the three forward-adjacent pairs and the
    three same-shift pairs; day→night is sufficient. *)
Theorem hasEnoughShiftGap_spec (a b : string) (hA hB : bool) :
  ((hA ≠ hB ∨ a = "off" ∨ b = "off" ∨ (hA = true ∧ hB = true) ∨
    getShiftPosition a false = -1 ∨ getShiftPosition b false = -1) →
   hasEnoughShiftGap a b hA hB = true) ∧
  (hA = false → hB = false → a ≠ "off" → b ≠ "off" →
   getShiftPosition a false ≠ -1 → getShiftPosition b false ≠ -1 →
   hasEnoughShiftGap a b hA hB =
     (1 <? (getShiftPosition b false - getShiftPosition a false + 3) mod 3)) ∧
  (hasEnoughShiftGap a b false false = false ↔
   (a, b) ∈ forwardAdjacentPairs ++ sameShiftPairs) ∧
  hasEnoughShiftGap "day" "night" false false = true.
Proof.
  split; [|split; [|split]].
  - intros H. unfold hasEnoughShiftGap.
    destruct hA, hB; simpl negb; cbv iota; try done;
      destruct (String.eqb_spec a "off"), (String.eqb_spec b "off");
      simpl orb; cbv iota; try done.
    destruct H as [H|[H|[H|[[H _]|[H|H]]]]]; try done; rewrite H; simpl Z.eqb.
    + done.
    + by rewrite orb_true_r.
  - intros -> -> Ha Hb Hpa Hpb. unfold hasEnoughShiftGap. simpl negb. cbv iota.
    destruct (String.eqb_spec a "off"); [done|].
    destruct (String.eqb_spec b "off"); [done|]. simpl orb. cbv iota.
    destruct (Z.eqb_spec (getShiftPosition a false) (-1)); [done|].
    destruct (Z.eqb_spec (getShiftPosition b false) (-1)); [done|].
    simpl orb. cbv iota zeta.
    destruct (indexOf_weekday a Hpa) as [ -> | [ -> | -> ] ],
             (indexOf_weekday b Hpb) as [ -> | [ -> | -> ] ]; reflexivity.
  - split.
    + intros H.
      assert (getShiftPosition a false ≠ -1 ∧ getShiftPosition b false ≠ -1) as [Hpa Hpb].
      { unfold hasEnoughShiftGap in H. simpl negb in H. cbv iota in H.
        destruct (String.eqb a "off" || String.eqb b "off"); [done|].
        destruct (Z.eqb_spec (getShiftPosition a false) (-1)); [done|].
        destruct (Z.eqb_spec (getShiftPosition b false) (-1)); [done|]. done. }
      destruct (indexOf_weekday a Hpa) as [ -> | [ -> | -> ] ],
               (indexOf_weekday b Hpb) as [ -> | [ -> | -> ] ];
        (try discriminate H);
        unfold forwardAdjacentPairs, sameShiftPairs; simpl;
        rewrite !elem_of_cons; tauto.
    + unfold forwardAdjacentPairs, sameShiftPairs. simpl.
      rewrite !elem_of_cons, elem_of_nil.
      intros [H|[H|[H|[H|[H|[H|[]]]]]]]; injection H as -> ->; reflexivity.
  - reflexivity.
Qed.

(** ** Selection from a pool that is not larger than the headcount *)

(** C10: when the pool has at most [requiredCount] employees, the three
    selection entry points return the pool itself, in its input order,
    whatever the strategy, the statistics and the roster. *)
Theorem selection_small_pool_unchanged
    (localeCompare : string → string → Z)
    (availableEmployees : list string) (shiftType : string) (requiredCount : nat)
    (employeeStats : gmap string EmployeeStats) (allEmployees : list string)
    (strategy : string) (date : option JSDate.t) :
  (length availableEmployees ≤ requiredCount)%nat →
  selectEmployeesWithFairness availableEmployees shiftType requiredCount employeeStats
    allEmployees strategy date = availableEmployees ∧
  Earlier.selectEmployeesWithFairness localeCompare availableEmployees shiftType
    requiredCount employeeStats allEmployees strategy date = availableEmployees ∧
  Earlier.getBestEmployeeSelection localeCompare availableEmployees shiftType
    requiredCount employeeStats strategy date = availableEmployees.
Proof.
  intros Hle.
  unfold selectEmployeesWithFairness, Earlier.selectEmployeesWithFairness,
    Earlier.getBestEmployeeSelection.
  apply Nat.leb_le in Hle. rewrite Hle. done.
Qed.

Definition sampleStats : gmap string EmployeeStats :=
  list_to_map
    [ ("A", {| totalShifts := 5; dayShifts := 3; nightShifts := 2 |});
      ("B", {| totalShifts := 1; dayShifts := 1; nightShifts := 0 |});
      ("C", {| totalShifts := 3; dayShifts := 1; nightShifts := 2 |}) ].

Lemma selection_small_pool_unchanged_witness :
  (length ["C"; "A"] ≤ 2)%nat ∧
  selectEmployeesWithFairness ["C"; "A"] "night" 2 sampleStats ["A"; "B"; "C"]
    "rotate" None = ["C"; "A"] ∧
  Earlier.selectEmployeesWithFairness JSString.compare ["C"; "A"] "night" 2 sampleStats
    ["A"; "B"; "C"] "rotate" None = ["C"; "A"] ∧
  Earlier.getBestEmployeeSelection JSString.compare ["C"; "A"] "night" 2 sampleStats
    "rotate" None = ["C"; "A"].
Proof.
  split; [simpl; lia|].
  apply (selection_small_pool_unchanged JSString.compare ["C"; "A"] "night" 2
           sampleStats ["A"; "B"; "C"] "rotate" None).
  simpl. lia.
Defined.

(** ** The validation run *)

(** A month with an empty schedule and one employee rule with the tag
    [tag]. *)
Definition paramsWithTag (tag : string) : Params.t :=
  {| Params.currentDate := JSDate.make 2024 0 15;
     Params.scheduleData := ∅;
     Params.schedulingConditions :=
       {| employeeRules :=
            Some [ {| Rule.type := tag; Rule.employee := "A";
                      Rule.shift := "undefined"; Rule.value := "3" |} ];
          shiftRules := None |};
     Params.shiftTypes := ∅;
     Params.employeeAvailability := None;
     Params.holidayDates := None |}.

(** C1 (a defect of the code): a rule whose tag has no registered handler
    is skipped only when the tag is not the name of a member that every
    object inherits.  For the tag 'constructor' the registry lookup finds
    [Object], the call returns an object, and [totalConflicts] ends as the
    text "0[object Object]00" with [isValid] false; for the tag
    '__proto__' the call throws and [validate] returns nothing.  A tag
    such as 'unknownRule' is skipped as the claim says. *)
Theorem validate_inherited_tag (zone : JSTime.Zone) :
  validate zone (paramsWithTag "constructor") =
    {| result := Some {| totalConflicts := JSValue.Text "0[object Object]00";
                         isValid := false |};
       events := [ ClearHighlights;
                   Alert "⚠️ 發現 0[object Object]00 個排班衝突，請查看月曆上的紅色標記。" ] |} ∧
  validate zone (paramsWithTag "__proto__") =
    {| result := None; events := [ ClearHighlights ] |} ∧
  validate zone (paramsWithTag "unknownRule") =
    {| result := Some {| totalConflicts := JSValue.Number 0; isValid := true |};
       events := [ ClearHighlights; Alert "🎉 太棒了！未發現任何排班衝突。" ] |}.
Proof. repeat split; vm_compute; reflexivity. Qed.

(** ** Months as intervals of days *)

Section Months.
Import JSDate JSDateFacts.

Lemma month_len_bounds y m : 28 <= month_len y m <= 31.
Proof.
  unfold month_len.
  repeat match goal with |- context [if ?b then _ else _] => destruct b end; lia.
Qed.

Lemma make_shift y m d k : make y m (d + k) = make y m d + k.
Proof. unfold make. apply MakeDay_shift. Qed.


Lemma civil_make y m d :
  full_year y → 0 <= m <= 11 → 1 <= d <= month_len y m →
  getFullYear (make y m d) = y ∧ getMonth (make y m d) = m ∧
  getDate (make y m d) = d.
Proof. intros Hy Hm Hd. rewrite make_full_year by done. by apply civil_MakeDay. Qed.

(** Day 0 of the next month is the last day of the month. *)
Lemma make_last_day y m :
  full_year y → 0 <= m <= 11 →
  make y (m + 1) 0 = make y m 1 + (month_len y m - 1).
Proof.
  intros Hy Hm. rewrite !make_full_year by done.
  rewrite MakeDay_next_month by done.
  rewrite <- MakeDay_shift. f_equal. lia.
Qed.

Lemma daysInMonth_len y m :
  full_year y → 0 <= m <= 11 → daysInMonth y m = month_len y m.
Proof.
  intros Hy Hm. unfold daysInMonth.
  rewrite make_last_day by done. rewrite <- make_shift.
  replace (1 + (month_len y m - 1)) with (month_len y m) by lia.
  pose proof (month_len_bounds y m).
  by apply civil_make; [..|lia].
Qed.


End Months.

(** ** Loops over dates *)





Lemma filter_all {A : Type} (p : A → bool) (l : list A) :
  (∀ x, In x l → p x = true) → List.filter p l = l.
Proof.
  induction l as [|x l IH]; simpl; intros H; [done|].
  rewrite (H x) by auto. f_equal. apply IH. auto.
Qed.

Lemma In_seqZ m n k : In k (seqZ m n) ↔ m <= k < m + n.
Proof. rewrite <- list_elem_of_In. apply elem_of_seqZ. Qed.

(** ** Loops over the days of the month *)

Lemma fold_days_ind {S : Type} (P : S → Prop) (body : Z → S → S) (n : Z)
    (days : list Z) (s : S) :
  (∀ day, In day days → 1 <= day <= n) →
  P s →
  (∀ day st, 1 <= day <= n → P st → P (body day st)) →
  P (fold_left (λ acc day, body day acc) days s).
Proof.
  intros Hdays Hs Hstep. revert s Hs.
  induction days as [|day days IH]; intros s Hs; cbn [fold_left]; [done|].
  apply IH.
  - intros d Hd. apply Hdays. by right.
  - apply Hstep; [|done]. apply Hdays. by left.
Qed.

(** What holds at the start and is kept by every turn holds at the end. *)
Lemma for_days_ind {S : Type} (P : S → Prop) (n : Z) (body : Z → S → S) (s : S) :
  P s →
  (∀ day st, 1 <= day <= n → P st → P (body day st)) →
  P (for_days n body s).
Proof.
  intros Hs Hstep. unfold for_days. apply (fold_days_ind P body n); [|done..].
  intros day Hd%In_seqZ. lia.
Qed.

(** A loop whose turns change nothing returns its initial state. *)
Lemma for_days_id {S : Type} (n : Z) (body : Z → S → S) (s : S) :
  (∀ day st, 1 <= day <= n → body day st = st) →
  for_days n body s = s.
Proof.
  intros Hid. apply (for_days_ind (λ st, st = s)); [done|].
  intros day st Hday ->. by apply Hid.
Qed.

(** What the turn of day [d] establishes and every turn keeps holds at
    the end. *)
Lemma for_days_reaches {S : Type} (Q : S → Prop) (n : Z) (body : Z → S → S)
    (s : S) (d : Z) :
  1 <= d <= n →
  (∀ st, Q (body d st)) →
  (∀ day st, 1 <= day <= n → Q st → Q (body day st)) →
  Q (for_days n body s).
Proof.
  intros Hd Hat Hkeep. unfold for_days.
  replace n with ((d - 1) + (1 + (n - d))) at 1 by lia.
  rewrite (seqZ_app 1 (d - 1)) by lia.
  rewrite (seqZ_app (1 + (d - 1)) 1) by lia.
  rewrite !fold_left_app.
  replace (1 + (d - 1)) with d by lia.
  change (seqZ d 1) with [d]. cbn [fold_left].
  apply (fold_days_ind Q body n); [|apply Hat|done].
  intros day Hday%In_seqZ. lia.
Qed.

(** ** Maximum consecutive workdays *)

(** The number of consecutive days with [worked] that end on day [d],
    looking back over at most [n] days. *)
Fixpoint runBack (worked : Z → bool) (d : Z) (n : nat) : Z :=
  match n with
  | O => 0
  | S n' => if worked d then 1 + runBack worked (d - 1) n' else 0
  end.



Lemma runBack_nonneg worked d n : 0 <= runBack worked d n.
Proof.
  revert d. induction n as [|n IH]; intros d; simpl; [lia|].
  destruct (worked d); [|lia]. specialize (IH (d - 1)). lia.
Qed.


(** A longer run fills the whole look-back. *)
Lemma runBack_full worked d (n : nat) :
  (∀ i, 0 <= i < Z.of_nat n → worked (d - i) = true) →
  runBack worked d n = Z.of_nat n.
Proof.
  revert d. induction n as [|n IH]; intros d Hrun; simpl runBack; [lia|].
  replace (worked d) with true by (rewrite <- (Hrun 0 ltac:(lia)); f_equal; lia).
  rewrite (IH (d - 1)); [lia|].
  intros i Hi. replace (d - 1 - i) with (d - (i + 1)) by lia. apply Hrun. lia.
Qed.

Section MaxConsecutive.
Variables (ctx : Context) (emp : string) (maxDays : Z).

Let worked := isWorking (scheduleData ctx) emp.





End MaxConsecutive.




(** January 2024: employee A works on days 1 to 4 and on no other day. *)
Definition fourDaySchedule : gmap string (list Assignment) :=
  list_to_map
    [ ("2024-01-01", [ {| employee := "A"; shift := "day" |} ]);
      ("2024-01-02", [ {| employee := "A"; shift := "day" |};
                       {| employee := "B"; shift := "night" |} ]);
      ("2024-01-03", [ {| employee := "A"; shift := "evening" |} ]);
      ("2024-01-04", [ {| employee := "A"; shift := "night" |} ]);
      ("2024-01-05", [ {| employee := "A"; shift := "off" |} ]) ].

Definition fourDayContext : Context :=
  {| scheduleData := fourDaySchedule; year := 2024; month := 0;
     shiftTypes := ∅; employeeAvailability := None; holidayDates := None |}.

Definition limitOf (value : string) : Rule.t :=
  {| Rule.type := "maxConsecutiveWorkDays"; Rule.employee := "A";
     Rule.shift := "undefined"; Rule.value := value |}.

Definition threeDayLimit : Rule.t := limitOf "3".







(** ** The look-back before a target date *)

Lemma countBack_runBack scheduleData emp (n : nat) d (consecutive : nat) :
  Z.of_nat (countBack n scheduleData emp d consecutive) =
  Z.of_nat consecutive + runBack (isWorking scheduleData emp) d n.
Proof.
  revert d consecutive. induction n as [|n IH]; intros d consecutive; cbn [countBack runBack].
  - lia.
  - destruct (isWorking scheduleData emp d); [|lia].
    replace (JSDate.getDate d - 1) with (JSDate.getDate d + -1) by lia.
    rewrite JSDateFacts.setDate_shift, IH.
    replace (d + -1) with (d - 1) by lia. lia.
Qed.

(** What [runBack] measures: the days it counts are worked, and it stops
    either at the limit of the look-back or before a day without work. *)
Lemma runBack_spec worked d (n : nat) :
  let r := runBack worked d n in
  0 <= r <= Z.of_nat n ∧
  (∀ i, 0 <= i < r → worked (d - i) = true) ∧
  (r < Z.of_nat n → worked (d - r) = false).
Proof.
  revert d. induction n as [|n IH]; intros d; cbn [runBack]; cbv zeta.
  - split; [lia|]. split; [intros i Hi|]; lia.
  - destruct (worked d) eqn:Hd.
    + destruct (IH (d - 1)) as (Hr & Hrun & Hstop). cbv zeta in Hr, Hrun, Hstop.
      split; [lia|]. split.
      * intros i Hi. destruct (Z.eq_dec i 0) as [->|Hne].
        -- by replace (d - 0) with d by lia.
        -- replace (d - i) with (d - 1 - (i - 1)) by lia. apply Hrun. lia.
      * intros Hlt.
        replace (d - (1 + runBack worked (d - 1) n))
          with (d - 1 - runBack worked (d - 1) n) by lia.
        apply Hstop. lia.
    + split; [lia|]. split; [intros i Hi; lia|].
      intros _. by replace (d - 0) with d by lia.
Qed.

(** [runBack] reads [worked] only on the days of the look-back. *)
Lemma runBack_ext worked1 worked2 d (n : nat) :
  (∀ i, 0 <= i < Z.of_nat n → worked1 (d - i) = worked2 (d - i)) →
  runBack worked1 d n = runBack worked2 d n.
Proof.
  revert d. induction n as [|n IH]; intros d Hext; cbn [runBack]; [done|].
  pose proof (Hext 0 ltac:(lia)) as H0. replace (d - 0) with d in H0 by lia.
  rewrite <- H0. destruct (worked1 d); [|done]. f_equal. apply IH.
  intros i Hi. replace (d - 1 - i) with (d - (i + 1)) by lia. apply Hext. lia.
Qed.

(** January 2024: employee A works on each of the days 1 to 15. *)
Definition fifteenDaySchedule : gmap string (list Assignment) :=
  list_to_map
    ((λ day, (formatDate (JSDate.make 2024 0 day), [ {| employee := "A"; shift := "day" |} ]))
       <$> seqZ 1 15).

(** C9, as stated, fails: the scan does not go on until the first day
    without work, it ends after 14 days.  With work on each of the 15 days
    before 16 January 2024 and none on the day before them, the run that
    ends on the day before the target has 15 days and the function
    returns 14. *)
Lemma calculateConsecutiveWorkDays_stops_at_14 :
  let target := JSDate.make 2024 0 16 in
  let worked := isWorking fifteenDaySchedule "A" in
  forallb (λ i, worked (target - i)) (seqZ 1 15) = true ∧
  worked (target - 16) = false ∧
  calculateConsecutiveWorkDays "A" target fifteenDaySchedule = 14%nat.
Proof. repeat split; vm_compute; reflexivity. Qed.

(** C9 (amended): [calculateConsecutiveWorkDays] counts the worked days
    immediately before the target date, looking back over at most 14
    days: the days counted are worked without a gap from the day before
    the target backwards, and the count ends at 14 or before a day without
    a working assignment.  The result depends on the schedule of the 14
    days before the target only: the target date itself and later dates
    never affect it. *)
Theorem calculateConsecutiveWorkDays_spec (emp : string) (targetDate : JSDate.t)
    (scheduleData : gmap string (list Assignment)) :
  let worked := isWorking scheduleData emp in
  let count := Z.of_nat (calculateConsecutiveWorkDays emp targetDate scheduleData) in
  0 <= count <= 14 ∧
  (∀ i, 1 <= i <= count → worked (targetDate - i) = true) ∧
  (count < 14 → worked (targetDate - (count + 1)) = false) ∧
  (∀ other : gmap string (list Assignment),
     (∀ i, 1 <= i <= 14 →
           shiftsOn other (formatDate (targetDate - i)) =
           shiftsOn scheduleData (formatDate (targetDate - i))) →
     calculateConsecutiveWorkDays emp targetDate other =
     calculateConsecutiveWorkDays emp targetDate scheduleData).
Proof.
  intros worked count.
  assert (∀ sd, Z.of_nat (calculateConsecutiveWorkDays emp targetDate sd) =
                runBack (isWorking sd emp) (targetDate - 1) 14) as Hcount.
  { intros sd. unfold calculateConsecutiveWorkDays. cbv zeta.
    rewrite countBack_runBack.
    replace (JSDate.getDate targetDate - 1) with (JSDate.getDate targetDate + -1) by lia.
    rewrite JSDateFacts.setDate_shift.
    replace (targetDate + -1) with (targetDate - 1) by lia. lia. }
  destruct (runBack_spec worked (targetDate - 1) 14) as (Hr & Hrun & Hstop).
  cbv zeta in Hr, Hrun, Hstop. subst count. rewrite Hcount. fold worked.
  split; [lia|]. split; [|split].
  - intros i Hi. replace (targetDate - i) with (targetDate - 1 - (i - 1)) by lia.
    apply Hrun. lia.
  - intros Hlt.
    replace (targetDate - (runBack worked (targetDate - 1) 14 + 1))
      with (targetDate - 1 - runBack worked (targetDate - 1) 14) by lia.
    apply Hstop. lia.
  - intros other Hsame. apply Nat2Z.inj. rewrite !Hcount.
    apply runBack_ext. intros i Hi. unfold isWorking.
    replace (targetDate - 1 - i) with (targetDate - (i + 1)) by lia.
    by rewrite Hsame by lia.
Qed.

(** ** Rule values that are not numbers *)

Lemma checkMinStaff_not_a_number ctx rule :
  JSString.ToNumber (Rule.value rule) = JSString.NaN → checkMinStaff ctx rule = no_conflicts.
Proof.
  intros Hnan. unfold checkMinStaff. apply for_days_id.
  intros day st _. unfold minStaffStep. cbv zeta. rewrite Hnan. reflexivity.
Qed.

(** The rule with another configured value. *)
Definition withValue (rule : Rule.t) (value : string) : Rule.t :=
  {| Rule.type := Rule.type rule; Rule.employee := Rule.employee rule;
     Rule.shift := Rule.shift rule; Rule.value := value |}.

(** January 2024: employee A holds 'day' on days 1 to 3 and nothing else. *)
Definition threeDayShiftsContext : Context :=
  {| scheduleData :=
       list_to_map
         [ ("2024-01-01", [ {| employee := "A"; shift := "day" |} ]);
           ("2024-01-02", [ {| employee := "A"; shift := "day" |} ]);
           ("2024-01-03", [ {| employee := "A"; shift := "day" |} ]) ];
     year := 2024; month := 0;
     shiftTypes := ∅; employeeAvailability := None; holidayDates := None |}.

Definition balanceRule (value : string) : Rule.t :=
  {| Rule.type := "balanceShifts"; Rule.employee := "A";
     Rule.shift := "undefined"; Rule.value := value |}.

(** C6, as stated, fails for balanceShifts: a value that is not a number
    does not disable the check, it selects the default difference 2.  With
    the value 'abc' and three 'day' shifts against no 'night' shift the
    check returns one conflict, on the last of the three days. *)
Lemma checkShiftBalance_not_disabled :
  JSString.parseInt (Rule.value (balanceRule "abc")) = None ∧
  JSString.ToNumber (Rule.value (balanceRule "abc")) = JSString.NaN ∧
  checkShiftBalance threeDayShiftsContext (balanceRule "abc") =
    {| conflictCount := 1;
       highlights :=
         [ {| date := "2024-01-03";
              reason := "A 班次不平衡：白班3次，夜班0次 (差距3，限制2)" |} ] |}.
Proof. repeat split; vm_compute; reflexivity. Qed.

(** C6 (amended): with a value that [parseInt] does not read as a number
    the maxConsecutiveWorkDays handler returns 0 for every schedule, and
    with a value that the comparison does not convert to a number the
    minStaff handler returns 0 for every schedule; neither issues a
    highlight.  The balanceShifts handler is not disabled by such a value:
    it behaves as with the value 2. *)
Theorem non_numeric_rule_values (zone : JSTime.Zone) (ctx : Context) (rule : Rule.t) :
  (JSString.parseInt (Rule.value rule) = None →
   checkMaxConsecutiveWorkDays zone ctx rule = no_conflicts) ∧
  (JSString.ToNumber (Rule.value rule) = JSString.NaN →
   checkMinStaff ctx rule = no_conflicts) ∧
  (JSString.parseInt (Rule.value rule) = None →
   checkShiftBalance ctx rule = checkShiftBalance ctx (withValue rule "2")).
Proof.
  split; [|split].
  - intros Hnan. unfold checkMaxConsecutiveWorkDays. by rewrite Hnan.
  - apply checkMinStaff_not_a_number.
  - intros Hnan. unfold checkShiftBalance, maxDifferenceOf.
    cbn [withValue Rule.value Rule.employee]. rewrite Hnan. reflexivity.
Qed.

Lemma non_numeric_rule_values_witness :
  checkMaxConsecutiveWorkDays JSTime.taipei fourDayContext (limitOf "abc") = no_conflicts ∧
  checkMinStaff fourDayContext (withValue (limitOf "abc") "many") = no_conflicts ∧
  checkShiftBalance threeDayShiftsContext (balanceRule "abc") =
    checkShiftBalance threeDayShiftsContext (withValue (balanceRule "abc") "2").
Proof.
  split; [|split].
  - apply (proj1 (non_numeric_rule_values JSTime.taipei fourDayContext (limitOf "abc"))).
    vm_compute. reflexivity.
  - apply (proj1 (proj2 (non_numeric_rule_values JSTime.taipei fourDayContext
                           (withValue (limitOf "abc") "many")))).
    vm_compute. reflexivity.
  - apply (proj2 (proj2 (non_numeric_rule_values JSTime.taipei threeDayShiftsContext
                           (balanceRule "abc")))).
    vm_compute. reflexivity.
Defined.

(** ** Turnarounds within 24 hours: the check *)

(** A conflict with its findings, in the order of the highlight calls. *)
Definition record (findings : list Finding) (run : Run) : Run :=
  {| conflictCount := S (conflictCount run); highlights := highlights run ++ findings |}.

(** A loop that records the findings [f day] on the days that satisfy [p]
    and does nothing on the others. *)
Lemma fold_flagged (p : Z → bool) (f : Z → list Finding) (body : Z → Run → Run)
    (days : list Z) (run : Run) :
  (∀ day st, body day st = if p day then record (f day) st else st) →
  fold_left (λ acc day, body day acc) days run =
    {| conflictCount := conflictCount run + length (List.filter p days);
       highlights := highlights run ++ concat (map f (List.filter p days)) |}.
Proof.
  intros Hbody. revert run.
  induction days as [|day days IH]; intros run; cbn [fold_left List.filter].
  - destruct run as [c h]. cbn [conflictCount highlights length map concat].
    by rewrite Nat.add_0_r, app_nil_r.
  - rewrite IH, Hbody. destruct (p day); [|done].
    cbn [record conflictCount highlights length map concat].
    f_equal; [lia|]. by rewrite <- app_assoc.
Qed.

Lemma for_days_flagged (p : Z → bool) (f : Z → list Finding) (body : Z → Run → Run) (n : Z) :
  (∀ day st, body day st = if p day then record (f day) st else st) →
  for_days n body no_conflicts =
    {| conflictCount := length (List.filter p (seqZ 1 n));
       highlights := concat (map f (List.filter p (seqZ 1 n))) |}.
Proof. intros Hbody. unfold for_days. by rewrite (fold_flagged p f). Qed.

Lemma hasShiftOf_single emp kind shifts :
  hasShiftOf emp [kind] shifts =
  existsb (λ s, String.eqb (employee s) emp && String.eqb (shift s) kind) shifts.
Proof.
  unfold hasShiftOf, includes.
  induction shifts as [|s shifts IH]; [done|].
  cbn [existsb] in IH |- *. rewrite IH. by rewrite orb_false_r.
Qed.

(** January 2024 with 5 January a holiday: employee A holds the holiday's
    night shift and the day shift of 6 January, a working day. *)
Definition holidayTurnContext : Context :=
  {| scheduleData :=
       list_to_map
         [ ("2024-01-05", [ {| employee := "A"; shift := "weekend-night" |} ]);
           ("2024-01-06", [ {| employee := "B"; shift := "night" |};
                            {| employee := "A"; shift := "day" |} ]) ];
     year := 2024; month := 0;
     shiftTypes := ∅; employeeAvailability := None;
     holidayDates := Some {[ "2024-01-05" := true ]} |}.

Definition turnaroundRule : Rule.t :=
  {| Rule.type := "no24HourShift"; Rule.employee := "A";
     Rule.shift := "undefined"; Rule.value := "undefined" |}.

(** C4: on every day of the target month the check tests whether the
    employee held the night-class shift of the day before ('weekend-night'
    if that day is a holiday, 'night' otherwise) and holds the day-class
    shift of the day itself ('weekend-day' if it is a holiday, 'day'
    otherwise); each such day counts one conflict, highlighted on the day
    with the turnaround reason and marked on the day before.  So a day
    that is no holiday, with the employee on 'day', after a holiday with
    the employee on 'weekend-night' is among the days counted; with
    'weekend-night' on the holiday 5 January and 'day' on the working day
    6 January the outcome is one conflict, on the 6th, with the marker on
    the 5th. *)
Theorem checkNo24HourShift_spec (ctx : Context) (rule : Rule.t) :
  let emp := Rule.employee rule in
  let key day := formatDate (JSDate.make (year ctx) (month ctx) day) in
  let holiday day := isHoliday (key day) (holidayDates ctx) in
  let holds day kind :=
    existsb (λ s, String.eqb (employee s) emp && String.eqb (shift s) kind)
      (shiftsOn (scheduleData ctx) (key day)) in
  let turnaround day :=
    holds (day - 1) (if holiday (day - 1) then "weekend-night" else "night")
    && holds day (if holiday day then "weekend-day" else "day") in
  let flagged := List.filter turnaround (seqZ 1 (daysInMonth (year ctx) (month ctx))) in
  checkNo24HourShift ctx rule =
    {| conflictCount := length flagged;
       highlights :=
         concat
           (map (λ day,
                   [ {| date := key day;
                        reason := turnaroundReason emp (key (day - 1)) (key day) |};
                     {| date := key (day - 1); reason := turnaroundMarker emp |} ])
              flagged) |} ∧
  (∀ day, 1 <= day <= daysInMonth (year ctx) (month ctx) →
     holiday (day - 1) = true → holiday day = false →
     holds (day - 1) "weekend-night" = true → holds day "day" = true →
     In day flagged) ∧
  checkNo24HourShift holidayTurnContext turnaroundRule =
    {| conflictCount := 1;
       highlights :=
         [ {| date := "2024-01-06";
              reason := "A 24小時連續工作 (2024-01-05 夜班 → 2024-01-06 白班)" |};
           {| date := "2024-01-05"; reason := "A 夜班後隔天接白班" |} ] |}.
Proof.
  intros emp key holiday holds turnaround flagged.
  split; [|split; [|vm_compute; reflexivity]].
  2:{ intros day Hday Hprev Hcur Hnight Hday'. apply filter_In.
      split; [apply In_seqZ; lia|].
      unfold turnaround. by rewrite Hprev, Hcur, Hnight, Hday'. }
  unfold checkNo24HourShift. fold emp.
  apply (for_days_flagged turnaround).
  intros day st. unfold turnaroundStep. cbv zeta.
  fold (key day) (key (day - 1)). fold (holiday day) (holiday (day - 1)).
  assert (hasShiftOf emp (nightClass (holiday (day - 1)))
            (shiftsOn (scheduleData ctx) (key (day - 1))) &&
          hasShiftOf emp (dayClass (holiday day)) (shiftsOn (scheduleData ctx) (key day))
          = turnaround day) as ->.
  { subst turnaround holds. cbv beta. unfold nightClass, dayClass.
    destruct (holiday (day - 1)), (holiday day); by rewrite !hasShiftOf_single. }
  destruct (turnaround day); [|done].
  unfold record, highlightConflict, countConflict. cbn [conflictCount highlights].
  f_equal. by rewrite <- app_assoc.
Qed.

(** ** The balance between day and night shifts *)

(** The entries of [emp] whose shift is one of [kinds]. *)
Definition holdsOneOf (emp : string) (kinds : list string) (s : Assignment) : bool :=
  String.eqb (employee s) emp && existsb (String.eqb (shift s)) kinds.

Lemma tallyShift_fold emp (shifts : list Assignment) (counts : Z * Z) :
  fold_left (tallyShift emp) shifts counts =
  (counts.1 + Z.of_nat (length (List.filter (holdsOneOf emp ["day"; "weekend-day"]) shifts)),
   counts.2 + Z.of_nat (length (List.filter (holdsOneOf emp ["night"; "weekend-night"]) shifts))).
Proof.
  revert counts. induction shifts as [|s shifts IH]; intros [a b]; cbn [fold_left List.filter].
  - cbn [length fst snd]. f_equal; lia.
  - rewrite IH. unfold tallyShift, holdsOneOf, isDayClass, isNightClass.
    cbn [existsb fst snd]. rewrite !orb_false_r.
    destruct (String.eqb (employee s) emp); cbn [andb fst snd]; [|done].
    destruct (String.eqb (shift s) "day" || String.eqb (shift s) "weekend-day"),
             (String.eqb (shift s) "night" || String.eqb (shift s) "weekend-night");
      cbn [length fst snd]; f_equal; lia.
Qed.

Lemma tallyDay_fold ctx emp (days : list Z) (counts : Z * Z) :
  let entries :=
    concat (map (λ day, shiftsOn (scheduleData ctx)
                          (formatDate (JSDate.make (year ctx) (month ctx) day))) days) in
  fold_left (λ acc day, tallyDay ctx emp day acc) days counts =
  (counts.1 + Z.of_nat (length (List.filter (holdsOneOf emp ["day"; "weekend-day"]) entries)),
   counts.2 + Z.of_nat (length (List.filter (holdsOneOf emp ["night"; "weekend-night"]) entries))).
Proof.
  cbv zeta. revert counts.
  induction days as [|day days IH]; intros [a b]; cbn [fold_left map concat].
  - cbn [List.filter length fst snd]. f_equal; lia.
  - rewrite IH. unfold tallyDay. rewrite tallyShift_fold.
    rewrite !List.filter_app, !length_app. cbn [fst snd]. f_equal; lia.
Qed.

(** Searching the days from [n] down to 1 finds the last day with [p]. *)
Lemma find_last_day (p : Z → bool) (n : nat) :
  match List.find p (reverse (seqZ 1 (Z.of_nat n))) with
  | Some last =>
      1 <= last <= Z.of_nat n ∧ p last = true ∧
      ∀ d, last < d <= Z.of_nat n → p d = false
  | None => ∀ d, 1 <= d <= Z.of_nat n → p d = false
  end.
Proof.
  induction n as [|n IH].
  - cbn. intros d Hd. lia.
  - rewrite seqZ_S, reverse_app. cbn [reverse rev_append app List.find].
    change (reverse [1 + Z.of_nat n]) with [1 + Z.of_nat n]. cbn [app List.find].
    destruct (p (1 + Z.of_nat n)) eqn:Hp.
    + split; [lia|]. split; [done|]. intros d Hd. lia.
    + destruct (List.find p (reverse (seqZ 1 (Z.of_nat n)))) as [last|].
      * destruct IH as (Hlast & Hp' & Hafter). split; [lia|]. split; [done|].
        intros d Hd. destruct (Z.eq_dec d (1 + Z.of_nat n)) as [->|Hne]; [done|].
        apply Hafter. lia.
      * intros d Hd. destruct (Z.eq_dec d (1 + Z.of_nat n)) as [->|Hne]; [done|].
        apply IH. lia.
Qed.

(** An entry of the month that satisfies [q] lies on a day of the month
    whose list has an entry with [q]. *)
Lemma entry_on_some_day (q : Assignment → bool) (shiftsOf : Z → list Assignment) (n : Z) :
  (0 < length (List.filter q (concat (map shiftsOf (seqZ 1 n)))))%nat →
  ∃ d, 1 <= d <= n ∧ existsb q (shiftsOf d) = true.
Proof.
  intros Hpos.
  destruct (List.filter q (concat (map shiftsOf (seqZ 1 n)))) as [|s rest] eqn:Hfilter;
    [cbn [length] in Hpos; lia|].
  assert (In s (List.filter q (concat (map shiftsOf (seqZ 1 n))))) as Hin
    by (rewrite Hfilter; by left).
  apply filter_In in Hin as [Hin Hq].
  apply in_concat in Hin as (l & Hl & Hs).
  apply in_map_iff in Hl as (d & <- & Hd%In_seqZ).
  exists d. split; [lia|]. apply existsb_exists. by exists s.
Qed.

(** C7, as stated, fails for a configured difference of 0: [parseInt]
    reads 0, which [||] replaces by the default 2 just as it replaces NaN.
    In [fourDayContext] employee A has two day-class shifts and one
    night-class shift; with the value 0 the difference 1 exceeds the
    configured maximum, yet no conflict is recorded. *)
Lemma checkShiftBalance_zero_is_default :
  JSString.parseInt (Rule.value (balanceRule "0")) = Some 0 ∧
  for_days 31 (tallyDay fourDayContext "A") (0, 0) = (2, 1) ∧
  checkShiftBalance fourDayContext (balanceRule "0") = no_conflicts.
Proof. repeat split; vm_compute; reflexivity. Qed.

(** C7 (amended): the maximum difference D of a balanceShifts rule is the
    integer that [parseInt] reads from the value, and 2 when that is NaN
    or 0.  With dayCount and nightCount the numbers of the employee's
    day-class ('day', 'weekend-day') and night-class ('night',
    'weekend-night') entries on the days of the month: if the difference
    of the two counts exceeds D and one of them is not 0, exactly one
    conflict is recorded, whatever the size of the difference, with one
    highlight on the last day of the month on which the employee has an
    entry of the class with the larger count (the night class when the
    counts are equal); otherwise nothing is recorded. *)
Theorem checkShiftBalance_spec (ctx : Context) (rule : Rule.t) :
  let emp := Rule.employee rule in
  let D :=
    match JSString.parseInt (Rule.value rule) with
    | Some n => if n =? 0 then 2 else n
    | None => 2
    end in
  let days := daysInMonth (year ctx) (month ctx) in
  let key day := formatDate (JSDate.make (year ctx) (month ctx) day) in
  let entries := concat (map (λ day, shiftsOn (scheduleData ctx) (key day)) (seqZ 1 days)) in
  let count kinds :=
    Z.of_nat
      (length
         (List.filter
            (λ s, String.eqb (employee s) emp && existsb (String.eqb (shift s)) kinds)
            entries)) in
  let dayCount := count ["day"; "weekend-day"] in
  let nightCount := count ["night"; "weekend-night"] in
  let difference := Z.abs (dayCount - nightCount) in
  let dominant :=
    if nightCount <? dayCount then ["day"; "weekend-day"] else ["night"; "weekend-night"] in
  let holds day :=
    existsb (λ s, String.eqb (employee s) emp && existsb (String.eqb (shift s)) dominant)
      (shiftsOn (scheduleData ctx) (key day)) in
  if (D <? difference) && ((0 <? dayCount) || (0 <? nightCount))
  then
    ∃ last,
      1 <= last <= days ∧ holds last = true ∧ (∀ d, last < d <= days → holds d = false) ∧
      checkShiftBalance ctx rule =
        {| conflictCount := 1;
           highlights :=
             [ {| date := key last;
                  reason := balanceReason emp dayCount nightCount difference D |} ] |}
  else checkShiftBalance ctx rule = no_conflicts.
Proof.
  intros emp D days key entries count dayCount nightCount difference dominant holds.
  assert (for_days days (tallyDay ctx emp) (0, 0) = (dayCount, nightCount)) as Htally.
  { unfold for_days. rewrite (tallyDay_fold ctx emp (seqZ 1 days) (0, 0)).
    cbn [fst snd]. rewrite !Z.add_0_l. reflexivity. }
  assert (checkShiftBalance ctx rule =
          if (D <? difference) && ((0 <? dayCount) || (0 <? nightCount))
          then match List.find holds (reverse (seqZ 1 days)) with
               | Some last =>
                   {| conflictCount := 1;
                      highlights :=
                        [ {| date := key last;
                             reason := balanceReason emp dayCount nightCount difference D |} ] |}
               | None => countConflict no_conflicts
               end
          else no_conflicts) as Hrun.
  { unfold checkShiftBalance. fold emp. fold days. rewrite Htally. reflexivity. }
  rewrite Hrun. clear Hrun Htally.
  destruct ((D <? difference) && ((0 <? dayCount) || (0 <? nightCount))) eqn:Hover; [|done].
  assert (0 <= days) as Hdays.
  { destruct (Z.le_gt_cases 0 days) as [H|H]; [done|]. exfalso.
    subst dayCount nightCount count entries. cbv beta in Hover.
    rewrite seqZ_nil in Hover by lia. cbn in Hover.
    by rewrite andb_false_r in Hover. }
  pose proof (find_last_day holds (Z.to_nat days)) as Hfind.
  rewrite Z2Nat.id in Hfind by done.
  destruct (List.find holds (reverse (seqZ 1 days))) as [last|].
  - destruct Hfind as (Hlast & Hp & Hafter). exists last.
    split; [done|]. split; [done|]. split; [done|]. reflexivity.
  - exfalso.
    assert (0 < length (List.filter (holdsOneOf emp dominant) entries))%nat as Hpos.
    { apply andb_true_iff in Hover as [_ Hsome].
      subst dominant. destruct (Z.ltb_spec nightCount dayCount) as [Hlt|Hge].
      - subst dayCount nightCount count. cbv beta in *. unfold holdsOneOf. lia.
      - apply orb_true_iff in Hsome as [H|H]; apply Z.ltb_lt in H;
          subst dayCount nightCount count; cbv beta in *; unfold holdsOneOf; lia. }
    apply entry_on_some_day in Hpos as (d & Hd & Hq).
    specialize (Hfind d Hd). unfold holds in Hfind. unfold holdsOneOf in Hq.
    congruence.
Qed.

(** * Further functions of the engine *)

(** ** Checks used while a schedule is being filled *)

(** [RuleEngine.wouldCause24HourShift]; [date] is the calendar day that
    [new Date(date)] denotes. *)
Definition wouldCause24HourShift (emp : string) (date : JSDate.t) (shiftType : string)
    (scheduleData : gmap string (list Assignment))
    (holidayDates : option (gmap string bool)) : bool :=
  if String.eqb shiftType "off"
     || negb (String.eqb shiftType "day" || String.eqb shiftType "weekend-day")
  then false
  else
    let currentDate := date in
    let prevDate := JSDate.setDate currentDate (JSDate.getDate currentDate - 1) in
    let prevDateStr := formatDate prevDate in
    let prevShifts := shiftsOn scheduleData prevDateStr in
    let prevIsHoliday := isHoliday prevDateStr holidayDates in
    let nightShifts := if prevIsHoliday then ["weekend-night"] else ["night"] in
    hasShiftOf emp nightShifts prevShifts.

(** [RuleEngine.wouldViolateShiftGap].  The source reads its [date]
    argument twice: as the key of the holiday lookup ([date]) and through
    [new Date(date)] ([day], the calendar day that this denotes). *)
Definition wouldViolateShiftGap (emp : string) (date : string) (day : JSDate.t)
    (shiftType : string) (scheduleData : gmap string (list Assignment))
    (holidayDates : option (gmap string bool)) : bool :=
  if String.eqb shiftType "off" then false
  else
    let currentDate := day in
    let prevDate := JSDate.setDate currentDate (JSDate.getDate currentDate - 1) in
    let nextDate := JSDate.setDate currentDate (JSDate.getDate currentDate + 1) in
    let prevDateStr := formatDate prevDate in
    let nextDateStr := formatDate nextDate in
    let prevShifts := shiftsOn scheduleData prevDateStr in
    let nextShifts := shiftsOn scheduleData nextDateStr in
    let currentIsHoliday := isHoliday date holidayDates in
    let prevIsHoliday := isHoliday prevDateStr holidayDates in
    let nextIsHoliday := isHoliday nextDateStr holidayDates in
    let prevViolates :=
      match List.find (worksAs emp) prevShifts with
      | Some prevShift =>
          negb (hasEnoughShiftGap (shift prevShift) shiftType prevIsHoliday currentIsHoliday)
      | None => false
      end in
    if prevViolates then true
    else
      match List.find (worksAs emp) nextShifts with
      | Some nextShift =>
          negb (hasEnoughShiftGap shiftType (shift nextShift) currentIsHoliday nextIsHoliday)
      | None => false
      end.

(** The guards as the scheduler calls them, with a date key. *)
Module RuleEngine.

(** [RuleEngine.wouldViolateShiftGap(employee, date, ...)] for a date-only
    key: [new Date(date)] is midnight of that day in UTC, and the zone
    decides on which local day that falls.  [None] for a key that
    [JSTime.parse] does not read. *)
Definition wouldViolateShiftGap (zone : JSTime.Zone) (emp : string) (date : string)
    (shiftType : string) (scheduleData : gmap string (list Assignment))
    (holidayDates : option (gmap string bool)) : option bool :=
  (λ tv, wouldViolateShiftGap emp date (JSTime.day zone tv) shiftType scheduleData
           holidayDates) <$> JSTime.parse date.

(** [RuleEngine.calculateConsecutiveWorkDays(employee, targetDate, ...)] for
    a date-only key, read in the same way. *)
Definition calculateConsecutiveWorkDays (zone : JSTime.Zone) (emp : string)
    (targetDate : string) (scheduleData : gmap string (list Assignment)) : option nat :=
  (λ tv, calculateConsecutiveWorkDays emp (JSTime.day zone tv) scheduleData)
    <$> JSTime.parse targetDate.

End RuleEngine.

(** * Properties of the further functions *)

(** ** Employee availability *)

Definition availabilityTurn (availability : gmap string (gmap string bool))
    (dateStr : string) (run : Run) (s : Assignment) : Run :=
  if negb (String.eqb (shift s) "off") && markedUnavailable availability (employee s) dateStr
  then highlightConflict dateStr (unavailableReason (employee s)) (countConflict run)
  else run.

Lemma availabilityStep_fold ctx availability day run :
  availabilityStep ctx availability day run =
  fold_left
    (availabilityTurn availability (formatDate (JSDate.make (year ctx) (month ctx) day)))
    (shiftsOn (scheduleData ctx) (formatDate (JSDate.make (year ctx) (month ctx) day)))
    run.
Proof. reflexivity. Qed.

(** A run that already holds a finding and at least one conflict. *)
Definition reported (f : Finding) (run : Run) : Prop :=
  In f (highlights run) ∧ (1 ≤ conflictCount run)%nat.

Lemma reported_highlightConflict f date reason run :
  reported f run → reported f (highlightConflict date reason (countConflict run)).
Proof.
  intros [Hin Hc]. split; cbn [highlightConflict countConflict highlights conflictCount].
  - apply in_or_app. by left.
  - lia.
Qed.

Lemma reported_new date reason run :
  reported {| date := date; reason := reason |}
    (highlightConflict date reason (countConflict run)).
Proof.
  split; cbn [highlightConflict countConflict highlights conflictCount].
  - apply in_or_app. right. by left.
  - lia.
Qed.

Lemma availabilityTurn_keeps f availability dateStr run s :
  reported f run → reported f (availabilityTurn availability dateStr run s).
Proof.
  intros H. unfold availabilityTurn.
  destruct (_ && _); [by apply reported_highlightConflict|done].
Qed.

Lemma availability_fold_keeps f availability dateStr shifts run :
  reported f run → reported f (fold_left (availabilityTurn availability dateStr) shifts run).
Proof.
  revert run. induction shifts as [|s shifts IH]; intros run H; cbn [fold_left]; [done|].
  by apply IH, availabilityTurn_keeps.
Qed.

(** X1: the availability check reports nothing when no availability entry
    is [false]: a missing availability table, an employee without
    entries, a date without an entry and an entry [true] all leave the
    employee available. *)
Theorem checkEmployeeAvailability_no_false_entry (ctx : Context) :
  (∀ availability emp days dateStr,
     employeeAvailability ctx = Some availability →
     availability !! emp = Some days → days !! dateStr ≠ Some false) →
  checkEmployeeAvailability ctx = no_conflicts.
Proof.
  intros Hav. unfold checkEmployeeAvailability.
  destruct (employeeAvailability ctx) as [availability|] eqn:Hctx; [|done].
  apply for_days_id. intros day st _. rewrite availabilityStep_fold.
  generalize (shiftsOn (scheduleData ctx)
                (formatDate (JSDate.make (year ctx) (month ctx) day))).
  intros shifts. revert st.
  induction shifts as [|s shifts IH]; intros st; cbn [fold_left]; [done|].
  rewrite <- (IH st) at 2. f_equal. unfold availabilityTurn, markedUnavailable.
  destruct (availability !! employee s) as [days|] eqn:Hemp;
    [|by rewrite andb_false_r].
  rewrite bool_decide_eq_false_2 by (by apply (Hav availability (employee s) days)).
  by rewrite andb_false_r.
Qed.

Definition januaryLeave : gmap string (gmap string bool) :=
  {[ "A" := {[ "2024-01-02" := true ]} ]}.

Definition leaveContext (availability : gmap string (gmap string bool)) : Context :=
  {| scheduleData := fourDaySchedule; year := 2024; month := 0;
     shiftTypes := ∅; employeeAvailability := Some availability; holidayDates := None |}.

Lemma checkEmployeeAvailability_no_false_entry_witness :
  (∀ availability emp days dateStr,
     employeeAvailability (leaveContext januaryLeave) = Some availability →
     availability !! emp = Some days → days !! dateStr ≠ Some false) ∧
  checkEmployeeAvailability (leaveContext januaryLeave) = no_conflicts.
Proof.
  assert (∀ availability emp days dateStr,
            employeeAvailability (leaveContext januaryLeave) = Some availability →
            availability !! emp = Some days → days !! dateStr ≠ Some false) as H.
  { intros availability emp days dateStr [= <-] Hemp Hday.
    unfold januaryLeave in Hemp.
    apply lookup_singleton_Some in Hemp as [_ <-].
    apply lookup_singleton_Some in Hday as [_ Hv]. discriminate Hv. }
  split; [exact H|].
  exact (checkEmployeeAvailability_no_false_entry (leaveContext januaryLeave) H).
Defined.

(** X2: a working assignment of the target month on a date that the
    availability table marks [false] for that employee is always
    reported: the check returns at least one conflict and highlights that
    date with the employee's name. *)
Theorem checkEmployeeAvailability_catches (ctx : Context)
    (availability : gmap string (gmap string bool)) (days : gmap string bool)
    (day : Z) (s : Assignment) :
  employeeAvailability ctx = Some availability →
  1 <= day <= daysInMonth (year ctx) (month ctx) →
  let dateStr := formatDate (JSDate.make (year ctx) (month ctx) day) in
  In s (shiftsOn (scheduleData ctx) dateStr) →
  shift s ≠ "off" →
  availability !! employee s = Some days →
  days !! dateStr = Some false →
  In {| date := dateStr; reason := unavailableReason (employee s) |}
     (highlights (checkEmployeeAvailability ctx)) ∧
  (1 ≤ conflictCount (checkEmployeeAvailability ctx))%nat.
Proof.
  intros Hctx Hday dateStr Hin Hoff Hemp Hfalse.
  unfold checkEmployeeAvailability. rewrite Hctx.
  set (f := {| date := dateStr; reason := unavailableReason (employee s) |}).
  change (reported f (for_days (daysInMonth (year ctx) (month ctx))
                        (availabilityStep ctx availability) no_conflicts)).
  apply (for_days_reaches (reported f) _ _ _ day Hday).
  - intros st. rewrite availabilityStep_fold. fold dateStr.
    revert st. induction (shiftsOn (scheduleData ctx) dateStr) as [|s' shifts IH];
      intros st; [destruct Hin|].
    cbn [fold_left]. destruct Hin as [->|Hin].
    + apply availability_fold_keeps. unfold availabilityTurn, markedUnavailable.
      rewrite Hemp, (bool_decide_eq_true_2 _ Hfalse).
      destruct (String.eqb_spec (shift s) "off"); [done|].
      apply reported_new.
    + by apply IH.
  - intros d st _ Hrep. rewrite availabilityStep_fold.
    by apply availability_fold_keeps.
Qed.

Definition januaryAbsence : gmap string (gmap string bool) :=
  {[ "A" := {[ "2024-01-02" := false ]} ]}.

Lemma checkEmployeeAvailability_catches_witness :
  employeeAvailability (leaveContext januaryAbsence) = Some januaryAbsence ∧
  1 <= 2 <= daysInMonth 2024 0 ∧
  In {| employee := "A"; shift := "day" |} (shiftsOn fourDaySchedule "2024-01-02") ∧
  "day" ≠ "off" ∧
  januaryAbsence !! "A" = Some ({[ "2024-01-02" := false ]} : gmap string bool) ∧
  ({[ "2024-01-02" := false ]} : gmap string bool) !! "2024-01-02" = Some false ∧
  In {| date := "2024-01-02"; reason := unavailableReason "A" |}
     (highlights (checkEmployeeAvailability (leaveContext januaryAbsence))) ∧
  (1 ≤ conflictCount (checkEmployeeAvailability (leaveContext januaryAbsence)))%nat.
Proof.
  assert (1 <= 2 <= daysInMonth 2024 0) as Hday by (vm_compute; split; discriminate).
  assert (In {| employee := "A"; shift := "day" |} (shiftsOn fourDaySchedule "2024-01-02"))
    as Hin by (vm_compute; left; reflexivity).
  assert ("day" ≠ "off") as Hoff by discriminate.
  assert (januaryAbsence !! "A" = Some ({[ "2024-01-02" := false ]} : gmap string bool))
    as Hemp by (vm_compute; reflexivity).
  assert (({[ "2024-01-02" := false ]} : gmap string bool) !! "2024-01-02" = Some false)
    as Hfalse by (vm_compute; reflexivity).
  split; [reflexivity|]. split; [exact Hday|]. split; [exact Hin|].
  split; [exact Hoff|]. split; [exact Hemp|]. split; [exact Hfalse|].
  exact (checkEmployeeAvailability_catches (leaveContext januaryAbsence) januaryAbsence
           {[ "2024-01-02" := false ]} 2 {| employee := "A"; shift := "day" |}
           eq_refl Hday Hin Hoff Hemp Hfalse).
Defined.

(** ** Direct transitions between shifts *)

(** With a holiday on either side, the gap is always sufficient. *)
Lemma hasEnoughShiftGap_holiday a b h1 h2 :
  h1 = true ∨ h2 = true → hasEnoughShiftGap a b h1 h2 = true.
Proof.
  intros H. unfold hasEnoughShiftGap.
  destruct h1, h2; cbn [Bool.eqb negb]; try done.
  - by destruct (String.eqb a "off" || String.eqb b "off").
  - by destruct H.
Qed.

Lemma find_worksAs emp shifts s :
  List.find (worksAs emp) shifts = Some s → shift s ≠ "off".
Proof.
  intros [_ Hw]%find_some. unfold worksAs in Hw.
  apply andb_prop in Hw as [_ Hoff].
  destruct (String.eqb_spec (shift s) "off"); [done|done].
Qed.

Lemma fold_days_count_le (body : Z → Run → Run) (days : list Z) (s : Run) :
  (∀ day st, (conflictCount (body day st) ≤ S (conflictCount st))%nat) →
  (conflictCount (fold_left (λ acc day, body day acc) days s)
   ≤ conflictCount s + length days)%nat.
Proof.
  intros Hstep. revert s.
  induction days as [|day days IH]; intros s; cbn [fold_left length]; [lia|].
  specialize (IH (body day s)). specialize (Hstep day s). lia.
Qed.

(** X3: the direct-transition check highlights two dates per conflict (the
    day and the day after it) and finds at most one conflict per day of
    the month. *)
Theorem checkNoDirectShiftTransition_pairs (ctx : Context) (rule : Rule.t) :
  let r := checkNoDirectShiftTransition ctx rule in
  length (highlights r) = (2 * conflictCount r)%nat ∧
  (conflictCount r ≤ Z.to_nat (daysInMonth (year ctx) (month ctx)))%nat.
Proof.
  intros r. subst r. unfold checkNoDirectShiftTransition. split.
  - apply (for_days_ind (λ st, length (highlights st) = (2 * conflictCount st)%nat));
      [done|].
    intros day st _ Hst. unfold transitionStep.
    repeat match goal with
           | |- context [match ?x with _ => _ end] => destruct x
           end; try done.
    cbn [highlightConflict countConflict highlights conflictCount].
    rewrite !length_app. cbn [length]. lia.
  - unfold for_days.
    etrans; [apply fold_days_count_le|].
    + intros day st. unfold transitionStep.
      repeat match goal with
             | |- context [match ?x with _ => _ end] => destruct x
             end;
        cbn [highlightConflict countConflict highlights conflictCount]; lia.
    + rewrite length_seqZ. cbn [no_conflicts conflictCount]. lia.
Qed.

(** X4: when of every two consecutive days, from day 1 to the day after
    the month's end, at least one is a holiday, the direct-transition
    check reports nothing, whatever the assignments are. *)
Theorem checkNoDirectShiftTransition_holiday_boundary (ctx : Context) (rule : Rule.t) :
  (∀ day, 1 <= day <= daysInMonth (year ctx) (month ctx) →
     isHoliday (formatDate (JSDate.make (year ctx) (month ctx) day)) (holidayDates ctx) = true ∨
     isHoliday (formatDate (JSDate.make (year ctx) (month ctx) (day + 1))) (holidayDates ctx)
       = true) →
  checkNoDirectShiftTransition ctx rule = no_conflicts.
Proof.
  intros Hhol. unfold checkNoDirectShiftTransition.
  apply for_days_id. intros day st Hday. unfold transitionStep.
  destruct (List.find _ _) as [todayShift|]; [|done].
  destruct (List.find _ _) as [tomorrowShift|]; [|done].
  by rewrite (hasEnoughShiftGap_holiday _ _ _ _ (Hhol day Hday)).
Qed.

(** The guard, read on the day that its key denotes, against the check. *)
Lemma transition_guarded_on_days (ctx : Context) (rule : Rule.t) :
  (∀ day s, 1 <= day <= daysInMonth (year ctx) (month ctx) →
     let next := JSDate.make (year ctx) (month ctx) (day + 1) in
     List.find (worksAs (Rule.employee rule)) (shiftsOn (scheduleData ctx) (formatDate next))
       = Some s →
     wouldViolateShiftGap (Rule.employee rule) (formatDate next) next (shift s)
       (scheduleData ctx) (holidayDates ctx) = false) →
  checkNoDirectShiftTransition ctx rule = no_conflicts.
Proof.
  intros Hguard. unfold checkNoDirectShiftTransition.
  apply for_days_id. intros day st Hday. unfold transitionStep.
  destruct (List.find _ (shiftsOn _ (formatDate (JSDate.make _ _ day))))
    as [todayShift|] eqn:Htoday; [|done].
  destruct (List.find _ (shiftsOn _ (formatDate (JSDate.make _ _ (day + 1)))))
    as [tomorrowShift|] eqn:Htomorrow; [|done].
  specialize (Hguard day tomorrowShift Hday Htomorrow).
  unfold wouldViolateShiftGap in Hguard.
  destruct (String.eqb_spec (shift tomorrowShift) "off") as [Hoff|_];
    [by apply find_worksAs in Htomorrow|].
  cbv zeta in Hguard.
  replace (JSDate.getDate (JSDate.make (year ctx) (month ctx) (day + 1)) - 1)
    with (JSDate.getDate (JSDate.make (year ctx) (month ctx) (day + 1)) + -1)
    in Hguard by lia.
  rewrite JSDateFacts.setDate_shift in Hguard.
  replace (JSDate.make (year ctx) (month ctx) (day + 1) + -1)
    with (JSDate.make (year ctx) (month ctx) day) in Hguard
    by (rewrite make_shift; lia).
  rewrite Htoday in Hguard.
  destruct (hasEnoughShiftGap (shift todayShift) (shift tomorrowShift) _ _); [done|].
  discriminate Hguard.
Qed.

Lemma guard_on_day zone emp date day shiftType scheduleData holidayDates :
  JSTime.day zone <$> JSTime.parse date = Some day →
  RuleEngine.wouldViolateShiftGap zone emp date shiftType scheduleData holidayDates
  = Some false →
  wouldViolateShiftGap emp date day shiftType scheduleData holidayDates = false.
Proof.
  unfold RuleEngine.wouldViolateShiftGap.
  destruct (JSTime.parse date) as [tv|]; cbn [fmap option_fmap option_map];
    [|discriminate].
  intros [= <-] [= H]. exact H.
Qed.

(** X5: in a zone in which the key of every day from day 2 of the month
    to the day after its end, read by [new Date], falls on that same local
    day (a zone at or east of UTC), if [RuleEngine.wouldViolateShiftGap],
    called with the key on the schedule as it stands, is false for the
    first working shift of each of these days, then the direct-transition
    check reports nothing for that employee. *)
Theorem checkNoDirectShiftTransition_guarded (zone : JSTime.Zone) (ctx : Context)
    (rule : Rule.t) :
  (∀ day, 1 <= day <= daysInMonth (year ctx) (month ctx) →
     let next := JSDate.make (year ctx) (month ctx) (day + 1) in
     JSTime.day zone <$> JSTime.parse (formatDate next) = Some next) →
  (∀ day s, 1 <= day <= daysInMonth (year ctx) (month ctx) →
     let next := JSDate.make (year ctx) (month ctx) (day + 1) in
     List.find (worksAs (Rule.employee rule)) (shiftsOn (scheduleData ctx) (formatDate next))
       = Some s →
     RuleEngine.wouldViolateShiftGap zone (Rule.employee rule) (formatDate next) (shift s)
       (scheduleData ctx) (holidayDates ctx) = Some false) →
  checkNoDirectShiftTransition ctx rule = no_conflicts.
Proof.
  intros Hzone Hguard. apply transition_guarded_on_days.
  intros day s Hday next Hfind.
  exact (guard_on_day zone _ _ _ _ _ _ (Hzone day Hday) (Hguard day s Hday Hfind)).
Qed.

Lemma gap_on_holiday_sufficient (prevFound nextFound : option Assignment)
    (shiftType : string) (prevIsHoliday nextIsHoliday : bool) :
  (if match prevFound with
      | Some prevShift =>
          negb (hasEnoughShiftGap (shift prevShift) shiftType prevIsHoliday true)
      | None => false
      end
   then true
   else match nextFound with
        | Some nextShift =>
            negb (hasEnoughShiftGap shiftType (shift nextShift) true nextIsHoliday)
        | None => false
        end) = false.
Proof.
  destruct prevFound as [prevShift|], nextFound as [nextShift|];
    rewrite ?(hasEnoughShiftGap_holiday _ shiftType prevIsHoliday true)
      by (right; reflexivity);
    rewrite ?(hasEnoughShiftGap_holiday shiftType _ true nextIsHoliday)
      by (left; reflexivity);
    reflexivity.
Qed.

(** X6: [wouldViolateShiftGap] is false for the shift 'off' and for any
    shift placed on a holiday: neither neighbouring day can then be too
    close. *)
Theorem wouldViolateShiftGap_off_or_holiday (emp date : string) (day : JSDate.t)
    (shiftType : string) (scheduleData : gmap string (list Assignment))
    (holidayDates : option (gmap string bool)) :
  shiftType = "off" ∨ isHoliday date holidayDates = true →
  wouldViolateShiftGap emp date day shiftType scheduleData holidayDates = false.
Proof.
  intros [->|Hhol]; [reflexivity|].
  unfold wouldViolateShiftGap. cbv zeta. rewrite Hhol.
  destruct (String.eqb shiftType "off"); [reflexivity|].
  apply gap_on_holiday_sufficient.
Qed.

(** January 2024 with every odd day a holiday, and a schedule in which A
    never works on two days in a row. *)
Definition oddDayHolidays : gmap string bool :=
  list_to_map
    ((λ d, (formatDate (JSDate.make 2024 0 d), true)) <$>
       [1; 3; 5; 7; 9; 11; 13; 15; 17; 19; 21; 23; 25; 27; 29; 31]).

Definition holidayContext : Context :=
  {| scheduleData := fourDaySchedule; year := 2024; month := 0;
     shiftTypes := ∅; employeeAvailability := None;
     holidayDates := Some oddDayHolidays |}.

Definition gapRule : Rule.t :=
  {| Rule.type := "noDirectShiftTransition"; Rule.employee := "A";
     Rule.shift := "undefined"; Rule.value := "undefined" |}.

Lemma checkNoDirectShiftTransition_holiday_boundary_witness :
  (∀ day, 1 <= day <= daysInMonth (year holidayContext) (month holidayContext) →
     isHoliday (formatDate (JSDate.make (year holidayContext) (month holidayContext) day))
       (holidayDates holidayContext) = true ∨
     isHoliday
       (formatDate (JSDate.make (year holidayContext) (month holidayContext) (day + 1)))
       (holidayDates holidayContext) = true) ∧
  checkNoDirectShiftTransition holidayContext gapRule = no_conflicts.
Proof.
  assert (∀ day, 1 <= day <= daysInMonth (year holidayContext) (month holidayContext) →
            isHoliday
              (formatDate (JSDate.make (year holidayContext) (month holidayContext) day))
              (holidayDates holidayContext) = true ∨
            isHoliday
              (formatDate
                 (JSDate.make (year holidayContext) (month holidayContext) (day + 1)))
              (holidayDates holidayContext) = true) as H.
  { intros day Hday.
    change (daysInMonth (year holidayContext) (month holidayContext)) with 31 in Hday.
    set (check := λ x : Z,
           isHoliday (formatDate (JSDate.make 2024 0 x)) (Some oddDayHolidays)
           || isHoliday (formatDate (JSDate.make 2024 0 (x + 1))) (Some oddDayHolidays)).
    assert (all_from 31 1 check = true) as Hall by (vm_compute; reflexivity).
    pose proof (all_from_spec 31 1 check Hall day ltac:(lia)) as Hc.
    subst check. cbv beta in Hc.
    change (isHoliday (formatDate (JSDate.make 2024 0 day)) (Some oddDayHolidays) = true ∨
            isHoliday (formatDate (JSDate.make 2024 0 (day + 1))) (Some oddDayHolidays)
              = true).
    apply orb_prop. exact Hc. }
  split; [exact H|].
  exact (checkNoDirectShiftTransition_holiday_boundary holidayContext gapRule H).
Defined.

(** January 2024: employee A works on days 1 to 4 in the order day,
    night, evening, day, each two steps after the shift of the day
    before, rests on day 5 and works again on day 6. *)
Definition rotatingSchedule : gmap string (list Assignment) :=
  list_to_map
    [ ("2024-01-01", [ {| employee := "A"; shift := "day" |} ]);
      ("2024-01-02", [ {| employee := "B"; shift := "day" |};
                       {| employee := "A"; shift := "night" |} ]);
      ("2024-01-03", [ {| employee := "A"; shift := "evening" |} ]);
      ("2024-01-04", [ {| employee := "A"; shift := "day" |} ]);
      ("2024-01-05", [ {| employee := "A"; shift := "off" |} ]);
      ("2024-01-06", [ {| employee := "A"; shift := "evening" |} ]) ].

Definition rotatingContext : Context :=
  {| scheduleData := rotatingSchedule; year := 2024; month := 0;
     shiftTypes := ∅; employeeAvailability := None; holidayDates := None |}.

Lemma checkNoDirectShiftTransition_guarded_witness :
  (∀ day, 1 <= day <= daysInMonth (year rotatingContext) (month rotatingContext) →
     let next := JSDate.make (year rotatingContext) (month rotatingContext) (day + 1) in
     JSTime.day JSTime.taipei <$> JSTime.parse (formatDate next) = Some next) ∧
  (∀ day s,
     1 <= day <= daysInMonth (year rotatingContext) (month rotatingContext) →
     let next := JSDate.make (year rotatingContext) (month rotatingContext) (day + 1) in
     List.find (worksAs (Rule.employee gapRule))
       (shiftsOn (scheduleData rotatingContext) (formatDate next)) = Some s →
     RuleEngine.wouldViolateShiftGap JSTime.taipei (Rule.employee gapRule) (formatDate next)
       (shift s) (scheduleData rotatingContext) (holidayDates rotatingContext)
     = Some false) ∧
  checkNoDirectShiftTransition rotatingContext gapRule = no_conflicts.
Proof.
  assert (∀ day, 1 <= day <= daysInMonth (year rotatingContext) (month rotatingContext) →
            let next :=
              JSDate.make (year rotatingContext) (month rotatingContext) (day + 1) in
            JSTime.day JSTime.taipei <$> JSTime.parse (formatDate next) = Some next)
    as Hzone.
  { intros day Hday.
    change (daysInMonth (year rotatingContext) (month rotatingContext)) with 31 in Hday.
    set (check := λ x : Z,
           match JSTime.day JSTime.taipei
                 <$> JSTime.parse (formatDate (JSDate.make 2024 0 (x + 1))) with
           | Some d => d =? JSDate.make 2024 0 (x + 1)
           | None => false
           end).
    assert (all_from 31 1 check = true) as Hall by (vm_compute; reflexivity).
    pose proof (all_from_spec 31 1 check Hall day ltac:(lia)) as Hc.
    subst check. cbv beta in Hc. cbv zeta.
    change (year rotatingContext) with 2024. change (month rotatingContext) with 0.
    destruct (JSTime.day JSTime.taipei
              <$> JSTime.parse (formatDate (JSDate.make 2024 0 (day + 1)))) as [d|];
      [|discriminate Hc].
    apply Z.eqb_eq in Hc. by rewrite Hc. }
  assert (∀ day s,
            1 <= day <= daysInMonth (year rotatingContext) (month rotatingContext) →
            let next :=
              JSDate.make (year rotatingContext) (month rotatingContext) (day + 1) in
            List.find (worksAs (Rule.employee gapRule))
              (shiftsOn (scheduleData rotatingContext) (formatDate next)) = Some s →
            RuleEngine.wouldViolateShiftGap JSTime.taipei (Rule.employee gapRule)
              (formatDate next) (shift s) (scheduleData rotatingContext)
              (holidayDates rotatingContext) = Some false) as H.
  { intros day s Hday next Hfind.
    change (daysInMonth (year rotatingContext) (month rotatingContext)) with 31 in Hday.
    set (check := λ x : Z,
           match List.find (worksAs "A")
                   (shiftsOn rotatingSchedule (formatDate (JSDate.make 2024 0 (x + 1))))
           with
           | Some s' =>
               match RuleEngine.wouldViolateShiftGap JSTime.taipei "A"
                       (formatDate (JSDate.make 2024 0 (x + 1))) (shift s')
                       rotatingSchedule None with
               | Some violates => negb violates
               | None => false
               end
           | None => true
           end).
    assert (all_from 31 1 check = true) as Hall by (vm_compute; reflexivity).
    pose proof (all_from_spec 31 1 check Hall day ltac:(lia)) as Hc.
    subst check. cbv beta in Hc.
    change (List.find (worksAs "A")
              (shiftsOn rotatingSchedule (formatDate (JSDate.make 2024 0 (day + 1))))
            = Some s) in Hfind.
    rewrite Hfind in Hc.
    change (RuleEngine.wouldViolateShiftGap JSTime.taipei "A"
              (formatDate (JSDate.make 2024 0 (day + 1))) (shift s) rotatingSchedule None
            = Some false).
    destruct (RuleEngine.wouldViolateShiftGap JSTime.taipei "A"
                (formatDate (JSDate.make 2024 0 (day + 1))) (shift s) rotatingSchedule None)
      as [[|]|]; [discriminate Hc|reflexivity|discriminate Hc]. }
  split; [exact Hzone|]. split; [exact H|].
  exact (checkNoDirectShiftTransition_guarded JSTime.taipei rotatingContext gapRule Hzone H).
Defined.

(** X19: west of UTC the key of a day, read by [new Date], falls on the
    evening of the day before, and the guard looks at the wrong
    neighbours: with A on 'day' on 2 January, 'evening' on 3 January is
    too close, which the guard reports in Taipei and misses in a zone five
    hours behind UTC. *)
Example wouldViolateShiftGap_west_of_UTC :
  let schedule : gmap string (list Assignment) :=
    {[ "2024-01-02" := [ {| employee := "A"; shift := "day" |} ] ]} in
  RuleEngine.wouldViolateShiftGap JSTime.taipei "A" "2024-01-03" "evening" schedule None
  = Some true ∧
  RuleEngine.wouldViolateShiftGap (JSTime.fixedOffset (-5 * JSTime.msPerHour)) "A"
    "2024-01-03" "evening" schedule None = Some false.
Proof. split; vm_compute; reflexivity. Qed.

(** X21: likewise the look-back from a date key begins, west of UTC, two
    days before the day of the key: with A at work on 15 January only, the
    count before the key of 16 January is 1 in Taipei and 0 in a zone five
    hours behind UTC. *)
Example calculateConsecutiveWorkDays_west_of_UTC :
  let schedule : gmap string (list Assignment) :=
    {[ "2024-01-15" := [ {| employee := "A"; shift := "day" |} ] ]} in
  RuleEngine.calculateConsecutiveWorkDays JSTime.taipei "A" "2024-01-16" schedule
  = Some 1%nat ∧
  RuleEngine.calculateConsecutiveWorkDays (JSTime.fixedOffset (-5 * JSTime.msPerHour)) "A"
    "2024-01-16" schedule = Some 0%nat.
Proof. split; vm_compute; reflexivity. Qed.

Lemma wouldViolateShiftGap_off_or_holiday_witness :
  ("day" = "off" ∨ isHoliday "2024-01-03" (Some oddDayHolidays) = true) ∧
  wouldViolateShiftGap "A" "2024-01-03" (JSDate.make 2024 0 3) "day" fourDaySchedule
    (Some oddDayHolidays) = false.
Proof.
  assert ("day" = "off" ∨ isHoliday "2024-01-03" (Some oddDayHolidays) = true) as H
    by (right; vm_compute; reflexivity).
  split; [exact H|].
  exact (wouldViolateShiftGap_off_or_holiday "A" "2024-01-03" (JSDate.make 2024 0 3)
           "day" fourDaySchedule (Some oddDayHolidays) H).
Defined.

(** ** Turnarounds within 24 hours *)

(** X7: if, on the schedule as it stands, [wouldCause24HourShift] is false
    on every day of the month on which the employee holds that day's
    day-class shift ('weekend-day' on a holiday, 'day' otherwise), then
    the 24-hour check reports nothing for that employee. *)
Theorem checkNo24HourShift_guarded (ctx : Context) (rule : Rule.t) :
  (∀ day, 1 <= day <= daysInMonth (year ctx) (month ctx) →
     let current := JSDate.make (year ctx) (month ctx) day in
     let currentIsHoliday := isHoliday (formatDate current) (holidayDates ctx) in
     hasShiftOf (Rule.employee rule) (dayClass currentIsHoliday)
       (shiftsOn (scheduleData ctx) (formatDate current)) = true →
     wouldCause24HourShift (Rule.employee rule) current
       (if currentIsHoliday then "weekend-day" else "day")
       (scheduleData ctx) (holidayDates ctx) = false) →
  checkNo24HourShift ctx rule = no_conflicts.
Proof.
  intros Hguard. unfold checkNo24HourShift.
  apply for_days_id. intros day st Hday. unfold turnaroundStep. cbv zeta.
  specialize (Hguard day Hday). cbv zeta in Hguard.
  destruct (hasShiftOf (Rule.employee rule) (dayClass _) _); [|by rewrite andb_false_r].
  specialize (Hguard eq_refl).
  assert (hasShiftOf (Rule.employee rule)
            (nightClass
               (isHoliday (formatDate (JSDate.make (year ctx) (month ctx) (day - 1)))
                  (holidayDates ctx)))
            (shiftsOn (scheduleData ctx)
               (formatDate (JSDate.make (year ctx) (month ctx) (day - 1)))) = false)
    as ->; [|reflexivity].
  rewrite <- Hguard. unfold wouldCause24HourShift. cbv zeta.
  replace (JSDate.getDate (JSDate.make (year ctx) (month ctx) day) - 1)
    with (JSDate.getDate (JSDate.make (year ctx) (month ctx) day) + -1) by lia.
  rewrite JSDateFacts.setDate_shift.
  replace (JSDate.make (year ctx) (month ctx) day + -1)
    with (JSDate.make (year ctx) (month ctx) (day - 1))
    by (rewrite <- make_shift; f_equal; lia).
  by destruct (isHoliday (formatDate (JSDate.make (year ctx) (month ctx) day)) _).
Qed.

(** A works a night on 2 January and the next day shift only on the 4th. *)
Definition restedSchedule : gmap string (list Assignment) :=
  list_to_map
    [ ("2024-01-02", [ {| employee := "A"; shift := "night" |} ]);
      ("2024-01-03", [ {| employee := "B"; shift := "day" |} ]);
      ("2024-01-04", [ {| employee := "A"; shift := "day" |} ]) ].

Definition restedContext : Context :=
  {| scheduleData := restedSchedule; year := 2024; month := 0;
     shiftTypes := ∅; employeeAvailability := None; holidayDates := None |}.

Lemma checkNo24HourShift_guarded_witness :
  (∀ day, 1 <= day <= daysInMonth (year restedContext) (month restedContext) →
     let current := JSDate.make (year restedContext) (month restedContext) day in
     let currentIsHoliday := isHoliday (formatDate current) (holidayDates restedContext) in
     hasShiftOf (Rule.employee turnaroundRule) (dayClass currentIsHoliday)
       (shiftsOn (scheduleData restedContext) (formatDate current)) = true →
     wouldCause24HourShift (Rule.employee turnaroundRule) current
       (if currentIsHoliday then "weekend-day" else "day")
       (scheduleData restedContext) (holidayDates restedContext) = false) ∧
  checkNo24HourShift restedContext turnaroundRule = no_conflicts.
Proof.
  assert (∀ day, 1 <= day <= daysInMonth (year restedContext) (month restedContext) →
            let current := JSDate.make (year restedContext) (month restedContext) day in
            let currentIsHoliday :=
              isHoliday (formatDate current) (holidayDates restedContext) in
            hasShiftOf (Rule.employee turnaroundRule) (dayClass currentIsHoliday)
              (shiftsOn (scheduleData restedContext) (formatDate current)) = true →
            wouldCause24HourShift (Rule.employee turnaroundRule) current
              (if currentIsHoliday then "weekend-day" else "day")
              (scheduleData restedContext) (holidayDates restedContext) = false) as H.
  { intros day Hday current currentIsHoliday Hhas.
    change (daysInMonth (year restedContext) (month restedContext)) with 31 in Hday.
    change (hasShiftOf "A" ["day"]
              (shiftsOn restedSchedule (formatDate (JSDate.make 2024 0 day))) = true)
      in Hhas.
    set (check := λ x : Z,
           negb (hasShiftOf "A" ["day"]
                   (shiftsOn restedSchedule (formatDate (JSDate.make 2024 0 x))))
           || negb (wouldCause24HourShift "A" (JSDate.make 2024 0 x) "day"
                      restedSchedule None)).
    assert (all_from 31 1 check = true) as Hall by (vm_compute; reflexivity).
    pose proof (all_from_spec 31 1 check Hall day ltac:(lia)) as Hc.
    subst check. cbv beta in Hc. rewrite Hhas in Hc.
    apply negb_true_iff in Hc. exact Hc. }
  split; [exact H|].
  exact (checkNo24HourShift_guarded restedContext turnaroundRule H).
Defined.

(** ** Sorting keeps the elements *)

Lemma In_insert_sorted {A : Type} (cmp : A → A → Z) (x y : A) (l : list A) :
  In y (JSArray.insert_sorted cmp x l) ↔ y = x ∨ In y l.
Proof.
  induction l as [|z l IH]; cbn [JSArray.insert_sorted In].
  - split; [intros [->|[]]; by left|intros [->|[]]; by left].
  - destruct (cmp x z <=? 0); cbn [In]; [|rewrite IH]; split; intros H;
      repeat destruct H as [H|H]; subst; auto.
Qed.

Lemma In_sort {A : Type} (cmp : A → A → Z) (y : A) (l : list A) :
  In y (JSArray.sort cmp l) ↔ In y l.
Proof.
  unfold JSArray.sort. induction l as [|x l IH]; cbn [foldr In]; [done|].
  rewrite In_insert_sorted, IH. split; intros [H|H]; subst; auto.
Qed.

Lemma length_insert_sorted {A : Type} (cmp : A → A → Z) (x : A) (l : list A) :
  length (JSArray.insert_sorted cmp x l) = S (length l).
Proof.
  induction l as [|z l IH]; cbn [JSArray.insert_sorted length]; [done|].
  destruct (cmp x z <=? 0); cbn [length]; [done|]. by rewrite IH.
Qed.

Lemma length_sort {A : Type} (cmp : A → A → Z) (l : list A) :
  length (JSArray.sort cmp l) = length l.
Proof.
  unfold JSArray.sort. induction l as [|x l IH]; cbn [foldr length]; [done|].
  by rewrite length_insert_sorted, IH.
Qed.

Lemma In_entries {V : Type} (created : list (string * V)) (kv : string * V) :
  In kv (JSArray.entries created) ↔ In kv created.
Proof.
  unfold JSArray.entries. rewrite in_app_iff, In_sort, !filter_In.
  destruct (bool_decide (is_Some (JSArray.arrayIndex kv.1))); cbn [negb];
    split; intros H; repeat destruct H as [H|H]; try done; try destruct H; auto.
Qed.

(** ** Duplicate assignments on one day *)

(** The shifts recorded under an employee's key. *)
Definition recordedShifts (emp : string) (employeeShifts : list (string * list string))
  : list string :=
  default [] (snd <$> List.find (λ entry, String.eqb entry.1 emp) employeeShifts).

(** One turn of the grouping when nothing is thrown. *)
Definition groupTurn (acc : list (string * list string)) (s : Assignment)
  : list (string * list string) :=
  if negb (String.eqb (shift s) "off") then appendShift (employee s) (shift s) acc else acc.

(** No working assignment of the list belongs to an employee whose name
    is that of a member that every object inherits. *)
Definition plainNames (shifts : list Assignment) : bool :=
  forallb (λ s, String.eqb (shift s) "off" || negb (JSObject.inherited (employee s))) shifts.

Lemma recordedShifts_appendShift emp e sh acc :
  recordedShifts emp (appendShift e sh acc) =
  if String.eqb e emp then recordedShifts emp acc ++ [sh] else recordedShifts emp acc.
Proof.
  unfold recordedShifts.
  induction acc as [|[e' shifts] acc IH]; cbn [appendShift List.find fst].
  - destruct (String.eqb_spec e emp); cbn [List.find fst]; [|done].
    destruct (String.eqb_spec e emp); done.
  - destruct (String.eqb_spec e' e) as [->|Hne]; cbn [List.find fst].
    + destruct (String.eqb_spec e emp); [done|done].
    + destruct (String.eqb_spec e' emp) as [->|Hne'].
      * destruct (String.eqb_spec e emp); [congruence|done].
      * apply IH.
Qed.

Lemma keys_appendShift e sh acc :
  NoDup (map fst acc) → NoDup (map fst (appendShift e sh acc)) ∧
  (∀ k, In k (map fst (appendShift e sh acc)) ↔ k = e ∨ In k (map fst acc)).
Proof.
  induction acc as [|[e' shifts] acc IH]; cbn [appendShift map fst]; intros Hnd.
  - split; [repeat constructor; by intros []%elem_of_nil|].
    intros k. cbn [In]. split; intros [H|H]; auto.
  - apply NoDup_cons in Hnd as [Hnotin Hnd].
    destruct (String.eqb_spec e' e) as [->|Hne]; cbn [map fst].
    + split; [by apply NoDup_cons|].
      intros k. cbn [In]. split; [intros [H|H]; auto|intros [H|[H|H]]; auto].
    + destruct (IH Hnd) as [IHnd IHin]. split.
      * apply NoDup_cons. split; [|done].
        rewrite list_elem_of_In, IHin. rewrite list_elem_of_In in Hnotin.
        intros [H|H]; [congruence|done].
      * intros k. cbn [In]. rewrite IHin. split; intros H;
          repeat destruct H as [H|H]; auto.
Qed.

Lemma recordedShifts_entry emp shifts acc :
  NoDup (map fst acc) → In (emp, shifts) acc → recordedShifts emp acc = shifts.
Proof.
  unfold recordedShifts.
  induction acc as [|[e' shifts'] acc IH]; intros Hnd Hin; [destruct Hin|].
  apply NoDup_cons in Hnd as [Hnotin Hnd]. cbn [List.find fst].
  destruct Hin as [[= -> ->]|Hin].
  - by rewrite String.eqb_refl.
  - destruct (String.eqb_spec e' emp) as [->|Hne]; [|by apply IH].
    exfalso. apply Hnotin. rewrite list_elem_of_In.
    exact (in_map fst acc (emp, shifts) Hin).
Qed.

Lemma entry_of_recordedShifts emp acc :
  recordedShifts emp acc ≠ [] → In (emp, recordedShifts emp acc) acc.
Proof.
  unfold recordedShifts.
  destruct (List.find _ acc) as [[e shifts]|] eqn:Hfind; cbn [fmap option_fmap option_map default snd];
    [|done].
  intros _. apply find_some in Hfind as [Hin He]. cbn [fst] in He.
  apply String.eqb_eq in He as ->. done.
Qed.

(** Grouping a day's assignments: the keys are distinct and each holds
    the shifts of that employee's working assignments, in order. *)
Lemma group_fold (shifts : list Assignment) (acc : list (string * list string)) :
  NoDup (map fst acc) →
  NoDup (map fst (fold_left groupTurn shifts acc)) ∧
  (∀ emp, recordedShifts emp (fold_left groupTurn shifts acc) =
          recordedShifts emp acc ++ map shift (List.filter (worksAs emp) shifts)).
Proof.
  revert acc. induction shifts as [|s shifts IH]; intros acc Hnd; cbn [fold_left].
  - split; [done|]. intros emp. cbn [List.filter map]. by rewrite app_nil_r.
  - assert (NoDup (map fst (groupTurn acc s))) as Hnd'.
    { unfold groupTurn. destruct (negb _); [|done]. by apply keys_appendShift. }
    destruct (IH _ Hnd') as [IHnd IHrec]. split; [done|].
    intros emp. rewrite IHrec. cbn [List.filter]. unfold groupTurn, worksAs.
    destruct (String.eqb_spec (shift s) "off") as [Hoff|Hoff]; cbn [negb].
    + by rewrite andb_false_r.
    + rewrite recordedShifts_appendShift, andb_true_r.
      destruct (String.eqb (employee s) emp); cbn [map]; [|done].
      by rewrite <- app_assoc.
Qed.

(** The grouping throws exactly when a working assignment has a name that
    is not plain; otherwise it is the fold of [groupTurn]. *)
Lemma groupShifts_plain (shifts : list Assignment) :
  groupShifts shifts =
  if plainNames shifts then Some (fold_left groupTurn shifts []) else None.
Proof.
  unfold groupShifts. generalize (@nil (string * list string)).
  induction shifts as [|s shifts IH]; intros acc; cbn [fold_left plainNames forallb]; [done|].
  change (groupTurn acc s)
    with (if negb (String.eqb (shift s) "off")
          then appendShift (employee s) (shift s) acc else acc).
  unfold pushShift.
  destruct (String.eqb (shift s) "off"); cbn [negb orb andb]; [apply IH|].
  destruct (JSObject.inherited (employee s)); cbn [negb andb]; [|apply IH].
  clear. induction shifts as [|s' shifts IH]; cbn [fold_left]; done.
Qed.

Definition duplicateTurn (dateStr : string) (run : Run) (entry : string * list string) : Run :=
  let '(emp, empShifts) := entry in
  if (1 <? length empShifts)%nat
  then highlightConflict dateStr (duplicateReason emp empShifts) (countConflict run)
  else run.

(** The shifts of a day of the month. *)
Definition shiftsOfDay (ctx : Context) (day : Z) : list Assignment :=
  shiftsOn (scheduleData ctx) (formatDate (JSDate.make (year ctx) (month ctx) day)).

(** What the second [forEach] of a day reports. *)
Definition duplicateReport (ctx : Context) (day : Z) (run : Run) : Run :=
  fold_left (duplicateTurn (formatDate (JSDate.make (year ctx) (month ctx) day)))
    (JSArray.entries (fold_left groupTurn (shiftsOfDay ctx day) [])) run.

Lemma duplicateStep_fold ctx day run :
  duplicateStep ctx day run =
  if plainNames (shiftsOfDay ctx day) then Returned (duplicateReport ctx day run)
  else Thrown run.
Proof.
  unfold duplicateStep. cbv zeta. fold (shiftsOfDay ctx day).
  rewrite groupShifts_plain. by destruct (plainNames (shiftsOfDay ctx day)).
Qed.

Lemma fold_left_unchanged {A S : Type} (f : S → A → S) (l : list A) (s : S) :
  (∀ x st, In x l → f st x = st) → fold_left f l s = s.
Proof.
  induction l as [|x l IH]; intros H; cbn [fold_left]; [done|].
  rewrite H by (by left). apply IH. intros y st Hy. apply H. by right.
Qed.

Lemma fold_left_reaches {A S : Type} (Q : S → Prop) (f : S → A → S) (l : list A)
    (x : A) (s : S) :
  In x l → (∀ st, Q (f st x)) → (∀ st y, Q st → Q (f st y)) → Q (fold_left f l s).
Proof.
  intros Hin Hat Hkeep. revert s.
  induction l as [|y l IH]; intros s; [destruct Hin|]. cbn [fold_left].
  destruct Hin as [->|Hin]; [|by apply IH].
  generalize (Hat s). generalize (f s x). clear -Hkeep.
  induction l as [|z l IHl]; intros st Hst; cbn [fold_left]; [done|].
  by apply IHl, Hkeep.
Qed.

(** What holds before day [d] and is kept up to it, is turned into [Q] by
    the turn of day [d], and [Q] is kept by the later turns. *)
Lemma for_days_from {S : Type} (P Q : S → Prop) (n : Z) (body : Z → S → S)
    (s : S) (d : Z) :
  1 <= d <= n →
  P s →
  (∀ day st, 1 <= day < d → P st → P (body day st)) →
  (∀ st, P st → Q (body d st)) →
  (∀ day st, d < day <= n → Q st → Q (body day st)) →
  Q (for_days n body s).
Proof.
  intros Hd Hs Hbefore Hat Hafter. unfold for_days.
  replace n with ((d - 1) + (1 + (n - d))) at 1 by lia.
  rewrite (seqZ_app 1 (d - 1)) by lia.
  rewrite (seqZ_app (1 + (d - 1)) 1) by lia.
  rewrite !fold_left_app.
  replace (1 + (d - 1)) with d by lia.
  change (seqZ d 1) with [d]. cbn [fold_left].
  assert (∀ (R : S → Prop) (lo hi : Z) (days : list Z) (st : S),
            (∀ day, In day days → lo <= day <= hi) →
            R st →
            (∀ day st', lo <= day <= hi → R st' → R (body day st')) →
            R (fold_left (λ acc day, body day acc) days st)) as Hind.
  { intros R lo hi days. induction days as [|day days IH]; intros st Hdays Hst Hstep;
      cbn [fold_left]; [done|].
    apply IH; [intros x Hx; apply Hdays; by right| |done].
    apply Hstep; [apply Hdays; by left|done]. }
  apply (Hind Q (d + 1) n).
  - intros day Hday%In_seqZ. lia.
  - apply Hat. apply (Hind P 1 (d - 1)); [|done|].
    + intros day Hday%In_seqZ. lia.
    + intros day st' Hday. apply Hbefore. lia.
  - intros day st' Hday. apply Hafter. lia.
Qed.

(** The shifts of an employee's working assignments on a day. *)
Definition workingShifts (ctx : Context) (emp : string) (day : Z) : list string :=
  map shift (List.filter (worksAs emp) (shiftsOfDay ctx day)).

Lemma grouped_entry ctx day emp empShifts :
  In (emp, empShifts)
    (JSArray.entries (fold_left groupTurn (shiftsOfDay ctx day) [])) →
  empShifts = workingShifts ctx emp day.
Proof.
  intros Hin. apply (proj1 (In_entries _ _)) in Hin.
  destruct (group_fold (shiftsOfDay ctx day) []) as [Hnd Hrec]; [constructor|].
  rewrite <- (recordedShifts_entry emp empShifts _ Hnd Hin).
  by rewrite Hrec.
Qed.

Lemma duplicateReport_none ctx day run :
  (∀ emp, (length (workingShifts ctx emp day) ≤ 1)%nat) →
  duplicateReport ctx day run = run.
Proof.
  intros Hone. unfold duplicateReport.
  apply fold_left_unchanged. intros [emp empShifts] st Hin.
  apply grouped_entry in Hin as ->. unfold duplicateTurn.
  specialize (Hone emp).
  destruct (Nat.ltb_spec 1 (length (workingShifts ctx emp day))); [lia|done].
Qed.

(** X8: when no employee has more than one working (non-'off') assignment
    on any day of the month, the duplicate check counts no conflict and
    issues no highlight; 'off' entries and other employees' entries never
    count.  The check then returns, unless a working assignment belongs to
    an employee whose name is that of a member that every object inherits
    (with such a name it throws). *)
Theorem checkDuplicateAssignment_none (ctx : Context) :
  (∀ day emp, 1 <= day <= daysInMonth (year ctx) (month ctx) →
     (length (workingShifts ctx emp day) ≤ 1)%nat) →
  runOf (checkDuplicateAssignment ctx) = no_conflicts ∧
  ((∀ day, 1 <= day <= daysInMonth (year ctx) (month ctx) →
      plainNames (shiftsOfDay ctx day) = true) →
   checkDuplicateAssignment ctx = Returned no_conflicts).
Proof.
  intros Hone. unfold checkDuplicateAssignment. split.
  - apply (for_days_ind (λ st, runOf st = no_conflicts)); [done|].
    intros day [run|run] Hday Hrun; cbn [andThen runOf] in *; [|done].
    rewrite duplicateStep_fold.
    destruct (plainNames (shiftsOfDay ctx day)); cbn [runOf]; [|done].
    rewrite duplicateReport_none; [done|]. intros emp. by apply Hone.
  - intros Hplain. apply for_days_id. intros day st Hday.
    destruct st as [run|run]; cbn [andThen]; [|done].
    rewrite duplicateStep_fold, Hplain by done.
    rewrite duplicateReport_none; [done|]. intros emp. by apply Hone.
Qed.

(** X9: an employee with two or more working assignments on one day of
    the month is reported whenever the check gets to that day, that is,
    when no working assignment up to that day belongs to an employee whose
    name is that of a member that every object inherits: at least one
    conflict is counted and the date is highlighted with a reason that
    lists all of the employee's shifts of the day, in schedule order. *)
Theorem checkDuplicateAssignment_catches (ctx : Context) (emp : string) (day : Z) :
  1 <= day <= daysInMonth (year ctx) (month ctx) →
  (2 ≤ length (workingShifts ctx emp day))%nat →
  (∀ d, 1 <= d <= day → plainNames (shiftsOfDay ctx d) = true) →
  In {| date := formatDate (JSDate.make (year ctx) (month ctx) day);
        reason := duplicateReason emp (workingShifts ctx emp day) |}
     (highlights (runOf (checkDuplicateAssignment ctx))) ∧
  (1 ≤ conflictCount (runOf (checkDuplicateAssignment ctx)))%nat.
Proof.
  intros Hday Htwo Hplain. unfold checkDuplicateAssignment.
  set (f := {| date := formatDate (JSDate.make (year ctx) (month ctx) day);
               reason := duplicateReason emp (workingShifts ctx emp day) |}).
  change (reported f (runOf (for_days (daysInMonth (year ctx) (month ctx))
                               (λ day outcome, andThen outcome (duplicateStep ctx day))
                               (Returned no_conflicts)))).
  assert (∀ dateStr st entry,
            reported f st → reported f (duplicateTurn dateStr st entry)) as Hkeep.
  { intros dateStr st [e l] Hst. unfold duplicateTurn.
    destruct (1 <? length l)%nat; [by apply reported_highlightConflict|done]. }
  apply (for_days_from (λ st, ∃ run, st = Returned run) (λ st, reported f (runOf st))
           _ _ _ day Hday).
  - by eexists.
  - intros d st Hd [run ->]. cbn [andThen].
    rewrite duplicateStep_fold, Hplain by lia. by eexists.
  - intros st [run ->]. cbn [andThen].
    rewrite duplicateStep_fold, Hplain by lia. cbn [runOf].
    unfold duplicateReport.
    apply (fold_left_reaches (reported f) _ _ (emp, workingShifts ctx emp day)).
    + apply In_entries.
      destruct (group_fold (shiftsOfDay ctx day) []) as [_ Hrec]; [constructor|].
      specialize (Hrec emp). cbn [recordedShifts] in Hrec.
      change (recordedShifts emp [] ++ _) with (workingShifts ctx emp day) in Hrec.
      rewrite <- Hrec. apply entry_of_recordedShifts. rewrite Hrec.
      intros Hnil. rewrite Hnil in Htwo. cbn [length] in Htwo. lia.
    + intros run'. unfold duplicateTurn.
      destruct (Nat.ltb_spec 1 (length (workingShifts ctx emp day))); [|lia].
      apply reported_new.
    + intros run' entry. apply Hkeep.
  - intros d [run|run] _ Hst; cbn [andThen runOf] in *; [|done].
    rewrite duplicateStep_fold.
    destruct (plainNames (shiftsOfDay ctx d)); cbn [runOf]; [|done].
    unfold duplicateReport.
    generalize (JSArray.entries (fold_left groupTurn (shiftsOfDay ctx d) [])).
    intros l. revert run Hst.
    induction l as [|entry l IH]; intros st Hst; cbn [fold_left]; [done|].
    by apply IH, Hkeep.
Qed.

(** A and B share 2 January; A is entered twice. *)
Definition doubleBookedSchedule : gmap string (list Assignment) :=
  list_to_map
    [ ("2024-01-02", [ {| employee := "A"; shift := "day" |};
                       {| employee := "B"; shift := "night" |};
                       {| employee := "A"; shift := "night" |} ]) ].

Definition doubleBookedContext : Context :=
  {| scheduleData := doubleBookedSchedule; year := 2024; month := 0;
     shiftTypes := ∅; employeeAvailability := None; holidayDates := None |}.

Lemma checkDuplicateAssignment_catches_witness :
  1 <= 2 <= daysInMonth (year doubleBookedContext) (month doubleBookedContext) ∧
  (2 ≤ length (workingShifts doubleBookedContext "A" 2))%nat ∧
  (∀ d, 1 <= d <= 2 → plainNames (shiftsOfDay doubleBookedContext d) = true) ∧
  In {| date := "2024-01-02"; reason := duplicateReason "A" ["day"; "night"] |}
     (highlights (runOf (checkDuplicateAssignment doubleBookedContext))) ∧
  (1 ≤ conflictCount (runOf (checkDuplicateAssignment doubleBookedContext)))%nat.
Proof.
  assert (1 <= 2 <= daysInMonth (year doubleBookedContext) (month doubleBookedContext))
    as Hday by (vm_compute; split; discriminate).
  assert (2 ≤ length (workingShifts doubleBookedContext "A" 2))%nat as Htwo
    by (vm_compute; lia).
  assert (∀ d, 1 <= d <= 2 → plainNames (shiftsOfDay doubleBookedContext d) = true)
    as Hplain.
  { intros d Hd.
    assert (all_from 2 1 (λ x, plainNames (shiftsOfDay doubleBookedContext x)) = true)
      as Hall by (vm_compute; reflexivity).
    exact (all_from_spec 2 1 _ Hall d ltac:(lia)). }
  split; [exact Hday|]. split; [exact Htwo|]. split; [exact Hplain|].
  exact (checkDuplicateAssignment_catches doubleBookedContext "A" 2 Hday Htwo Hplain).
Defined.

Lemma working_le_not_off emp shifts :
  (length (List.filter (worksAs emp) shifts)
   ≤ length (List.filter (λ s, negb (String.eqb (shift s) "off")) shifts))%nat.
Proof.
  induction shifts as [|s shifts IH]; cbn [List.filter length]; [lia|].
  unfold worksAs at 1.
  destruct (String.eqb (employee s) emp), (negb (String.eqb (shift s) "off"));
    cbn [andb length]; lia.
Qed.

Lemma checkDuplicateAssignment_none_witness :
  (∀ day emp,
     1 <= day <= daysInMonth (year restedContext) (month restedContext) →
     (length (workingShifts restedContext emp day) ≤ 1)%nat) ∧
  runOf (checkDuplicateAssignment restedContext) = no_conflicts ∧
  checkDuplicateAssignment restedContext = Returned no_conflicts.
Proof.
  assert (∀ day emp,
            1 <= day <= daysInMonth (year restedContext) (month restedContext) →
            (length (workingShifts restedContext emp day) ≤ 1)%nat) as H.
  { intros day emp Hday.
    change (daysInMonth (year restedContext) (month restedContext)) with 31 in Hday.
    unfold workingShifts. rewrite length_map.
    set (check := λ x : Z,
           (length (List.filter (λ s, negb (String.eqb (shift s) "off"))
                      (shiftsOfDay restedContext x))
            <=? 1)%nat).
    assert (all_from 31 1 check = true) as Hall by (vm_compute; reflexivity).
    pose proof (all_from_spec 31 1 check Hall day ltac:(lia)) as Hc.
    subst check. cbv beta in Hc. apply Nat.leb_le in Hc.
    etrans; [apply working_le_not_off|exact Hc]. }
  split; [exact H|].
  destruct (checkDuplicateAssignment_none restedContext H) as [Hrun Hreturns].
  split; [exact Hrun|]. apply Hreturns.
  intros day Hday.
  change (daysInMonth (year restedContext) (month restedContext)) with 31 in Hday.
  assert (all_from 31 1 (λ x, plainNames (shiftsOfDay restedContext x)) = true)
    as Hall by (vm_compute; reflexivity).
  exact (all_from_spec 31 1 _ Hall day ltac:(lia)).
Defined.

(** ** Date keys *)

Lemma string_length_app (s t : string) :
  String.length (s +:+ t) = (String.length s + String.length t)%nat.
Proof.
  induction s as [|c s IH]; [reflexivity|].
  change (S (String.length (s +:+ t)) = S (String.length s + String.length t)).
  by rewrite IH.
Qed.

Lemma string_app_inj_suffix (s1 s2 t1 t2 : string) :
  s1 +:+ t1 = s2 +:+ t2 → String.length t1 = String.length t2 → s1 = s2 ∧ t1 = t2.
Proof.
  revert s2. induction s1 as [|c s1 IH]; intros [|c' s2] Heq Hlen.
  - change (t1 = t2) in Heq. done.
  - exfalso. change (t1 = String c' (s2 +:+ t2)) in Heq. subst t1.
    cbn [String.length] in Hlen. rewrite string_length_app in Hlen. lia.
  - exfalso. change (String c (s1 +:+ t1) = t2) in Heq. subst t2.
    cbn [String.length] in Hlen. rewrite string_length_app in Hlen. lia.
  - change (String c (s1 +:+ t1) = String c' (s2 +:+ t2)) in Heq.
    injection Heq as -> Heq. destruct (IH s2 Heq Hlen) as [-> ->]. done.
Qed.

(** The two-digit fields of a date key. *)
Definition twoDigits (n : Z) : string := JSString.padStart 2 "0" (JSString.ofZ n).

Lemma twoDigits_length n : 1 <= n <= 31 → String.length (twoDigits n) = 2%nat.
Proof.
  intros Hn.
  set (check := λ x : Z, (String.length (twoDigits x) =? 2)%nat).
  assert (all_from 31 1 check = true) as Hall by (vm_compute; reflexivity).
  pose proof (all_from_spec 31 1 check Hall n ltac:(lia)) as Hc.
  by apply Nat.eqb_eq in Hc.
Qed.

Lemma twoDigits_inj a b :
  1 <= a <= 31 → 1 <= b <= 31 → twoDigits a = twoDigits b → a = b.
Proof.
  intros Ha Hb Heq.
  set (check := λ x : Z,
         all_from 31 1 (λ y, negb (String.eqb (twoDigits x) (twoDigits y)) || (x =? y))).
  assert (all_from 31 1 check = true) as Hall by (vm_compute; reflexivity).
  pose proof (all_from_spec 31 1 check Hall a ltac:(lia)) as Hc.
  pose proof (all_from_spec 31 1 _ Hc b ltac:(lia)) as Hc'. cbv beta in Hc'.
  rewrite Heq, String.eqb_refl in Hc'. by apply Z.eqb_eq in Hc'.
Qed.

(** The number that two decimal digits write. *)
Definition twoDigitValue (c1 c2 : ascii) : option Z := JSTime.number [c1; c2].

Lemma twoDigits_shape n :
  1 <= n <= 31 →
  ∃ c1 c2, twoDigits n = String c1 (String c2 "") ∧ twoDigitValue c1 c2 = Some n.
Proof.
  intros Hn.
  set (check := λ x : Z,
         match twoDigits x with
         | String c1 (String c2 EmptyString) =>
             match twoDigitValue c1 c2 with
             | Some v => v =? x
             | None => false
             end
         | _ => false
         end).
  assert (all_from 31 1 check = true) as Hall by (vm_compute; reflexivity).
  pose proof (all_from_spec 31 1 check Hall n ltac:(lia)) as Hc.
  subst check. cbv beta in Hc.
  destruct (twoDigits n) as [|c1 [|c2 [|c3 rest]]]; try discriminate Hc.
  exists c1, c2. split; [done|].
  destruct (twoDigitValue c1 c2) as [v|]; [|discriminate Hc].
  apply Z.eqb_eq in Hc. by rewrite Hc.
Qed.

(** X10: [formatDate] gives different keys to different days, so a
    schedule keyed by it never merges two days; every key is the year,
    written as [String] writes it, followed by "-MM-DD": a hyphen, the
    two digits of the month number, a hyphen and the two digits of the
    day of the month. *)
Theorem formatDate_inj (d1 d2 : JSDate.t) :
  (formatDate d1 = formatDate d2 ↔ d1 = d2) ∧
  ∃ m1 m2 a1 a2 : ascii,
    formatDate d1 =
      JSString.ofZ (JSDate.getFullYear d1) +:+
      String "-" (String m1 (String m2 (String "-" (String a1 (String a2 ""))))) ∧
    twoDigitValue m1 m2 = Some (JSDate.getMonth d1 + 1) ∧
    twoDigitValue a1 a2 = Some (JSDate.getDate d1).
Proof.
  assert (∀ d, 1 <= JSDate.getMonth d + 1 <= 31 ∧ 1 <= JSDate.getDate d <= 31) as Hrange.
  { intros d. pose proof (JSDateFacts.getMonth_range d).
    pose proof (JSDateFacts.getDate_range d).
    pose proof (month_len_bounds (JSDate.getFullYear d) (JSDate.getMonth d)). lia. }
  assert (∀ d, formatDate d =
               JSString.ofZ (JSDate.getFullYear d) +:+
               String "-" (twoDigits (JSDate.getMonth d + 1) +:+
                           String "-" (twoDigits (JSDate.getDate d)))) as Hshape
    by reflexivity.
  assert (∀ d, String.length
                 (String "-" (twoDigits (JSDate.getMonth d + 1) +:+
                              String "-" (twoDigits (JSDate.getDate d)))) = 6%nat) as Htail.
  { intros d. destruct (Hrange d) as [Hm Hd]. cbn [String.length].
    rewrite string_length_app. cbn [String.length].
    rewrite !twoDigits_length by done. done. }
  split.
  - split; [|by intros ->].
    rewrite !Hshape. intros Heq.
    apply string_app_inj_suffix in Heq as [Hy Ht]; [|by rewrite !Htail].
    injection Ht as Ht.
    destruct (Hrange d1) as [Hm1 Hd1], (Hrange d2) as [Hm2 Hd2].
    apply string_app_inj_suffix in Ht as [Hm Hd];
      [|cbn [String.length]; by rewrite !twoDigits_length].
    injection Hd as Hd.
    apply twoDigits_inj in Hm; [|done..]. apply twoDigits_inj in Hd; [|done..].
    unfold JSString.ofZ in Hy. apply (inj pretty) in Hy.
    rewrite <- (JSDateFacts.MakeDay_components d1), <- (JSDateFacts.MakeDay_components d2).
    rewrite Hy, Hd. f_equal. lia.
  - destruct (Hrange d1) as [Hm Hd].
    destruct (twoDigits_shape _ Hm) as (m1 & m2 & Hmonth & Hmv).
    destruct (twoDigits_shape _ Hd) as (a1 & a2 & Hday & Hdv).
    exists m1, m2, a1, a2. split; [|done].
    by rewrite Hshape, Hmonth, Hday.
Qed.

(** ** The 24-hour guard against the 24-hour check *)

(** For the day-class shift of a day, the guard is the check's test on
    the previous day. *)
Lemma wouldCause24HourShift_dayClass emp y m day (h : bool) scheduleData holidayDates :
  wouldCause24HourShift emp (JSDate.make y m day)
    (if h then "weekend-day" else "day") scheduleData holidayDates =
  hasShiftOf emp
    (nightClass (isHoliday (formatDate (JSDate.make y m (day - 1))) holidayDates))
    (shiftsOn scheduleData (formatDate (JSDate.make y m (day - 1)))).
Proof.
  unfold wouldCause24HourShift. cbv zeta.
  replace (JSDate.getDate (JSDate.make y m day) - 1)
    with (JSDate.getDate (JSDate.make y m day) + -1) by lia.
  rewrite JSDateFacts.setDate_shift.
  replace (JSDate.make y m day + -1) with (JSDate.make y m (day - 1))
    by (rewrite <- make_shift; f_equal; lia).
  by destruct h.
Qed.

(** X11: if the employee holds the day-class shift of a day of the month
    and [wouldCause24HourShift] is true for that day and shift, the
    24-hour check counts a conflict, highlights that day with the
    turnaround reason and marks the day before. *)
Theorem checkNo24HourShift_predicted (ctx : Context) (rule : Rule.t) (day : Z) :
  1 <= day <= daysInMonth (year ctx) (month ctx) →
  let emp := Rule.employee rule in
  let current := JSDate.make (year ctx) (month ctx) day in
  let previous := JSDate.make (year ctx) (month ctx) (day - 1) in
  let currentIsHoliday := isHoliday (formatDate current) (holidayDates ctx) in
  hasShiftOf emp (dayClass currentIsHoliday)
    (shiftsOn (scheduleData ctx) (formatDate current)) = true →
  wouldCause24HourShift emp current (if currentIsHoliday then "weekend-day" else "day")
    (scheduleData ctx) (holidayDates ctx) = true →
  let r := checkNo24HourShift ctx rule in
  (1 ≤ conflictCount r)%nat ∧
  In {| date := formatDate current;
        reason := turnaroundReason emp (formatDate previous) (formatDate current) |}
     (highlights r) ∧
  In {| date := formatDate previous; reason := turnaroundMarker emp |} (highlights r).
Proof.
  intros Hday emp current previous currentIsHoliday Hhas Hguard r. subst r.
  unfold checkNo24HourShift. fold emp.
  set (f1 := {| date := formatDate current;
                reason := turnaroundReason emp (formatDate previous) (formatDate current) |}).
  set (f2 := {| date := formatDate previous; reason := turnaroundMarker emp |}).
  set (Q := λ st : Run,
         (1 ≤ conflictCount st)%nat ∧ In f1 (highlights st) ∧ In f2 (highlights st)).
  change (Q (for_days (daysInMonth (year ctx) (month ctx)) (turnaroundStep ctx emp)
               no_conflicts)).
  apply (for_days_reaches Q _ _ _ day Hday).
  - intros st. unfold turnaroundStep. cbv zeta.
    fold current. fold previous. fold currentIsHoliday. rewrite Hhas.
    subst current. rewrite wouldCause24HourShift_dayClass in Hguard.
    fold previous in Hguard. rewrite Hguard. cbn [andb].
    unfold Q. cbn [highlightConflict countConflict conflictCount highlights].
    split; [lia|]. rewrite !in_app_iff. cbn [In]. subst f1 f2. auto.
  - intros d st _ (Hc & H1 & H2). unfold turnaroundStep. cbv zeta.
    destruct (_ && _); [|done].
    unfold Q. cbn [highlightConflict countConflict conflictCount highlights].
    split; [lia|]. rewrite !in_app_iff. auto.
Qed.

(** A night on 2 January followed by a day shift on the 3rd. *)
Definition turnaroundSchedule : gmap string (list Assignment) :=
  list_to_map
    [ ("2024-01-02", [ {| employee := "A"; shift := "night" |} ]);
      ("2024-01-03", [ {| employee := "A"; shift := "day" |} ]) ].

Definition turnaroundContext : Context :=
  {| scheduleData := turnaroundSchedule; year := 2024; month := 0;
     shiftTypes := ∅; employeeAvailability := None; holidayDates := None |}.

Lemma checkNo24HourShift_predicted_witness :
  1 <= 3 <= daysInMonth (year turnaroundContext) (month turnaroundContext) ∧
  hasShiftOf "A" (dayClass false) (shiftsOn turnaroundSchedule "2024-01-03") = true ∧
  wouldCause24HourShift "A" (JSDate.make 2024 0 3) "day" turnaroundSchedule None = true ∧
  (1 ≤ conflictCount (checkNo24HourShift turnaroundContext turnaroundRule))%nat ∧
  In {| date := "2024-01-03";
        reason := turnaroundReason "A" "2024-01-02" "2024-01-03" |}
     (highlights (checkNo24HourShift turnaroundContext turnaroundRule)) ∧
  In {| date := "2024-01-02"; reason := turnaroundMarker "A" |}
     (highlights (checkNo24HourShift turnaroundContext turnaroundRule)).
Proof.
  assert (1 <= 3 <= daysInMonth (year turnaroundContext) (month turnaroundContext))
    as Hday by (vm_compute; split; discriminate).
  assert (hasShiftOf "A" (dayClass false) (shiftsOn turnaroundSchedule "2024-01-03") = true)
    as Hhas by (vm_compute; reflexivity).
  assert (wouldCause24HourShift "A" (JSDate.make 2024 0 3) "day" turnaroundSchedule None
          = true) as Hguard by (vm_compute; reflexivity).
  split; [exact Hday|]. split; [exact Hhas|]. split; [exact Hguard|].
  exact (checkNo24HourShift_predicted turnaroundContext turnaroundRule 3 Hday Hhas Hguard).
Defined.

(** ** Order and content of a sorted array *)

Lemma insert_sorted_Permutation {A : Type} (cmp : A → A → Z) (x : A) (l : list A) :
  Permutation (JSArray.insert_sorted cmp x l) (x :: l).
Proof.
  induction l as [|z l IH]; cbn [JSArray.insert_sorted]; [done|].
  destruct (cmp x z <=? 0); [done|].
  rewrite IH. apply perm_swap.
Qed.

Lemma sort_Permutation {A : Type} (cmp : A → A → Z) (l : list A) :
  Permutation (JSArray.sort cmp l) l.
Proof.
  unfold JSArray.sort. induction l as [|x l IH]; cbn [foldr]; [done|].
  rewrite insert_sorted_Permutation. by rewrite IH.
Qed.

(** Sorting by a comparator that follows a transitive order [R] on the
    members of the list, which all satisfy [dom], leaves every element in
    relation [R] with all later ones. *)
Lemma sort_StronglySorted_on {A : Type} (R : A → A → Prop) (dom : A → Prop)
    (cmp : A → A → Z) (l : list A) :
  (∀ a b c, R a b → R b c → R a c) →
  (∀ a b, dom a → dom b → cmp a b <= 0 → R a b) →
  (∀ a b, dom a → dom b → 0 < cmp a b → R b a) →
  (∀ a, In a l → dom a) →
  StronglySorted R (JSArray.sort cmp l).
Proof.
  intros Htrans Hle Hgt. unfold JSArray.sort.
  induction l as [|x l IH]; intros Hdom; cbn [foldr]; [constructor|].
  assert (dom x) as Hx by (apply Hdom; by left).
  assert (∀ a, In a (foldr (JSArray.insert_sorted cmp) [] l) → dom a) as Hsub.
  { intros a Ha. apply Hdom. right. exact (proj1 (In_sort cmp a l) Ha). }
  specialize (IH (λ a Ha, Hdom a (or_intror Ha))).
  revert IH Hsub. generalize (foldr (JSArray.insert_sorted cmp) [] l). clear l Hdom.
  intros l Hsorted.
  induction Hsorted as [|z l Hsorted IH Hall]; intros Hsub; cbn [JSArray.insert_sorted].
  - by repeat constructor.
  - assert (dom z) as Hz by (apply Hsub; by left).
    destruct (Z.leb_spec (cmp x z) 0) as [Hc|Hc].
    + constructor; [by constructor|].
      constructor; [by apply Hle|].
      eapply Forall_impl; [exact Hall|]. intros b Hb. cbv beta in Hb.
      eapply Htrans; [by apply Hle|done].
    + constructor; [apply IH; intros a Ha; apply Hsub; by right|].
      rewrite Forall_forall. intros b Hb%list_elem_of_In%In_insert_sorted.
      destruct Hb as [->|Hb]; [by apply Hgt|].
      rewrite Forall_forall in Hall. apply Hall. by apply list_elem_of_In.
Qed.

(** Two comparators that agree on the members of a list sort it alike. *)
Lemma sort_ext_in {A : Type} (cmp1 cmp2 : A → A → Z) (l : list A) :
  (∀ a b, In a l → In b l → cmp1 a b = cmp2 a b) →
  JSArray.sort cmp1 l = JSArray.sort cmp2 l.
Proof.
  unfold JSArray.sort. induction l as [|x l IH]; intros Hext; cbn [foldr]; [done|].
  rewrite IH by (intros a b Ha Hb; apply Hext; by right).
  assert (∀ b, In b (foldr (JSArray.insert_sorted cmp2) [] l) → cmp1 x b = cmp2 x b)
    as Hx.
  { intros b Hb. apply Hext; [by left|]. right. exact (proj1 (In_sort cmp2 b l) Hb). }
  revert Hx. generalize (foldr (JSArray.insert_sorted cmp2) [] l). intros k.
  induction k as [|z k IHk]; intros Hx; cbn [JSArray.insert_sorted]; [done|].
  rewrite (Hx z) by (by left). rewrite IHk by (intros b Hb; apply Hx; by right). done.
Qed.

(** ** Employees below the average *)

(** X12: [getUnderScheduledEmployees] returns exactly the roster members
    with a total whose product with the roster size is below the sum of
    all totals in the statistics table, in ascending order of total.  The
    total of a member is that of its entry; without an entry it is 0,
    unless the name is that of a member that every object inherits: such
    a member has no total and is never returned.  With an empty roster
    nothing is returned. *)
Theorem getUnderScheduledEmployees_spec (employeeStats : gmap string EmployeeStats)
    (employees : list string) :
  let sumOfShifts := map_fold (λ _ stat sum, sum + totalShifts stat) 0 employeeStats in
  let total emp :=
    match employeeStats !! emp with
    | Some stat => Some (totalShifts stat)
    | None => if JSObject.inherited emp then None else Some 0
    end in
  let result := Earlier.getUnderScheduledEmployees employeeStats employees in
  (∀ emp, In emp result ↔
          In emp employees ∧
          ∃ x, total emp = Some x ∧ x * Z.of_nat (length employees) < sumOfShifts) ∧
  StronglySorted (λ a b, ∃ x y, total a = Some x ∧ total b = Some y ∧ x <= y) result ∧
  (employees = [] → result = []).
Proof.
  intros sumOfShifts total result. subst result.
  unfold Earlier.getUnderScheduledEmployees. fold sumOfShifts.
  assert (∀ emp, Earlier.field totalShifts (Earlier.statOf employeeStats emp) = total emp)
    as Htotal.
  { intros emp. subst total. cbv beta. unfold Earlier.field, Earlier.statOf.
    destruct (employeeStats !! emp); [done|]. by destruct (JSObject.inherited emp). }
  split; [|split].
  - intros emp. rewrite In_sort, filter_In, Htotal.
    unfold Earlier.belowAverage.
    destruct employees as [|e employees]; [cbn [In]; tauto|].
    destruct (total emp) as [x|]; cbn [length Nat.eqb].
    + rewrite Z.ltb_lt. split.
      * intros [Hin Hlt]. split; [done|]. by exists x.
      * intros [Hin (y & [= <-] & Hlt)]. done.
    + split; [by intros [_ ?]|]. by intros [_ (y & ? & _)].
  - apply (sort_StronglySorted_on _ (λ a, is_Some (total a))).
    + intros a b c (x & y & Ha & Hb & Hxy) (y' & z & Hb' & Hc & Hyz).
      exists x, z. rewrite Hb in Hb'. injection Hb' as <-. repeat split; [done..|lia].
    + intros a b [x Ha] [y Hb]. unfold Earlier.totalCompare.
      rewrite !Htotal, Ha, Hb. cbn. intros Hle. exists x, y. repeat split; [done..|lia].
    + intros a b [x Ha] [y Hb]. unfold Earlier.totalCompare.
      rewrite !Htotal, Ha, Hb. cbn. intros Hlt. exists y, x. repeat split; [done..|lia].
    + intros a [_ Ha]%filter_In. rewrite Htotal in Ha. unfold Earlier.belowAverage in Ha.
      by destruct (total a).
  - by intros ->.
Qed.

(** ** The two revisions of the selection *)

(** Where the statistics of an employee are numbers, that is, for an
    entry of the table and for a name without entry that is not that of
    an inherited member, the earlier revision reads what the later one
    reads. *)
Lemma statOf_numbers employeeStats a :
  (employeeStats !! a = None → JSObject.inherited a = false) →
  Earlier.statOf employeeStats a =
    Some {| totalShifts := totalShiftsOf employeeStats a;
            dayShifts := dayShiftsOf employeeStats a;
            nightShifts := nightShiftsOf employeeStats a |}.
Proof.
  intros Hplain. unfold Earlier.statOf, totalShiftsOf, dayShiftsOf, nightShiftsOf.
  destruct (employeeStats !! a) as [[t d n]|]; [done|].
  by rewrite Hplain.
Qed.

Lemma totalCompare_numbers employeeStats a b :
  (employeeStats !! a = None → JSObject.inherited a = false) →
  (employeeStats !! b = None → JSObject.inherited b = false) →
  Earlier.totalCompare employeeStats a b =
  totalShiftsOf employeeStats a - totalShiftsOf employeeStats b.
Proof.
  intros Ha Hb. unfold Earlier.totalCompare.
  by rewrite (statOf_numbers _ a Ha), (statOf_numbers _ b Hb).
Qed.

Lemma fewestNightsCompare_numbers employeeStats a b :
  (employeeStats !! a = None → JSObject.inherited a = false) →
  (employeeStats !! b = None → JSObject.inherited b = false) →
  Earlier.fewestNightsCompare employeeStats a b =
  if negb (nightShiftsOf employeeStats a =? nightShiftsOf employeeStats b)
  then nightShiftsOf employeeStats a - nightShiftsOf employeeStats b
  else totalShiftsOf employeeStats a - totalShiftsOf employeeStats b.
Proof.
  intros Ha Hb. unfold Earlier.fewestNightsCompare.
  by rewrite (statOf_numbers _ a Ha), (statOf_numbers _ b Hb).
Qed.

Lemma fewestDaysCompare_numbers employeeStats a b :
  (employeeStats !! a = None → JSObject.inherited a = false) →
  (employeeStats !! b = None → JSObject.inherited b = false) →
  Earlier.fewestDaysCompare employeeStats a b =
  if negb (dayShiftsOf employeeStats a =? dayShiftsOf employeeStats b)
  then dayShiftsOf employeeStats a - dayShiftsOf employeeStats b
  else totalShiftsOf employeeStats a - totalShiftsOf employeeStats b.
Proof.
  intros Ha Hb. unfold Earlier.fewestDaysCompare.
  by rewrite (statOf_numbers _ a Ha), (statOf_numbers _ b Hb).
Qed.

(** X13: outside the 'balanced' strategy, and for 'minimize_night' only
    when the shift to fill is 'night', the later revision's
    [selectEmployeesWithFairness] returns what the earlier revision's
    [getBestEmployeeSelection] returns, provided that no employee of the
    pool without statistics has the name of a member that every object
    inherits: 'rotate', the default ranking and the night ranking were
    carried over unchanged. *)
Theorem selection_revisions_agree (localeCompare : string → string → Z)
    (availableEmployees : list string) (shiftType : string) (requiredCount : nat)
    (employeeStats : gmap string EmployeeStats) (allEmployees : list string)
    (strategy : string) (date : option JSDate.t) :
  strategy ≠ "balanced" →
  (strategy = "minimize_night" → shiftType = "night") →
  (∀ a, In a availableEmployees → employeeStats !! a = None →
        JSObject.inherited a = false) →
  selectEmployeesWithFairness availableEmployees shiftType requiredCount employeeStats
    allEmployees strategy date =
  Earlier.getBestEmployeeSelection localeCompare availableEmployees shiftType
    requiredCount employeeStats strategy date.
Proof.
  intros Hbal Hnight Hplain.
  unfold selectEmployeesWithFairness, ranking, Earlier.getBestEmployeeSelection, Earlier.rank.
  destruct (length availableEmployees <=? requiredCount)%nat; [done|]. f_equal.
  assert (JSArray.sort
            (λ a b, totalShiftsOf employeeStats a - totalShiftsOf employeeStats b)
            availableEmployees =
          JSArray.sort (Earlier.totalCompare employeeStats) availableEmployees) as Htotal.
  { apply sort_ext_in. intros a b Ha Hb.
    by rewrite totalCompare_numbers by (by apply Hplain). }
  destruct (String.eqb_spec strategy "balanced"); [done|].
  destruct (String.eqb_spec strategy "minimize_night") as [Hmin|_].
  - rewrite (Hnight Hmin). cbn [String.eqb Ascii.eqb Bool.eqb orb].
    apply sort_ext_in. intros a b Ha Hb.
    rewrite fewestNightsCompare_numbers by (by apply Hplain). unfold orElse.
    destruct (Z.eqb_spec (nightShiftsOf employeeStats a) (nightShiftsOf employeeStats b))
      as [Heq|Hne]; cbn [negb].
    + rewrite Heq, Z.sub_diag. reflexivity.
    + destruct (Z.eqb_spec (nightShiftsOf employeeStats a
                            - nightShiftsOf employeeStats b) 0); [lia|done].
  - destruct (String.eqb strategy "rotate"); [done|exact Htotal].
Qed.

(** The statistics of A, B and C are entries of [sampleStats]. *)
Lemma sampleStats_numbers a :
  In a ["C"; "A"; "B"] → sampleStats !! a = None → JSObject.inherited a = false.
Proof. intros [<-|[<-|[<-|[]]]] _; vm_compute; reflexivity. Qed.

Lemma selection_revisions_agree_witness :
  "minimize_night" ≠ "balanced" ∧
  ("minimize_night" = "minimize_night" → "night" = "night") ∧
  (∀ a, In a ["C"; "A"; "B"] → sampleStats !! a = None → JSObject.inherited a = false) ∧
  selectEmployeesWithFairness ["C"; "A"; "B"] "night" 2 sampleStats ["A"; "B"; "C"]
    "minimize_night" (Some (JSDate.make 2024 0 4)) =
  Earlier.getBestEmployeeSelection JSString.compare ["C"; "A"; "B"] "night" 2 sampleStats
    "minimize_night" (Some (JSDate.make 2024 0 4)).
Proof.
  assert ("minimize_night" ≠ "balanced") as H1 by discriminate.
  assert ("minimize_night" = "minimize_night" → "night" = "night") as H2 by done.
  split; [exact H1|]. split; [exact H2|]. split; [exact sampleStats_numbers|].
  exact (selection_revisions_agree JSString.compare ["C"; "A"; "B"] "night" 2 sampleStats
           ["A"; "B"; "C"] "minimize_night" (Some (JSDate.make 2024 0 4)) H1 H2
           sampleStats_numbers).
Defined.

(** X20: with an employee named 'constructor' who has no statistics the
    two revisions part: the later one reads a total of 0 and ranks that
    employee first, the earlier one reads the inherited member, compares
    to NaN and leaves the order of the pool. *)
Example selection_revisions_differ :
  let stats : gmap string EmployeeStats :=
    {[ "B" := {| totalShifts := 4; dayShifts := 2; nightShifts := 2 |} ]} in
  selectEmployeesWithFairness ["B"; "constructor"] "day" 1 stats ["B"; "constructor"]
    "fewest" None = ["constructor"] ∧
  Earlier.getBestEmployeeSelection JSString.compare ["B"; "constructor"] "day" 1 stats
    "fewest" None = ["B"].
Proof. split; vm_compute; reflexivity. Qed.

(** ** Selections are drawn from the pool *)

Lemma includes_In l x : includes l x = true ↔ In x l.
Proof.
  unfold includes. rewrite existsb_exists. split.
  - intros (y & Hy & ->%String.eqb_eq). done.
  - intros Hin. exists x. by rewrite String.eqb_refl.
Qed.

Lemma In_take {A : Type} (n : nat) (l : list A) (x : A) : In x (take n l) → In x l.
Proof.
  revert n. induction l as [|y l IH]; intros [|n]; cbn [take firstn In]; try done.
  intros [->|H]; [by left|right; by apply (IH n)].
Qed.

Lemma NoDup_take_of {A : Type} (n : nat) (l : list A) : NoDup l → NoDup (take n l).
Proof.
  revert n. induction l as [|y l IH]; intros [|n] Hnd; cbn [take firstn];
    try constructor.
  - apply NoDup_cons in Hnd as [Hy _]. rewrite list_elem_of_In.
    rewrite list_elem_of_In in Hy. intros Hin. apply Hy. by apply (In_take n).
  - apply NoDup_cons in Hnd as [_ Hnd]. by apply IH.
Qed.

Lemma NoDup_List_filter {A : Type} (f : A → bool) (l : list A) :
  NoDup l → NoDup (List.filter f l).
Proof. rewrite !NoDup_ListNoDup. apply List.NoDup_filter. Qed.

Lemma rotateByDate_Permutation l date : Permutation (rotateByDate l date) l.
Proof.
  unfold rotateByDate. destruct date as [d|]; [|done].
  rewrite Permutation_app_comm. by rewrite take_drop.
Qed.

Lemma rank_Permutation localeCompare shiftType employeeStats strategy date l :
  Permutation (Earlier.rank localeCompare shiftType employeeStats strategy date l) l.
Proof.
  unfold Earlier.rank.
  repeat match goal with |- context [if ?c then _ else _] => destruct c end;
    rewrite ?rotateByDate_Permutation; apply sort_Permutation.
Qed.

Lemma ranking_Permutation shiftType employeeStats strategy date l :
  Permutation (ranking shiftType employeeStats strategy date l) l.
Proof.
  unfold ranking.
  repeat match goal with |- context [if ?c then _ else _] => destruct c end;
    rewrite ?rotateByDate_Permutation; apply sort_Permutation.
Qed.

(** A list without repetition whose members all come from [pool]. *)
Definition drawnFrom (pool result : list string) : Prop :=
  NoDup result ∧ ∀ emp, In emp result → In emp pool.

Lemma drawnFrom_take_Permutation pool ranked n :
  NoDup pool → Permutation ranked pool → drawnFrom pool (take n ranked).
Proof.
  intros Hnd Hperm. split.
  - apply NoDup_take_of. by rewrite Hperm.
  - intros emp Hin%In_take. rewrite <- list_elem_of_In in *. by rewrite <- Hperm.
Qed.

Lemma getBestEmployeeSelection_drawn localeCompare pool shiftType requiredCount
    employeeStats strategy date :
  NoDup pool →
  drawnFrom pool
    (Earlier.getBestEmployeeSelection localeCompare pool shiftType requiredCount
       employeeStats strategy date).
Proof.
  intros Hnd. unfold Earlier.getBestEmployeeSelection.
  destruct (length pool <=? requiredCount)%nat; [by split|].
  apply drawnFrom_take_Permutation; [done|apply rank_Permutation].
Qed.

(** X14: from a pool without repetition, the selection functions of both
    revisions return employees of the pool and none of them twice; this
    holds for every strategy, and for the two phases of the earlier
    revision together. *)
Theorem selection_drawn_from_pool (localeCompare : string → string → Z)
    (availableEmployees : list string) (shiftType : string) (requiredCount : nat)
    (employeeStats : gmap string EmployeeStats) (allEmployees : list string)
    (strategy : string) (date : option JSDate.t) :
  NoDup availableEmployees →
  drawnFrom availableEmployees
    (selectEmployeesWithFairness availableEmployees shiftType requiredCount employeeStats
       allEmployees strategy date) ∧
  drawnFrom availableEmployees
    (Earlier.getBestEmployeeSelection localeCompare availableEmployees shiftType
       requiredCount employeeStats strategy date) ∧
  drawnFrom availableEmployees
    (Earlier.selectEmployeesWithFairness localeCompare availableEmployees shiftType
       requiredCount employeeStats allEmployees strategy date).
Proof.
  intros Hnd. split; [|split].
  - unfold selectEmployeesWithFairness.
    destruct (length availableEmployees <=? requiredCount)%nat; [by split|].
    apply drawnFrom_take_Permutation; [done|]. apply ranking_Permutation.
  - by apply getBestEmployeeSelection_drawn.
  - unfold Earlier.selectEmployeesWithFairness.
    destruct (length availableEmployees <=? requiredCount)%nat; [by split|].
    cbv zeta.
    set (underScheduled := Earlier.getUnderScheduledEmployees employeeStats allEmployees).
    set (availableUnderScheduled := List.filter (includes underScheduled) availableEmployees).
    assert (NoDup availableUnderScheduled) as Hnd1 by (by apply NoDup_List_filter).
    set (selected :=
           if (0 <? length availableUnderScheduled)%nat
           then Earlier.getBestEmployeeSelection localeCompare availableUnderScheduled
                  shiftType (Nat.min (length availableUnderScheduled) requiredCount)
                  employeeStats strategy date
           else []).
    assert (drawnFrom availableEmployees selected) as [Hsel1 Hsel2].
    { subst selected. destruct (0 <? length availableUnderScheduled)%nat.
      - destruct (getBestEmployeeSelection_drawn localeCompare availableUnderScheduled
                    shiftType (Nat.min (length availableUnderScheduled) requiredCount)
                    employeeStats strategy date Hnd1) as [H1 H2].
        split; [done|]. intros emp Hin%H2.
        subst availableUnderScheduled. by apply filter_In in Hin as [Hin _].
      - split; [constructor|]. by intros emp []. }
    destruct (length selected <? requiredCount)%nat; [|by split].
    set (remainingAvailable :=
           List.filter (λ emp, negb (includes selected emp)) availableEmployees).
    destruct (0 <? length remainingAvailable)%nat; [|by split].
    assert (NoDup remainingAvailable) as Hnd2 by (by apply NoDup_List_filter).
    destruct (getBestEmployeeSelection_drawn localeCompare remainingAvailable shiftType
                (requiredCount - length selected) employeeStats strategy date Hnd2)
      as [Hrem1 Hrem2].
    split.
    + apply NoDup_app. split; [done|]. split; [|done].
      intros emp Hin%list_elem_of_In Hin'%list_elem_of_In%Hrem2.
      subst remainingAvailable. apply filter_In in Hin' as [_ Hnot].
      apply negb_true_iff in Hnot. apply includes_In in Hin. congruence.
    + intros emp [Hin|Hin%Hrem2]%in_app_or; [by apply Hsel2|].
      subst remainingAvailable. by apply filter_In in Hin as [Hin _].
Qed.

Lemma selection_drawn_from_pool_witness :
  NoDup ["C"; "A"; "B"] ∧
  drawnFrom ["C"; "A"; "B"]
    (selectEmployeesWithFairness ["C"; "A"; "B"] "day" 2 sampleStats ["A"; "B"; "C"]
       "balanced" None) ∧
  drawnFrom ["C"; "A"; "B"]
    (Earlier.getBestEmployeeSelection JSString.compare ["C"; "A"; "B"] "day" 2
       sampleStats "balanced" None) ∧
  drawnFrom ["C"; "A"; "B"]
    (Earlier.selectEmployeesWithFairness JSString.compare ["C"; "A"; "B"] "day" 2
       sampleStats ["A"; "B"; "C"] "balanced" None).
Proof.
  assert (NoDup ["C"; "A"; "B"]) as Hnd
    by (apply (bool_decide_unpack _); vm_compute; exact I).
  split; [exact Hnd|].
  exact (selection_drawn_from_pool JSString.compare ["C"; "A"; "B"] "day" 2 sampleStats
           ["A"; "B"; "C"] "balanced" None Hnd).
Defined.

(** ** One highlight per conflict *)

(** X15: the two system-wide checks issue exactly one highlight for every
    conflict they count. *)
Theorem system_checks_one_highlight_per_conflict (ctx : Context) :
  length (highlights (checkEmployeeAvailability ctx)) =
    conflictCount (checkEmployeeAvailability ctx) ∧
  length (highlights (runOf (checkDuplicateAssignment ctx))) =
    conflictCount (runOf (checkDuplicateAssignment ctx)).
Proof.
  set (P := λ st : Run, length (highlights st) = conflictCount st).
  assert (∀ date reason st, P st → P (highlightConflict date reason (countConflict st)))
    as Hadd.
  { intros date reason st Hst. unfold P in *.
    cbn [highlightConflict countConflict highlights conflictCount].
    rewrite length_app. cbn [length]. lia. }
  split.
  - unfold checkEmployeeAvailability.
    destruct (employeeAvailability ctx) as [availability|]; [|done].
    apply (for_days_ind P); [done|].
    intros day st _ Hst. rewrite availabilityStep_fold.
    generalize (shiftsOn (scheduleData ctx)
                  (formatDate (JSDate.make (year ctx) (month ctx) day))).
    intros shifts. revert st Hst.
    induction shifts as [|s shifts IH]; intros st Hst; cbn [fold_left]; [done|].
    apply IH. unfold availabilityTurn. destruct (_ && _); [by apply Hadd|done].
  - unfold checkDuplicateAssignment.
    apply (for_days_ind (λ outcome, P (runOf outcome))); [done|].
    intros day [st|st] _ Hst; cbn [andThen runOf] in *; [|done].
    rewrite duplicateStep_fold.
    destruct (plainNames (shiftsOfDay ctx day)); cbn [runOf]; [|done].
    unfold duplicateReport.
    generalize (JSArray.entries (fold_left groupTurn (shiftsOfDay ctx day) [])).
    intros l. revert st Hst.
    induction l as [|[emp empShifts] l IH]; intros st Hst; cbn [fold_left]; [done|].
    apply IH. unfold duplicateTurn.
    destruct (1 <? length empShifts)%nat; [by apply Hadd|done].
Qed.

(** ** The validation run as a whole *)

(** What an employee rule contributes: the count of the check that its
    tag names, and nothing for any other tag. *)
Definition employeeRuleCount (zone : JSTime.Zone) (ctx : Context) (rule : Rule.t) : nat :=
  let tag := Rule.type rule in
  if String.eqb tag "maxConsecutiveWorkDays"
  then conflictCount (checkMaxConsecutiveWorkDays zone ctx rule)
  else if String.eqb tag "no24HourShift" then conflictCount (checkNo24HourShift ctx rule)
  else if String.eqb tag "noDirectShiftTransition"
  then conflictCount (checkNoDirectShiftTransition ctx rule)
  else if String.eqb tag "balanceShifts" then conflictCount (checkShiftBalance ctx rule)
  else 0.

(** What a shift rule contributes. *)
Definition shiftRuleCount (ctx : Context) (rule : Rule.t) : nat :=
  if String.eqb (Rule.type rule) "minStaff" then conflictCount (checkMinStaff ctx rule)
  else 0.

Lemma applyRule_employee zone ctx tally rule n :
  JSObject.inherited (Rule.type rule) = false →
  total tally = JSValue.Number n →
  ∃ tally', applyRule (employeeRuleHandlers zone) ctx tally rule = Normal tally' ∧
            total tally' = JSValue.Number (n + employeeRuleCount zone ctx rule).
Proof.
  intros Hplain Htotal.
  unfold applyRule, handlerOf, JSObject.get, employeeRuleHandlers, employeeRuleCount.
  cbv zeta. cbn [List.find fst snd].
  rewrite (String.eqb_sym "maxConsecutiveWorkDays"), (String.eqb_sym "no24HourShift"),
    (String.eqb_sym "noDirectShiftTransition"), (String.eqb_sym "balanceShifts").
  repeat match goal with
         | |- context [if String.eqb (Rule.type rule) ?tag then _ else _] =>
             destruct (String.eqb (Rule.type rule) tag);
               [eexists; split; [reflexivity|];
                unfold addRun; cbn [total]; rewrite Htotal; reflexivity|]
         end.
  rewrite Hplain. eexists. split; [reflexivity|]. rewrite Htotal. f_equal. lia.
Qed.

Lemma applyRule_shift ctx tally rule n :
  JSObject.inherited (Rule.type rule) = false →
  total tally = JSValue.Number n →
  ∃ tally', applyRule shiftRuleHandlers ctx tally rule = Normal tally' ∧
            total tally' = JSValue.Number (n + shiftRuleCount ctx rule).
Proof.
  intros Hplain Htotal.
  unfold applyRule, handlerOf, JSObject.get, shiftRuleHandlers, shiftRuleCount.
  cbn [List.find fst snd]. rewrite (String.eqb_sym "minStaff").
  destruct (String.eqb (Rule.type rule) "minStaff").
  - eexists. split; [reflexivity|]. unfold addRun. cbn [total]. rewrite Htotal. reflexivity.
  - rewrite Hplain. eexists. split; [reflexivity|]. rewrite Htotal. f_equal. lia.
Qed.

(** A [forEach] over rules whose turns each add a count. *)
Lemma forEachRule_sum registry ctx (count : Rule.t → nat) rules tally n :
  (∀ rule tally n, In rule (default [] rules) → total tally = JSValue.Number n →
     ∃ tally', applyRule registry ctx tally rule = Normal tally' ∧
               total tally' = JSValue.Number (n + count rule)) →
  total tally = JSValue.Number n →
  ∃ tally', forEachRule registry ctx rules (Normal tally) = Normal tally' ∧
            total tally' = JSValue.Number (n + list_sum (map count (default [] rules))).
Proof.
  unfold forEachRule. destruct rules as [rules|].
  2:{ change (default [] (@None (list Rule.t))) with (@nil Rule.t). intros _ Htotal. exists tally. split; [done|]. rewrite Htotal. f_equal.
      cbn [map]. unfold list_sum. cbn [fold_right]. lia. }
  change (default [] (Some rules)) with rules.
  revert tally n. induction rules as [|rule rules IH]; intros tally n Hstep Htotal.
  - exists tally. split; [done|]. rewrite Htotal. f_equal. cbn [map]. unfold list_sum. cbn [fold_right]. lia.
  - cbn [fold_left proceed].
    destruct (Hstep rule tally n (or_introl eq_refl) Htotal) as (tally1 & -> & Htotal1).
    destruct (IH tally1 (n + count rule)%nat) as (tally' & Hfold & Htotal'); [|done|].
    { intros r t k Hr. apply Hstep. by right. }
    exists tally'. split; [exact Hfold|]. rewrite Htotal'. f_equal.
    cbn [map]. unfold list_sum. cbn [fold_right]. lia.
Qed.

(** With plain names throughout the month the duplicate check returns. *)
Lemma checkDuplicateAssignment_returns ctx :
  (∀ day, 1 <= day <= daysInMonth (year ctx) (month ctx) →
     plainNames (shiftsOfDay ctx day) = true) →
  ∃ run, checkDuplicateAssignment ctx = Returned run.
Proof.
  intros Hplain. unfold checkDuplicateAssignment.
  apply (for_days_ind (λ outcome, ∃ run, outcome = Returned run)); [by eexists|].
  intros day outcome Hday [run ->]. cbn [andThen].
  rewrite duplicateStep_fold, Hplain by done. by eexists.
Qed.

(** X18: when no configured rule has a tag that names a member that every
    object inherits, and no working assignment of the month belongs to an
    employee with such a name, [validate] returns; [totalConflicts] is the
    number obtained by adding, for every employee rule and shift rule, the
    count of the check that its tag names (nothing for a tag without
    handler), and the counts of the two system-wide checks; [isValid]
    tells whether that number is 0. *)
Theorem validate_total_conflicts (zone : JSTime.Zone) (params : Params.t) :
  let ctx :=
    {| scheduleData := Params.scheduleData params;
       year := JSDate.getFullYear (Params.currentDate params);
       month := JSDate.getMonth (Params.currentDate params);
       shiftTypes := Params.shiftTypes params;
       employeeAvailability := Params.employeeAvailability params;
       holidayDates := Params.holidayDates params |} in
  let employeeRules := default [] (employeeRules (Params.schedulingConditions params)) in
  let shiftRules := default [] (shiftRules (Params.schedulingConditions params)) in
  (∀ rule, In rule (employeeRules ++ shiftRules) →
           JSObject.inherited (Rule.type rule) = false) →
  (∀ day, 1 <= day <= daysInMonth (year ctx) (month ctx) →
          plainNames (shiftsOfDay ctx day) = true) →
  let sum :=
    (list_sum (map (employeeRuleCount zone ctx) employeeRules) +
     list_sum (map (shiftRuleCount ctx) shiftRules) +
     conflictCount (checkEmployeeAvailability ctx) +
     conflictCount (runOf (checkDuplicateAssignment ctx)))%nat in
  result (validate zone params) =
    Some {| totalConflicts := JSValue.Number sum; isValid := bool_decide (sum = 0%nat) |}.
Proof.
  intros ctx eRules sRules Htags Hnames sum.
  unfold validate. cbv zeta. change (contextOf params) with ctx.
  destruct (forEachRule_sum (employeeRuleHandlers zone) ctx (employeeRuleCount zone ctx)
              (employeeRules (Params.schedulingConditions params))
              {| total := JSValue.Number 0; shown := [] |} 0%nat)
    as (tally1 & -> & Htotal1); [|done|].
  { intros rule tally n Hin. apply applyRule_employee, Htags, in_or_app. by left. }
  fold eRules in Htotal1.
  destruct (forEachRule_sum shiftRuleHandlers ctx (shiftRuleCount ctx)
              (shiftRules (Params.schedulingConditions params)) tally1
              (0 + list_sum (map (employeeRuleCount zone ctx) eRules))%nat)
    as (tally2 & -> & Htotal2); [|exact Htotal1|].
  { intros rule tally n Hin. apply applyRule_shift, Htags, in_or_app. by right. }
  fold eRules sRules in Htotal2.
  destruct (checkDuplicateAssignment_returns ctx Hnames) as [dup Hdup].
  unfold systemRuleHandlers. cbn [fold_left snd].
  cbv beta delta [proceed applySystem] iota. rewrite Hdup. cbn [result].
  unfold addRun. cbn [total]. rewrite Htotal2.
  cbn [JSValue.plus JSValue.toPrimitive JSValue.is_text orb JSValue.toNumber].
  match goal with
  | |- Some {| totalConflicts := JSValue.Number ?x; isValid := _ |} = _ =>
      replace x with sum by (subst sum; rewrite Hdup; cbn [runOf]; lia)
  end.
  f_equal. f_equal. destruct sum; [by rewrite bool_decide_true|by rewrite bool_decide_false].
Qed.

(** January 2024 with the schedule of [fourDayContext]: the limit of three
    days for A, an employee rule with an unknown tag, and a shift rule
    that wants one 'night' on every day. *)
Definition fourDayParams : Params.t :=
  {| Params.currentDate := JSDate.make 2024 0 15;
     Params.scheduleData := fourDaySchedule;
     Params.schedulingConditions :=
       {| employeeRules :=
            Some [ threeDayLimit;
                   {| Rule.type := "unknownRule"; Rule.employee := "A";
                      Rule.shift := "undefined"; Rule.value := "1" |} ];
          shiftRules :=
            Some [ {| Rule.type := "minStaff"; Rule.employee := "undefined";
                      Rule.shift := "night"; Rule.value := "1" |} ] |};
     Params.shiftTypes := {[ "night" := "夜班" ]};
     Params.employeeAvailability := None;
     Params.holidayDates := None |}.

Lemma validate_total_conflicts_witness :
  (∀ rule,
     In rule (default [] (employeeRules (Params.schedulingConditions fourDayParams)) ++
              default [] (shiftRules (Params.schedulingConditions fourDayParams))) →
     JSObject.inherited (Rule.type rule) = false) ∧
  (∀ day, 1 <= day <= daysInMonth 2024 0 →
          plainNames (shiftsOfDay fourDayContext day) = true) ∧
  result (validate JSTime.taipei fourDayParams) =
    Some {| totalConflicts := JSValue.Number 30; isValid := false |}.
Proof.
  assert (∀ rule,
            In rule (default [] (employeeRules (Params.schedulingConditions fourDayParams))
                     ++ default [] (shiftRules (Params.schedulingConditions fourDayParams))) →
            JSObject.inherited (Rule.type rule) = false) as Htags.
  { intros rule [<-|[<-|[<-|[]]]]; vm_compute; reflexivity. }
  assert (∀ day, 1 <= day <= daysInMonth 2024 0 →
                 plainNames (shiftsOfDay fourDayContext day) = true) as Hnames.
  { intros day Hday. change (daysInMonth 2024 0) with 31 in Hday.
    assert (all_from 31 1 (λ x, plainNames (shiftsOfDay fourDayContext x)) = true)
      as Hall by (vm_compute; reflexivity).
    exact (all_from_spec 31 1 _ Hall day ltac:(lia)). }
  split; [exact Htags|]. split; [exact Hnames|].
  rewrite (validate_total_conflicts JSTime.taipei fourDayParams Htags Hnames).
  vm_compute. reflexivity.
Defined.

(** ** The 'minimize_night' strategy of the earlier revision *)

Lemma StronglySorted_app_le {A : Type} (R : A → A → Prop) (l1 l2 : list A) :
  StronglySorted R (l1 ++ l2) → ∀ a b, In a l1 → In b l2 → R a b.
Proof.
  induction l1 as [|x l1 IH]; intros Hs a b Ha Hb; [destruct Ha|].
  cbn [app] in Hs. apply StronglySorted_inv in Hs as [Hs Hall].
  destruct Ha as [->|Ha]; [|by apply IH].
  rewrite Forall_forall in Hall. apply Hall.
  apply list_elem_of_In, in_or_app. by right.
Qed.

(** X16: under 'minimize_night' with a pool larger than the headcount,
    and when no employee of the pool without statistics has the name of a
    member that every object inherits, [getBestEmployeeSelection] picks
    employees with the fewest night shifts when filling 'night' and with
    the fewest day shifts otherwise: every employee left out has at least
    as many as every one selected. *)
Theorem getBestEmployeeSelection_minimize_night (localeCompare : string → string → Z)
    (availableEmployees : list string) (shiftType : string) (requiredCount : nat)
    (employeeStats : gmap string EmployeeStats) (date : option JSDate.t) :
  (requiredCount < length availableEmployees)%nat →
  (∀ a, In a availableEmployees → employeeStats !! a = None →
        JSObject.inherited a = false) →
  let key emp :=
    if String.eqb shiftType "night"
    then nightShiftsOf employeeStats emp
    else dayShiftsOf employeeStats emp in
  let selected :=
    Earlier.getBestEmployeeSelection localeCompare availableEmployees shiftType
      requiredCount employeeStats "minimize_night" date in
  length selected = requiredCount ∧
  ∃ leftOut,
    Permutation (selected ++ leftOut) availableEmployees ∧
    ∀ a b, In a selected → In b leftOut → key a <= key b.
Proof.
  intros Hlen Hplain key selected. subst selected.
  unfold Earlier.getBestEmployeeSelection, Earlier.rank.
  destruct (Nat.leb_spec (length availableEmployees) requiredCount); [lia|].
  cbn [String.eqb Ascii.eqb Bool.eqb].
  set (cmp := if String.eqb shiftType "night"
              then Earlier.fewestNightsCompare employeeStats
              else Earlier.fewestDaysCompare employeeStats).
  assert ((if String.eqb shiftType "night"
           then JSArray.sort (Earlier.fewestNightsCompare employeeStats) availableEmployees
           else JSArray.sort (Earlier.fewestDaysCompare employeeStats) availableEmployees)
          = JSArray.sort cmp availableEmployees) as ->
    by (subst cmp; by destruct (String.eqb shiftType "night")).
  set (numbers := λ a, employeeStats !! a = None → JSObject.inherited a = false).
  split.
  - rewrite length_take, length_sort. lia.
  - exists (drop requiredCount (JSArray.sort cmp availableEmployees)). split.
    + rewrite take_drop. apply sort_Permutation.
    + apply StronglySorted_app_le. rewrite take_drop.
      apply (sort_StronglySorted_on _ numbers).
      * intros a b c. lia.
      * intros a b Ha Hb. subst cmp key. cbv beta.
        destruct (String.eqb shiftType "night");
          [rewrite fewestNightsCompare_numbers by done
          |rewrite fewestDaysCompare_numbers by done];
          match goal with |- context [negb (?x =? ?y)] => destruct (Z.eqb_spec x y) end;
          cbn [negb]; lia.
      * intros a b Ha Hb. subst cmp key. cbv beta.
        destruct (String.eqb shiftType "night");
          [rewrite fewestNightsCompare_numbers by done
          |rewrite fewestDaysCompare_numbers by done];
          match goal with |- context [negb (?x =? ?y)] => destruct (Z.eqb_spec x y) end;
          cbn [negb]; lia.
      * intros a Ha. subst numbers. cbv beta. by apply Hplain.
Qed.

Lemma getBestEmployeeSelection_minimize_night_witness :
  (1 < length ["C"; "A"; "B"])%nat ∧
  (∀ a, In a ["C"; "A"; "B"] → sampleStats !! a = None → JSObject.inherited a = false) ∧
  length (Earlier.getBestEmployeeSelection JSString.compare ["C"; "A"; "B"] "night" 1
            sampleStats "minimize_night" None) = 1%nat ∧
  ∃ leftOut,
    Permutation
      (Earlier.getBestEmployeeSelection JSString.compare ["C"; "A"; "B"] "night" 1
         sampleStats "minimize_night" None ++ leftOut) ["C"; "A"; "B"] ∧
    ∀ a b,
      In a (Earlier.getBestEmployeeSelection JSString.compare ["C"; "A"; "B"] "night" 1
              sampleStats "minimize_night" None) →
      In b leftOut →
      nightShiftsOf sampleStats a <= nightShiftsOf sampleStats b.
Proof.
  assert (1 < length ["C"; "A"; "B"])%nat as Hlen by (cbn [length]; lia).
  split; [exact Hlen|]. split; [exact sampleStats_numbers|].
  exact (getBestEmployeeSelection_minimize_night JSString.compare ["C"; "A"; "B"] "night" 1
           sampleStats None Hlen sampleStats_numbers).
Defined.

(** ** The earlier revision's 24-hour check *)

Module EarlierRules.

(** [shifts.some(s => s.employee === employee && s.shift === kind)]. *)
Definition hasShift (emp kind : string) (shifts : list Assignment) : bool :=
  existsb (λ s, String.eqb (employee s) emp && String.eqb (shift s) kind) shifts.

Definition turnaroundReason (emp prevDateStr currentDateStr : string) : string :=
  emp +:+ " 夜班後隔天排白班 (" +:+ prevDateStr +:+ " 夜班 → " +:+ currentDateStr +:+ " 白班)".

Definition crossMonthReason (emp lastDayPrevMonthStr firstDayStr : string) : string :=
  emp +:+ " 跨月24小時工作 (" +:+ lastDayPrevMonthStr +:+ " 夜班 → " +:+ firstDayStr +:+ " 白班)".

Definition turnaroundStep (ctx : Context) (emp : string) (day : Z) (run : Run) : Run :=
  let currentDate := JSDate.make (year ctx) (month ctx) day in
  let prevDate := JSDate.make (year ctx) (month ctx) (day - 1) in
  let currentDateStr := formatDate currentDate in
  let prevDateStr := formatDate prevDate in
  let todayShifts := shiftsOn (scheduleData ctx) currentDateStr in
  let prevDayShifts := shiftsOn (scheduleData ctx) prevDateStr in
  let hadNightShift := hasShift emp "night" prevDayShifts in
  let hasDayShift := hasShift emp "day" todayShifts in
  if hadNightShift && hasDayShift then
    highlightConflict prevDateStr (turnaroundMarker emp)
      (highlightConflict currentDateStr (turnaroundReason emp prevDateStr currentDateStr)
         (countConflict run))
  else run.

(** The additional cross-month block; [currentYear] is
    [new Date().getFullYear()] at the time of the run. *)
Definition crossMonthCheck (currentYear : Z) (ctx : Context) (emp : string) (run : Run) : Run :=
  if (0 <? month ctx) || (currentYear - 1 <? year ctx) then
    let firstDay := JSDate.make (year ctx) (month ctx) 1 in
    let lastDayPrevMonth := JSDate.make (year ctx) (month ctx) 0 in
    let firstDayStr := formatDate firstDay in
    let lastDayPrevMonthStr := formatDate lastDayPrevMonth in
    let firstDayShifts := shiftsOn (scheduleData ctx) firstDayStr in
    let lastDayPrevMonthShifts := shiftsOn (scheduleData ctx) lastDayPrevMonthStr in
    let hadNightShiftPrevMonth := hasShift emp "night" lastDayPrevMonthShifts in
    let hasDayShiftFirstDay := hasShift emp "day" firstDayShifts in
    if hadNightShiftPrevMonth && hasDayShiftFirstDay then
      highlightConflict firstDayStr
        (crossMonthReason emp lastDayPrevMonthStr firstDayStr) (countConflict run)
    else run
  else run.

Definition checkNo24HourShift (currentYear : Z) (ctx : Context) (rule : Rule.t) : Run :=
  let emp := Rule.employee rule in
  crossMonthCheck currentYear ctx emp
    (for_days (daysInMonth (year ctx) (month ctx)) (turnaroundStep ctx emp) no_conflicts).

End EarlierRules.

Lemma hasShiftOf_hasShift emp kind shifts :
  hasShiftOf emp [kind] shifts = EarlierRules.hasShift emp kind shifts.
Proof. apply hasShiftOf_single. Qed.

Lemma fold_days_count_eq (body1 body2 : Z → Run → Run) (days : list Z) (s1 s2 : Run) :
  (∀ day st1 st2, conflictCount st1 = conflictCount st2 →
                  conflictCount (body1 day st1) = conflictCount (body2 day st2)) →
  conflictCount s1 = conflictCount s2 →
  conflictCount (fold_left (λ acc day, body1 day acc) days s1) =
  conflictCount (fold_left (λ acc day, body2 day acc) days s2).
Proof.
  intros Hstep. revert s1 s2.
  induction days as [|day days IH]; intros s1 s2 Hs; cbn [fold_left]; [done|].
  by apply IH, Hstep.
Qed.

(** X17: without a holiday calendar, the earlier revision's 24-hour check
    counts what the later revision counts, plus one more when its
    cross-month block applies (month after January, or a year not before
    the current one) and the employee went from a night on the last day
    of the previous month to a day shift on day 1; that turnaround is then
    counted twice, since the loop's first turn has counted it already. *)
Theorem earlier_checkNo24HourShift_double_count (currentYear : Z) (ctx : Context)
    (rule : Rule.t) :
  holidayDates ctx = None →
  1 <= daysInMonth (year ctx) (month ctx) →
  let emp := Rule.employee rule in
  let crossing :=
    EarlierRules.hasShift emp "night"
      (shiftsOn (scheduleData ctx) (formatDate (JSDate.make (year ctx) (month ctx) 0)))
    && EarlierRules.hasShift emp "day"
         (shiftsOn (scheduleData ctx) (formatDate (JSDate.make (year ctx) (month ctx) 1))) in
  let applies := (0 <? month ctx) || (currentYear - 1 <? year ctx) in
  let extra := if applies && crossing then 1%nat else 0%nat in
  conflictCount (EarlierRules.checkNo24HourShift currentYear ctx rule) =
    (conflictCount (checkNo24HourShift ctx rule) + extra)%nat ∧
  (crossing = true → (1 ≤ conflictCount (checkNo24HourShift ctx rule))%nat) ∧
  (applies && crossing = true →
   (2 ≤ conflictCount (EarlierRules.checkNo24HourShift currentYear ctx rule))%nat).
Proof.
  intros Hnone Hdays emp crossing applies extra.
  assert (conflictCount
            (for_days (daysInMonth (year ctx) (month ctx))
               (EarlierRules.turnaroundStep ctx emp) no_conflicts) =
          conflictCount (checkNo24HourShift ctx rule)) as Hloop.
  { unfold checkNo24HourShift, for_days. fold emp.
    apply fold_days_count_eq; [|done].
    intros day st1 st2 Hst. unfold EarlierRules.turnaroundStep, turnaroundStep.
    cbv zeta. rewrite Hnone. cbn [isHoliday nightClass dayClass].
    rewrite !hasShiftOf_hasShift.
    match goal with |- context [if ?c then _ else _] => destruct c end;
      cbn [highlightConflict countConflict conflictCount highlights]; lia. }
  assert (conflictCount (EarlierRules.checkNo24HourShift currentYear ctx rule) =
          (conflictCount (checkNo24HourShift ctx rule) + extra)%nat) as Hcount.
  { unfold EarlierRules.checkNo24HourShift, EarlierRules.crossMonthCheck.
    fold emp. cbv zeta. fold applies. fold crossing. subst extra.
    destruct applies; cbn [andb]; [|rewrite Hloop; lia].
    destruct crossing; cbn [highlightConflict countConflict conflictCount];
      rewrite Hloop; lia. }
  assert (crossing = true → (1 ≤ conflictCount (checkNo24HourShift ctx rule))%nat)
    as Hfirst.
  { intros Hcross. unfold checkNo24HourShift. fold emp.
    apply (for_days_reaches (λ st, (1 ≤ conflictCount st)%nat) _ _ _ 1); [lia| |].
    - intros st. unfold turnaroundStep. cbv zeta.
      rewrite Hnone. cbn [isHoliday nightClass dayClass].
      rewrite !hasShiftOf_hasShift. change (1 - 1) with 0.
      fold crossing. rewrite Hcross.
      cbn [highlightConflict countConflict conflictCount]. lia.
    - intros day st _ Hst. unfold turnaroundStep. cbv zeta.
      match goal with |- context [if ?c then _ else _] => destruct c end;
        cbn [highlightConflict countConflict conflictCount]; lia. }
  split; [exact Hcount|]. split; [exact Hfirst|].
  intros Hboth. rewrite Hcount. subst extra. rewrite Hboth.
  apply andb_prop in Hboth as [_ Hcross]. specialize (Hfirst Hcross). lia.
Qed.

(** A night on 31 December 2023 followed by a day shift on 1 January. *)
Definition newYearSchedule : gmap string (list Assignment) :=
  list_to_map
    [ ("2023-12-31", [ {| employee := "A"; shift := "night" |} ]);
      ("2024-01-01", [ {| employee := "A"; shift := "day" |} ]) ].

Definition newYearContext : Context :=
  {| scheduleData := newYearSchedule; year := 2024; month := 0;
     shiftTypes := ∅; employeeAvailability := None; holidayDates := None |}.

Lemma earlier_checkNo24HourShift_double_count_witness :
  holidayDates newYearContext = None ∧
  1 <= daysInMonth (year newYearContext) (month newYearContext) ∧
  conflictCount (EarlierRules.checkNo24HourShift 2024 newYearContext turnaroundRule) = 2%nat ∧
  conflictCount (checkNo24HourShift newYearContext turnaroundRule) = 1%nat.
Proof.
  assert (1 <= daysInMonth (year newYearContext) (month newYearContext)) as Hdays
    by (vm_compute; discriminate).
  split; [reflexivity|]. split; [exact Hdays|].
  destruct (earlier_checkNo24HourShift_double_count 2024 newYearContext turnaroundRule
              eq_refl Hdays) as (Hcount & _ & _).
  split; [rewrite Hcount|]; vm_compute; reflexivity.
Defined.

(** ** Fairness of the selection *)

(** Whether the [totalShifts] of [a], 0 without an entry, lie below the
    mean of the [totalShifts] of the roster [allEmployees]. *)
Definition belowMean (employeeStats : gmap string EmployeeStats) (allEmployees : list string)
    (a : string) : bool :=
  totalShiftsOf employeeStats a * Z.of_nat (length allEmployees) <?
  foldr Z.add 0 (map (totalShiftsOf employeeStats) allEmployees).

(** The selection in two phases, as C5 words it: the slots are filled
    from the members of the pool that are [below], in the order of
    [rank]; slots that remain go to the other members, in the order of
    [rank]. *)
Definition twoPhaseSelection (rank : list string → list string) (below : string → bool)
    (availableEmployees : list string) (requiredCount : nat) : list string :=
  let first := take requiredCount (rank (List.filter below availableEmployees)) in
  first ++
  take (requiredCount - length first)
    (rank (List.filter (λ a, negb (below a)) availableEmployees)).

Definition unevenStats : gmap string EmployeeStats :=
  list_to_map
    [ ("A", {| totalShifts := 0; dayShifts := 0; nightShifts := 0 |});
      ("B", {| totalShifts := 5; dayShifts := 5; nightShifts := 0 |});
      ("C", {| totalShifts := 5; dayShifts := 5; nightShifts := 0 |}) ].

Definition nightStats : gmap string EmployeeStats :=
  list_to_map
    [ ("A", {| totalShifts := 1; dayShifts := 0; nightShifts := 1 |});
      ("B", {| totalShifts := 5; dayShifts := 5; nightShifts := 0 |}) ].

(** C5, as stated, fails for the later revision.  With the roster A, B, C
    of 0, 5 and 5 shifts, only A is below the mean; for one slot on the
    first day of a month the 'rotate' strategy nevertheless returns B.
    With A (one shift, at night) and B (five shifts, none at night), A is
    below the mean; for one night slot 'minimize_night' returns B. *)
Lemma selectEmployeesWithFairness_not_two_phase :
  (List.filter (belowMean unevenStats ["A"; "B"; "C"]) ["A"; "B"; "C"] = ["A"] ∧
   twoPhaseSelection (ranking "day" unevenStats "rotate" (Some (JSDate.make 2024 0 1)))
     (belowMean unevenStats ["A"; "B"; "C"]) ["A"; "B"; "C"] 1 = ["A"] ∧
   selectEmployeesWithFairness ["A"; "B"; "C"] "day" 1 unevenStats ["A"; "B"; "C"]
     "rotate" (Some (JSDate.make 2024 0 1)) = ["B"]) ∧
  (List.filter (belowMean nightStats ["A"; "B"]) ["A"; "B"] = ["A"] ∧
   twoPhaseSelection (ranking "night" nightStats "minimize_night" None)
     (belowMean nightStats ["A"; "B"]) ["A"; "B"] 1 = ["A"] ∧
   selectEmployeesWithFairness ["A"; "B"] "night" 1 nightStats ["A"; "B"]
     "minimize_night" None = ["B"]).
Proof. repeat split; vm_compute; reflexivity. Qed.

(** Inserting into a list that is followed by larger elements. *)
Lemma insert_sorted_app_l {A : Type} (cmp : A → A → Z) (x : A) (l1 l2 : list A) :
  (∀ y, In y l2 → cmp x y <= 0) →
  JSArray.insert_sorted cmp x (l1 ++ l2) = JSArray.insert_sorted cmp x l1 ++ l2.
Proof.
  intros Hl2. induction l1 as [|z l1 IH]; cbn [JSArray.insert_sorted app].
  - destruct l2 as [|y l2]; [done|]. cbn [JSArray.insert_sorted].
    destruct (Z.leb_spec (cmp x y) 0) as [_|Hc]; [done|].
    specialize (Hl2 y (or_introl eq_refl)). lia.
  - destruct (cmp x z <=? 0); [done|]. by rewrite IH.
Qed.

(** Inserting into a list that begins with smaller elements. *)
Lemma insert_sorted_app_r {A : Type} (cmp : A → A → Z) (x : A) (l1 l2 : list A) :
  (∀ y, In y l1 → 0 < cmp x y) →
  JSArray.insert_sorted cmp x (l1 ++ l2) = l1 ++ JSArray.insert_sorted cmp x l2.
Proof.
  intros Hl1. induction l1 as [|z l1 IH]; cbn [JSArray.insert_sorted app]; [done|].
  destruct (Z.leb_spec (cmp x z) 0) as [Hc|_].
  - specialize (Hl1 z (or_introl eq_refl)). lia.
  - rewrite IH; [done|]. intros y Hy. apply Hl1. by right.
Qed.

(** Sorting by a key is sorting those below a threshold and, after
    them, the others. *)
Lemma sort_split {A : Type} (key : A → Z) (below : A → bool) (l : list A) :
  (∀ a b, below a = true → below b = false → key a < key b) →
  JSArray.sort (λ a b, key a - key b) l =
  JSArray.sort (λ a b, key a - key b) (List.filter below l) ++
  JSArray.sort (λ a b, key a - key b) (List.filter (λ a, negb (below a)) l).
Proof.
  intros Hbelow. unfold JSArray.sort.
  induction l as [|x l IH]; cbn [foldr List.filter]; [done|].
  rewrite IH. destruct (below x) eqn:Hx; cbn [negb foldr].
  - apply insert_sorted_app_l. intros y Hy.
    apply (proj1 (In_sort (λ a b, key a - key b) y _)) in Hy.
    apply filter_In in Hy as [_ Hy].
    apply negb_true_iff in Hy. specialize (Hbelow x y Hx Hy). cbv beta. lia.
  - apply insert_sorted_app_r. intros y Hy.
    apply (proj1 (In_sort (λ a b, key a - key b) y _)) in Hy.
    apply filter_In in Hy as [_ Hy].
    specialize (Hbelow y x Hy Hx). cbv beta. lia.
Qed.

Lemma belowMean_threshold employeeStats allEmployees a b :
  belowMean employeeStats allEmployees a = true →
  belowMean employeeStats allEmployees b = false →
  totalShiftsOf employeeStats a < totalShiftsOf employeeStats b.
Proof.
  unfold belowMean. intros Ha%Z.ltb_lt Hb%Z.ltb_ge. nia.
Qed.

Lemma ranking_by_total shiftType employeeStats strategy date l :
  strategy ≠ "minimize_night" → strategy ≠ "rotate" →
  ranking shiftType employeeStats strategy date l =
  JSArray.sort (λ a b, totalShiftsOf employeeStats a - totalShiftsOf employeeStats b) l.
Proof.
  intros Hnight Hrotate. unfold ranking.
  destruct (String.eqb strategy "balanced"); [done|].
  destruct (String.eqb_spec strategy "minimize_night"); [done|].
  by destruct (String.eqb_spec strategy "rotate").
Qed.

Lemma take_two_phase {A : Type} (n : nat) (l1 l2 : list A) :
  take n (l1 ++ l2) = take n l1 ++ take (n - length (take n l1)) l2.
Proof.
  rewrite take_app. f_equal. rewrite length_take.
  destruct (Nat.le_gt_cases n (length l1)) as [Hle|Hgt].
  - replace (n - length l1)%nat with 0%nat by lia.
    by replace (n - n `min` length l1)%nat with 0%nat by lia.
  - f_equal. lia.
Qed.

(** The members of the pool that the earlier revision takes as
    under-scheduled, and the others. *)
Lemma remaining_after_all underScheduled (availableEmployees : list string) :
  let availableUnderScheduled := List.filter (includes underScheduled) availableEmployees in
  List.filter (λ emp, negb (includes availableUnderScheduled emp)) availableEmployees =
  List.filter (λ emp, negb (includes underScheduled emp)) availableEmployees.
Proof.
  intros availableUnderScheduled. apply filter_ext_in. intros emp Hemp. f_equal.
  apply eq_true_iff_eq. rewrite !includes_In. subst availableUnderScheduled.
  rewrite filter_In, includes_In. tauto.
Qed.

Lemma length_rank localeCompare shiftType employeeStats strategy date l :
  length (Earlier.rank localeCompare shiftType employeeStats strategy date l) = length l.
Proof. apply Permutation_length, rank_Permutation. Qed.

Lemma length_ranking shiftType employeeStats strategy date l :
  length (ranking shiftType employeeStats strategy date l) = length l.
Proof. apply Permutation_length, ranking_Permutation. Qed.

(** The earlier revision's selection from a pool larger than the
    headcount, in closed form. *)
Lemma earlier_selection_phases localeCompare availableEmployees shiftType requiredCount
    employeeStats allEmployees strategy date :
  (requiredCount < length availableEmployees)%nat →
  let underScheduled := Earlier.getUnderScheduledEmployees employeeStats allEmployees in
  let prior := List.filter (includes underScheduled) availableEmployees in
  let others := List.filter (λ emp, negb (includes underScheduled emp)) availableEmployees in
  let rank := Earlier.rank localeCompare shiftType employeeStats strategy date in
  Earlier.selectEmployeesWithFairness localeCompare availableEmployees shiftType
    requiredCount employeeStats allEmployees strategy date =
  (if (length prior <=? requiredCount)%nat then prior else take requiredCount (rank prior))
  ++ take (requiredCount - length prior) (rank others).
Proof.
  intros Hmore underScheduled prior others rank.
  assert (∀ l, length (rank l) = length l) as Hrank by (intros l; apply length_rank).
  pose proof (filter_length (includes underScheduled) availableEmployees) as Hparts.
  fold prior others in Hparts.
  unfold Earlier.selectEmployeesWithFairness.
  destruct (Nat.leb_spec (length availableEmployees) requiredCount) as [Hle|_]; [lia|].
  cbv zeta. fold underScheduled. fold prior.
  unfold Earlier.getBestEmployeeSelection. fold rank.
  destruct (Nat.ltb_spec 0 (length prior)) as [Hsome|Hnone].
  - destruct (Nat.leb_spec (length prior) (length prior `min` requiredCount)) as [Hfit|Hcut].
    + (* every under-scheduled member of the pool is taken *)
      destruct (Nat.leb_spec (length prior) requiredCount) as [_|Hgt]; [|lia].
      destruct (Nat.ltb_spec (length prior) requiredCount) as [Hlt|Hfull].
      * pose proof (remaining_after_all underScheduled availableEmployees)
          as Hrest. cbv zeta in Hrest. fold prior others in Hrest. rewrite Hrest.
        destruct (Nat.ltb_spec 0 (length others)) as [_|Hempty]; [|lia].
        destruct (Nat.leb_spec (length others) (requiredCount - length prior)) as [Hno|_];
          [lia|done].
      * replace (requiredCount - length prior)%nat with 0%nat by lia.
        by rewrite take_0, app_nil_r.
    + destruct (Nat.leb_spec (length prior) requiredCount) as [Hfit|_]; [lia|].
      replace (length prior `min` requiredCount)%nat with requiredCount by lia.
      rewrite length_take, Hrank.
      destruct (Nat.ltb_spec (requiredCount `min` length prior) requiredCount) as [Hlt|_];
        [lia|].
      replace (requiredCount - length prior)%nat with 0%nat by lia.
      by rewrite take_0, app_nil_r.
  - assert (prior = []) as Hprior by (destruct prior; [done|simpl in Hnone; lia]).
    rewrite Hprior in *. cbn [length] in *.
    destruct (Nat.ltb_spec 0 requiredCount) as [Hpos|Hzero].
    + assert (List.filter (λ emp, negb (includes [] emp)) availableEmployees = others)
        as Hrest.
      { pose proof (remaining_after_all underScheduled availableEmployees)
          as Hrest. cbv zeta in Hrest. fold prior others in Hrest.
        rewrite Hprior in Hrest. exact Hrest. }
      rewrite Hrest.
      destruct (Nat.ltb_spec 0 (length others)) as [_|Hempty]; [|lia].
      destruct (Nat.leb_spec (length others) (requiredCount - 0)) as [Hno|_]; [lia|].
      destruct (Nat.leb_spec 0 requiredCount) as [_|Hneg]; [|lia]. done.
    + replace requiredCount with 0%nat by lia.
      destruct (0 <=? 0)%nat; by rewrite ?take_0.
Qed.

(** C5 (amended): both revisions of [selectEmployeesWithFairness] return
    exactly min(|available|, requiredCount) employees.  Whenever
    |available| > requiredCount, the later revision returns the first
    requiredCount of the available employees as ranked by the chosen
    strategy, whatever the roster; under 'balanced', and under any
    strategy other than 'minimize_night' and 'rotate', this is the same as
    filling the slots first from the available employees whose
    totalShifts lie below the mean totalShifts of the roster and then from
    the others, ranked alike.  The earlier revision first takes the
    available employees whom [getUnderScheduledEmployees] returns for the
    roster, all of them in the order of the pool if they fit and else the
    first requiredCount in the ranking of the chosen strategy, and fills
    slots that remain from the other available employees, ranked by the
    same strategy. *)
Theorem selectEmployeesWithFairness_spec (localeCompare : string → string → Z)
    (availableEmployees : list string) (shiftType : string) (requiredCount : nat)
    (employeeStats : gmap string EmployeeStats) (allEmployees : list string)
    (strategy : string) (date : option JSDate.t) :
  let result :=
    selectEmployeesWithFairness availableEmployees shiftType requiredCount employeeStats
      allEmployees strategy date in
  let earlier :=
    Earlier.selectEmployeesWithFairness localeCompare availableEmployees shiftType
      requiredCount employeeStats allEmployees strategy date in
  let rank := ranking shiftType employeeStats strategy date in
  length result = (length availableEmployees `min` requiredCount)%nat ∧
  length earlier = (length availableEmployees `min` requiredCount)%nat ∧
  ((requiredCount < length availableEmployees)%nat →
   result = take requiredCount (rank availableEmployees) ∧
   (∀ roster, selectEmployeesWithFairness availableEmployees shiftType requiredCount
                employeeStats roster strategy date = result) ∧
   (strategy ≠ "minimize_night" → strategy ≠ "rotate" →
    result = twoPhaseSelection rank (belowMean employeeStats allEmployees)
               availableEmployees requiredCount) ∧
   let underScheduled := Earlier.getUnderScheduledEmployees employeeStats allEmployees in
   let prior := List.filter (includes underScheduled) availableEmployees in
   let others :=
     List.filter (λ emp, negb (includes underScheduled emp)) availableEmployees in
   let earlierRank := Earlier.rank localeCompare shiftType employeeStats strategy date in
   earlier =
     (if (length prior <=? requiredCount)%nat then prior
      else take requiredCount (earlierRank prior))
     ++ take (requiredCount - length prior) (earlierRank others)).
Proof.
  intros result earlier rank.
  assert (length result = (length availableEmployees `min` requiredCount)%nat) as Hlater.
  { subst result. unfold selectEmployeesWithFairness.
    destruct (Nat.leb_spec (length availableEmployees) requiredCount) as [Hle|Hgt]; [lia|].
    rewrite length_take, length_ranking. lia. }
  assert (length earlier = (length availableEmployees `min` requiredCount)%nat) as Hearlier.
  { destruct (Nat.le_gt_cases (length availableEmployees) requiredCount) as [Hle|Hgt].
    - subst earlier. unfold Earlier.selectEmployeesWithFairness.
      destruct (Nat.leb_spec (length availableEmployees) requiredCount); lia.
    - subst earlier.
      rewrite (earlier_selection_phases localeCompare) by done. cbv zeta.
      set (underScheduled := Earlier.getUnderScheduledEmployees employeeStats allEmployees).
      pose proof (filter_length (includes underScheduled) availableEmployees) as Hparts.
      rewrite length_app, length_take, length_rank.
      destruct (Nat.leb_spec (length (List.filter (includes underScheduled)
                                        availableEmployees)) requiredCount).
      + lia.
      + rewrite length_take, length_rank. lia. }
  split; [exact Hlater|]. split; [exact Hearlier|].
  intros Hmore.
  assert (∀ roster, selectEmployeesWithFairness availableEmployees shiftType requiredCount
                      employeeStats roster strategy date =
                    take requiredCount (rank availableEmployees)) as Hany.
  { intros roster. unfold selectEmployeesWithFairness.
    destruct (Nat.leb_spec (length availableEmployees) requiredCount); [lia|done]. }
  split; [apply Hany|]. split; [intros roster; subst result; by rewrite !Hany|].
  split.
  - intros Hnight Hrotate. subst result. rewrite Hany.
    unfold twoPhaseSelection. subst rank.
    rewrite !ranking_by_total by done.
    rewrite (sort_split (totalShiftsOf employeeStats)
               (belowMean employeeStats allEmployees) availableEmployees)
      by apply belowMean_threshold.
    apply take_two_phase.
  - by apply earlier_selection_phases.
Qed.

(** ** The 'balanced' strategy *)









